(** * Literature review system: catalog, fallback store, migration and
      release uploader

    A shallow embedding of the parts of [app.js] (class [LiteratureManager])
    and [github-releases-uploader.js] (class [GitHubReleasesUploader]) that
    carry the storage and catalog contract, together with the properties
    of that contract.

    Conventions of the embedding.
    - A JavaScript number that holds an integer or [NaN] is an [option Z]
      ([None] is [NaN]); the fields concerned (years, citation counts, page
      numbers) never hold fractions. The integers are those of the
      program up to a magnitude of [2^53] ([Js.safe_integer]); a property
      of a number the program computes is stated within that bound.
    - A JavaScript string is a [string] of 8-bit characters; case mapping
      and white space are the ASCII ones.
    - [this.papers] and the other fields of the manager are threaded as an
      explicit record; IndexedDB, the clock, the random generator and the
      network are oracles over an abstract environment.
    - A callback handed in by a caller is a function that returns or
      throws. *)

From Stdlib Require Import ZArith String Ascii Lia List Permutation Sorted Bool.
From stdpp Require Import base option list strings pretty gmap.

Open Scope Z_scope.

(** ** JavaScript primitives used by the sources *)

Module Js.

(** Numbers: an integer or [NaN]. *)
Definition num := option Z.
Definition NaN : num := None.

(** [a < b]: false as soon as one side is [NaN]. *)
Definition lt (a b : num) : bool :=
  match a, b with
  | Some x, Some y => x <? y
  | _, _ => false
  end.

Definition gt (a b : num) : bool := lt b a.

Definition sub (a b : num) : num :=
  match a, b with
  | Some x, Some y => Some (x - y)
  | _, _ => None
  end.

(** Truthiness of a number: [0] and [NaN] are falsy. *)
Definition truthy_num (a : num) : bool :=
  match a with
  | Some x => negb (x =? 0)
  | None => false
  end.

(** [a || 0]. *)
Definition or_zero (a : num) : num :=
  if truthy_num a then a else Some 0.

(** The integers a number holds exactly, one by one: those of magnitude
    at most [2^53]. The arithmetic of this module is that of the program
    as long as its operands and results stay among them; beyond, the
    program rounds to the nearest number it can hold. *)
Definition safe_integer (n : Z) : Prop := - 2 ^ 53 <= n <= 2 ^ 53.

(** [Math.floor(a / d)] for a safe integer [a] and a small positive
    integer [d]: the quotient rounded down is the floor division of
    [Z]. *)
Definition floor_div (a : num) (d : Z) : num :=
  match a with
  | Some x => Some (x / d)
  | None => None
  end.

(** [Math.ceil(a / d)] for integers [a] and positive [d]. *)
Definition ceil_div (a d : Z) : Z := - ((- a) / d).

(** Truthiness of a string: only the empty string is falsy. *)
Definition truthy_str (s : string) : bool :=
  match s with
  | EmptyString => false
  | String _ _ => true
  end.

Definition code (c : ascii) : Z := Z.of_N (N_of_ascii c).

(** White space removed by [trim] and skipped by [parseInt]. *)
Definition is_space (c : ascii) : bool :=
  let n := code c in ((9 <=? n) && (n <=? 13)) || (n =? 32).

Fixpoint trimStart (s : string) : string :=
  match s with
  | EmptyString => EmptyString
  | String c s' => if is_space c then trimStart s' else s
  end.

Fixpoint rev_onto (s acc : string) : string :=
  match s with
  | EmptyString => acc
  | String c s' => rev_onto s' (String c acc)
  end.

Definition reverse (s : string) : string := rev_onto s EmptyString.

Definition trim (s : string) : string :=
  reverse (trimStart (reverse (trimStart s))).

(** [s.split(sep)] where [sep] is a set of one-character separators
    (a character, or a class such as [/[,;]/]): never empty. *)
Fixpoint split_by (sep : ascii -> bool) (s : string) : list string :=
  match s with
  | EmptyString => [EmptyString]
  | String c s' =>
      if sep c then EmptyString :: split_by sep s'
      else match split_by sep s' with
           | w :: ws => String c w :: ws
           | [] => [String c EmptyString]
           end
  end.

Definition split (sep : ascii) : string -> list string :=
  split_by (Ascii.eqb sep).

(** [l.join(sep)]. *)
Fixpoint join (sep : string) (l : list string) : string :=
  match l with
  | [] => EmptyString
  | [x] => x
  | x :: rest => x +:+ sep +:+ join sep rest
  end.

Definition lower_char (c : ascii) : ascii :=
  let n := code c in
  if (65 <=? n) && (n <=? 90) then ascii_of_N (Z.to_N (n + 32)) else c.

Fixpoint toLowerCase (s : string) : string :=
  match s with
  | EmptyString => EmptyString
  | String c s' => String (lower_char c) (toLowerCase s')
  end.

Fixpoint startsWith (s p : string) : bool :=
  match p, s with
  | EmptyString, _ => true
  | String _ _, EmptyString => false
  | String a p', String b s' => Ascii.eqb a b && startsWith s' p'
  end.

(** [s.includes(p)]. *)
Fixpoint includes (s p : string) : bool :=
  startsWith s p ||
  match s with
  | EmptyString => false
  | String _ s' => includes s' p
  end.

(** [s.endsWith(p)]. *)
Definition endsWith (s p : string) : bool :=
  startsWith (reverse s) (reverse p).

(** [s.length]. *)
Definition length (s : string) : Z := Z.of_nat (String.length s).

(** [encodeURIComponent(s)]: letters, digits and [- _ . ! ~ * ' ( )] are
    kept, every other byte becomes [%XX]. *)
Definition hex_digit (n : Z) : ascii :=
  ascii_of_N (Z.to_N (if n <? 10 then 48 + n else 55 + n)).

Definition unreserved (c : ascii) : bool :=
  let n := code c in
  ((48 <=? n) && (n <=? 57)) || ((65 <=? n) && (n <=? 90))
  || ((97 <=? n) && (n <=? 122))
  || (n =? 45) || (n =? 95) || (n =? 46) || (n =? 33) || (n =? 126)
  || (n =? 42) || (n =? 39) || (n =? 40) || (n =? 41).

Fixpoint encodeURIComponent (s : string) : string :=
  match s with
  | EmptyString => EmptyString
  | String c s' =>
      if unreserved c then String c (encodeURIComponent s')
      else String "%" (String (hex_digit (code c / 16))
             (String (hex_digit (code c mod 16)) (encodeURIComponent s')))
  end.

(** Value of a digit in a radix up to 36. *)
Definition digit_val (c : ascii) : option Z :=
  let n := code c in
  if (48 <=? n) && (n <=? 57) then Some (n - 48)
  else if (97 <=? n) && (n <=? 122) then Some (n - 87)
  else if (65 <=? n) && (n <=? 90) then Some (n - 55)
  else None.

(** The longest prefix of digits of the radix, read as a number;
    [acc] is [None] until a digit has been read. *)
Fixpoint parse_digits (radix : Z) (s : string) (acc : option Z) : option Z :=
  match s with
  | EmptyString => acc
  | String c s' =>
      match digit_val c with
      | Some d =>
          if d <? radix
          then parse_digits radix s' (Some (radix * default 0 acc + d))
          else acc
      | None => acc
      end
  end.

(** [parseInt(s)] without a radix argument: leading white space, a sign,
    an optional [0x] prefix, then digits; [NaN] when no digit follows. *)
Definition parseInt (s : string) : num :=
  let s0 := trimStart s in
  let '(sign, s1) :=
    match s0 with
    | String "-" r => (-1, r)
    | String "+" r => (1, r)
    | _ => (1, s0)
    end in
  let '(radix, s2) :=
    match s1 with
    | String "0" (String "x" r) => (16, r)
    | String "0" (String "X" r) => (16, r)
    | _ => (10, s1)
    end in
  match parse_digits radix s2 None with
  | Some v => Some (sign * v)
  | None => None
  end.

(** A value that can stand in an [id] field: absent, a number or a
    string. *)
Inductive value :=
  | Undefined
  | Num (n : Z)
  | Str (s : string).

#[global] Instance value_eq_dec : EqDecision value.
Proof. solve_decision. Defined.

(** [a === b] on such values. *)
Definition strict_eq (a b : value) : bool := bool_decide (a = b).

Definition truthy (v : value) : bool :=
  match v with
  | Undefined => false
  | Num n => negb (n =? 0)
  | Str s => truthy_str s
  end.

End Js.

(** ** The catalog: class [LiteratureManager] of [app.js] *)

Module Catalog.

(** A paper record, with the fields the catalog reads and writes.
    [thumbnail], [originalThumbnail] and [pdfFile] are [None] when the
    property is [null] or [undefined]. *)
Record Paper := mkPaper {
  id : Js.value;
  title : string;
  authors : list string;
  year : Js.num;
  journal : string;
  researchArea : string;
  methodology : string;
  studyType : string;
  keywords : list string;
  citations : Js.num;
  hIndex : Js.num;
  downloads : Js.num;
  abstract_ : string;
  doi : string;
  pdfUrl : string;
  websiteUrl : string;
  thumbnail : option string;
  originalThumbnail : option string;
  pdfFile : option string
}.

#[global] Instance Paper_eq_dec : EqDecision Paper.
Proof. solve_decision. Defined.

Definition set_id (v : Js.value) (p : Paper) : Paper :=
  mkPaper v (title p) (authors p) (year p) (journal p) (researchArea p)
    (methodology p) (studyType p) (keywords p) (citations p) (hIndex p)
    (downloads p) (abstract_ p) (doi p) (pdfUrl p) (websiteUrl p)
    (thumbnail p) (originalThumbnail p) (pdfFile p).

Definition set_hIndex (h : Js.num) (p : Paper) : Paper :=
  mkPaper (id p) (title p) (authors p) (year p) (journal p) (researchArea p)
    (methodology p) (studyType p) (keywords p) (citations p) h
    (downloads p) (abstract_ p) (doi p) (pdfUrl p) (websiteUrl p)
    (thumbnail p) (originalThumbnail p) (pdfFile p).

Definition set_pdfUrl (u : string) (p : Paper) : Paper :=
  mkPaper (id p) (title p) (authors p) (year p) (journal p) (researchArea p)
    (methodology p) (studyType p) (keywords p) (citations p) (hIndex p)
    (downloads p) (abstract_ p) (doi p) u (websiteUrl p)
    (thumbnail p) (originalThumbnail p) (pdfFile p).

Definition set_pdfFile (f : option string) (p : Paper) : Paper :=
  mkPaper (id p) (title p) (authors p) (year p) (journal p) (researchArea p)
    (methodology p) (studyType p) (keywords p) (citations p) (hIndex p)
    (downloads p) (abstract_ p) (doi p) (pdfUrl p) (websiteUrl p)
    (thumbnail p) (originalThumbnail p) f.

Definition set_thumbnail (t : option string) (p : Paper) : Paper :=
  mkPaper (id p) (title p) (authors p) (year p) (journal p) (researchArea p)
    (methodology p) (studyType p) (keywords p) (citations p) (hIndex p)
    (downloads p) (abstract_ p) (doi p) (pdfUrl p) (websiteUrl p)
    t (originalThumbnail p) (pdfFile p).

(** [this.filters]. [citationMin] and [citationMax] are [None] when
    [null]. *)
Record Filters := mkFilters {
  search : string;
  category : string;
  yearMin : Js.num;
  yearMax : Js.num;
  methodologies : list string;
  studyTypes : list string;
  venue : string;
  citationMin : option Js.num;
  citationMax : option Js.num
}.

(** The value given to [this.filters] by the constructor and by
    [resetFilters]. *)
Definition defaultFilters : Filters :=
  mkFilters "" "all" (Some 2000) (Some 2024) [] [] "" None None.

(** The handler of the search box:
    [this.filters.search = e.target.value.toLowerCase()]. *)
Definition set_search (v : string) (f : Filters) : Filters :=
  mkFilters (Js.toLowerCase v) (category f) (yearMin f) (yearMax f)
    (methodologies f) (studyTypes f) (venue f) (citationMin f)
    (citationMax f).

(** [arr.includes(x)] on an array of strings. *)
Definition array_includes (l : list string) (x : string) : bool :=
  existsb (String.eqb x) l.

(** The text a query is searched in (before lower-casing):
    title, authors, abstract and keywords, separated by spaces. *)
Definition searchIn (paper : Paper) : string :=
  title paper +:+ " " +:+ Js.join " " (authors paper) +:+ " " +:+
  abstract_ paper +:+ " " +:+ Js.join " " (keywords paper).

(** The callback of [this.papers.filter] in [applyFilters]. *)
Definition passes (f : Filters) (paper : Paper) : bool :=
  if Js.truthy_str (search f)
     && negb (Js.includes (Js.toLowerCase (searchIn paper)) (search f))
  then false
  else if negb (String.eqb (category f) "all")
          && negb (String.eqb (researchArea paper) (category f))
  then false
  else if Js.lt (year paper) (yearMin f) || Js.gt (year paper) (yearMax f)
  then false
  else if (0 <? Z.of_nat (length (methodologies f)))
          && negb (array_includes (methodologies f) (methodology paper))
  then false
  else if (0 <? Z.of_nat (length (studyTypes f)))
          && negb (array_includes (studyTypes f) (studyType paper))
  then false
  else if Js.truthy_str (venue f)
          && negb (String.eqb (journal paper) (venue f))
  then false
  else if match citationMin f with
          | Some m => Js.lt (citations paper) m
          | None => false
          end
  then false
  else if match citationMax f with
          | Some m => Js.gt (citations paper) m
          | None => false
          end
  then false
  else true.

(** [Array.prototype.sort] with a comparator: a stable sort, in which a
    comparator result of [NaN] counts as [0]. *)
Section Sort.
Context {A : Type} (cmp : A -> A -> Js.num).

Definition after (a b : A) : bool :=
  match cmp a b with
  | Some v => 0 <? v
  | None => false
  end.

Fixpoint insert_sorted (x : A) (l : list A) : list A :=
  match l with
  | [] => [x]
  | y :: l' => if after x y then y :: insert_sorted x l' else x :: l
  end.

Definition array_sort (l : list A) : list A := foldr insert_sorted [] l.
End Sort.

(** [arr.slice(start, end)], with negative positions counted from the
    end. *)
Definition slice {A : Type} (l : list A) (start end_ : Z) : list A :=
  let len := Z.of_nat (length l) in
  let k := if start <? 0 then Z.max (len + start) 0 else Z.min start len in
  let final := if end_ <? 0 then Z.max (len + end_) 0 else Z.min end_ len in
  take (Z.to_nat (final - k)) (drop (Z.to_nat k) l).

(** [this.papersPerPage], set once by the constructor. *)
Definition papersPerPage : Z := 12.

(** A property of an uploaded JSON object or CSV row: a string, a number
    or an array of strings. The object itself is a finite map from keys to
    such values. *)
Inductive Raw :=
  | RStr (s : string)
  | RNum (n : Z)
  | RArr (l : list string).

Definition raw_truthy (v : Raw) : bool :=
  match v with
  | RStr s => Js.truthy_str s
  | RNum n => negb (n =? 0)
  | RArr _ => true
  end.

(** [data.k1 || data.k2 || ... || dflt]. *)
Fixpoint first_truthy (data : gmap string Raw) (keys : list string)
    (dflt : Raw) : Raw :=
  match keys with
  | [] => dflt
  | k :: keys' =>
      match data !! k with
      | Some v => if raw_truthy v then v else first_truthy data keys' dflt
      | None => first_truthy data keys' dflt
      end
  end.

(** [String(v)], used where a text field receives the value. *)
Definition raw_to_string (v : Raw) : string :=
  match v with
  | RStr s => s
  | RNum n => pretty n
  | RArr l => Js.join "," l
  end.

(** [parseInt(v)]. *)
Definition raw_parseInt (v : Raw) : Js.num :=
  match v with
  | RNum n => Some n
  | _ => Js.parseInt (raw_to_string v)
  end.

(** [v.split(/[,;]/)]: only a string has the method; [None] is the
    [TypeError] otherwise. *)
Definition raw_split (v : Raw) : option (list string) :=
  match v with
  | RStr s =>
      Some (Js.split_by (fun c => Ascii.eqb c "," || Ascii.eqb c ";") s)
  | _ => None
  end.

(** What the manager does not own: the IndexedDB wrapper
    ([IndexedDBStorage], whose methods return promises that are fulfilled
    or rejected), the clock and random generator behind a generated id,
    the quota of [localStorage], and the collation of [localeCompare].
    [true] is a fulfilled promise, [false] a rejected one. *)
Class Environment (World : Type) := {
  (** ['paper_' + Date.now() + '_' + Math.random().toString(36).substr(2, 9)] *)
  freshId : World -> string * World;
  (** [new Date().getFullYear()] *)
  currentYear : World -> Z;
  (** [this.storage.savePaper(paper, pdfFile)] *)
  savePaper : Paper -> option string -> World -> bool * World;
  (** [this.storage.saveThumbnail(id, thumbnail)] *)
  saveThumbnail : Js.value -> string -> World -> bool * World;
  (** [this.storage.getPDFFile(id)]: rejected, or the [url] of the stored
      file when there is one *)
  getPDFFile : Js.value -> World -> option (option string) * World;
  (** whether [localStorage.setItem] accepts the serialised payload
      (otherwise it throws [QuotaExceededError]) *)
  setItemOk : list Paper -> bool;
  (** [a.localeCompare(b)] *)
  localeCompare : string -> string -> Z
}.

(** A call of [showNotification(message, type)]; of a message built by
    interpolation only the fixed part is kept. *)
Record Notification := mkNotification {
  message : string;
  kind : string
}.

Section Manager.
Context {World : Type} `{Environment World}.

(** The fields of the [LiteratureManager] instance, the
    ['literaturePapers'] item of [localStorage] ([None] when the item
    is absent), the environment, and the notifications shown so far. *)
Record LiteratureManager := mkManager {
  papers : list Paper;
  filteredPapers : list Paper;
  currentSort : string;
  currentPage : Z;
  storageInitialized : bool;
  filters : Filters;
  currentEditingPaper : option Paper;
  isEditMode : bool;
  localStorage : option (list Paper);
  world : World;
  notifications : list Notification
}.

Definition set_papers (l : list Paper) (st : LiteratureManager) :=
  mkManager l (filteredPapers st) (currentSort st) (currentPage st)
    (storageInitialized st) (filters st) (currentEditingPaper st)
    (isEditMode st) (localStorage st) (world st) (notifications st).

Definition set_filteredPapers (l : list Paper) (st : LiteratureManager) :=
  mkManager (papers st) l (currentSort st) (currentPage st)
    (storageInitialized st) (filters st) (currentEditingPaper st)
    (isEditMode st) (localStorage st) (world st) (notifications st).

Definition set_currentPage (n : Z) (st : LiteratureManager) :=
  mkManager (papers st) (filteredPapers st) (currentSort st) n
    (storageInitialized st) (filters st) (currentEditingPaper st)
    (isEditMode st) (localStorage st) (world st) (notifications st).

Definition set_currentEditingPaper (p : option Paper)
    (st : LiteratureManager) :=
  mkManager (papers st) (filteredPapers st) (currentSort st)
    (currentPage st) (storageInitialized st) (filters st) p
    (isEditMode st) (localStorage st) (world st) (notifications st).

Definition set_isEditMode (b : bool) (st : LiteratureManager) :=
  mkManager (papers st) (filteredPapers st) (currentSort st)
    (currentPage st) (storageInitialized st) (filters st)
    (currentEditingPaper st) b (localStorage st) (world st)
    (notifications st).

Definition set_localStorage (v : option (list Paper))
    (st : LiteratureManager) :=
  mkManager (papers st) (filteredPapers st) (currentSort st)
    (currentPage st) (storageInitialized st) (filters st)
    (currentEditingPaper st) (isEditMode st) v (world st)
    (notifications st).

Definition set_world (w : World) (st : LiteratureManager) :=
  mkManager (papers st) (filteredPapers st) (currentSort st)
    (currentPage st) (storageInitialized st) (filters st)
    (currentEditingPaper st) (isEditMode st) (localStorage st) w
    (notifications st).

Definition showNotification (msg type : string)
    (st : LiteratureManager) :=
  mkManager (papers st) (filteredPapers st) (currentSort st)
    (currentPage st) (storageInitialized st) (filters st)
    (currentEditingPaper st) (isEditMode st) (localStorage st) (world st)
    (notifications st ++ [mkNotification msg type]).

(** *** Filtering, sorting, pagination *)

(** The comparator of [sortPapers]. *)
Definition compareFn (sortKey : string) (a b : Paper) : Js.num :=
  if String.eqb sortKey "year-desc" then Js.sub (year b) (year a)
  else if String.eqb sortKey "year-asc" then Js.sub (year a) (year b)
  else if String.eqb sortKey "citations-desc"
  then Js.sub (citations b) (citations a)
  else if String.eqb sortKey "citations-asc"
  then Js.sub (citations a) (citations b)
  else if String.eqb sortKey "title-asc"
  then Some (localeCompare (title a) (title b))
  else Js.sub (year b) (year a).

(** [sortPapers] sorts [this.filteredPapers] in place. *)
Definition sortPapers (st : LiteratureManager) : LiteratureManager :=
  set_filteredPapers
    (array_sort (compareFn (currentSort st)) (filteredPapers st)) st.

(** [renderPapersGrid]: the records put on the grid
    ([paginatedPapers]); an empty list shows the empty-state panel. *)
Definition renderPapersGrid (st : LiteratureManager) : list Paper :=
  let startIndex := (currentPage st - 1) * papersPerPage in
  let endIndex :=
    Z.min (startIndex + papersPerPage)
          (Z.of_nat (length (filteredPapers st))) in
  slice (filteredPapers st) startIndex endIndex.

(** [totalPages] of [updatePagination]. *)
Definition totalPages (st : LiteratureManager) : Z :=
  Js.ceil_div (Z.of_nat (length (filteredPapers st))) papersPerPage.

(** [applyFilters]: a fresh array from [this.papers.filter], sorted,
    and the page reset; statistics, grid and pagination are then
    redrawn from the new fields. *)
Definition applyFilters (st : LiteratureManager) : LiteratureManager :=
  let st1 :=
    set_filteredPapers (List.filter (passes (filters st)) (papers st)) st in
  let st2 := sortPapers st1 in
  set_currentPage 1 st2.

(** [goToPage(page)]; the grid and the pagination bar are redrawn from
    the new [currentPage]. *)
Definition goToPage (page : Z) (st : LiteratureManager)
    : LiteratureManager :=
  set_currentPage page st.

(** *** Storage: [saveData] and [migrateToIndexedDB] *)

(** [if (!paper.id) paper.id = 'paper_' + ...]: the record is changed in
    place, so the new id is seen through [this.papers]. *)
Definition ensure_id (paper : Paper) (w : World) : Paper * World :=
  if negb (Js.truthy (id paper))
  then let '(s, w') := freshId w in (set_id (Js.Str s) paper, w')
  else (paper, w).

(** The loop of the IndexedDB branch of [saveData]: a rejected
    [savePaper] is caught inside the loop. *)
Fixpoint saveData_loop (l : list Paper) (savedCount : Z) (w : World)
    : list Paper * Z * World :=
  match l with
  | [] => ([], savedCount, w)
  | paper :: rest =>
      let '(paper1, w1) := ensure_id paper w in
      let '(ok, w2) := savePaper paper1 None w1 in
      let '(rest', n, w3) :=
        saveData_loop rest (if ok then savedCount + 1 else savedCount) w2 in
      (paper1 :: rest', n, w3)
  end.

(** The copy of a record written to [localStorage]:
    [{...paper, pdfFile: undefined,
      thumbnail: paper.thumbnail && paper.thumbnail.length < 50000
                 ? paper.thumbnail : null}]. *)
Definition localCopy (paper : Paper) : Paper :=
  mkPaper (id paper) (title paper) (authors paper) (year paper)
    (journal paper) (researchArea paper) (methodology paper)
    (studyType paper) (keywords paper) (citations paper) (hIndex paper)
    (downloads paper) (abstract_ paper) (doi paper) (pdfUrl paper)
    (websiteUrl paper)
    (match thumbnail paper with
     | Some t =>
         if Js.truthy_str t && (Js.length t <? 50000) then Some t else None
     | None => None
     end)
    (originalThumbnail paper)
    None.

(** [papersToSave] of the [localStorage] branch of [saveData]. *)
Definition papersToSave (st : LiteratureManager) : list Paper :=
  map localCopy (papers st).

(** [saveData]: the returned boolean, and the manager afterwards. The
    function is [async]; callers that do not await it still have its
    effects applied in the order written here. The ids are assigned in
    place: [papers] shows them, and so does, in the program, any other
    list holding the same record objects; [filteredPapers] is kept here
    by value, as it was, and is that of the program as long as no id is
    assigned. *)
Definition saveData (st : LiteratureManager) : bool * LiteratureManager :=
  if storageInitialized st then
    let '(papers', _, w) := saveData_loop (papers st) 0 (world st) in
    (true, set_world w (set_papers papers' st))
  else
    if setItemOk (papersToSave st)
    then (true, set_localStorage (Some (papersToSave st)) st)
    else (false,
          showNotification
            "Storage quota exceeded! Please upgrade to secure storage or clear old data."
            "error" st).

(** One turn of the loop of [migrateToIndexedDB]: the record as it is
    after the turn, whether the turn reached [migratedCount++] (a
    rejection is caught and logged inside the loop), and the
    environment. *)
Definition migrate_one (paper : Paper) (w : World) : Paper * bool * World :=
  let '(paper1, w1) := ensure_id paper w in
  let '(ok, w2) := savePaper paper1 None w1 in
  if ok then
    match thumbnail paper1 with
    | Some t =>
        if Js.truthy_str t
        then let '(ok', w3) := saveThumbnail (id paper1) t w2 in
             (paper1, ok', w3)
        else (paper1, true, w2)
    | None => (paper1, true, w2)
    end
  else (paper1, false, w2).

(** The outcome of the whole loop. [attempts] lists, in order, every
    record handed to [savePaper] with the outcome of its turn. *)
Record Migration := mkMigration {
  migrated : list Paper;
  attempts : list (Paper * bool);
  migratedCount : Z;
  world_after : World
}.

Fixpoint migrate_loop (l : list Paper) (count : Z) (w : World) : Migration :=
  match l with
  | [] => mkMigration [] [] count w
  | paper :: rest =>
      let '(paper1, ok, w1) := migrate_one paper w in
      let r := migrate_loop rest (if ok then count + 1 else count) w1 in
      mkMigration (paper1 :: migrated r) ((paper1, ok) :: attempts r)
        (migratedCount r) (world_after r)
  end.

(** [migrateToIndexedDB]. As in [saveData], an id given to a record is
    assigned in place, and [filteredPapers] is kept by value. *)
Definition migrateToIndexedDB (st : LiteratureManager) : LiteratureManager :=
  if negb (storageInitialized st) || (Z.of_nat (length (papers st)) =? 0)
  then st
  else
    let r := migrate_loop (papers st) 0 (world st) in
    let st1 := set_world (world_after r) (set_papers (migrated r) st) in
    if 0 <? migratedCount r
    then showNotification "Successfully migrated papers to secure storage!"
           "success" (set_localStorage None st1)
    else st1.

(** *** The edit path: [savePaperDetails] *)

(** The values of the inputs of the edit form. *)
Record EditForm := mkEditForm {
  edit_authors : string;
  edit_journal : string;
  edit_year : string;
  edit_researchArea : string;
  edit_methodology : string;
  edit_studyType : string;
  edit_abstract : string;
  edit_keywords : string;
  edit_citations : string;
  edit_downloads : string;
  edit_doi : string
}.

(** [value.split(',').map(a => a.trim()).filter(a => a)]. *)
Definition split_trim_nonempty (value : string) : list string :=
  List.filter Js.truthy_str (map Js.trim (Js.split "," value)).

(** [editedPaper] as collected from the form, before [hIndex] is set. *)
Definition collect (cur : Paper) (f : EditForm) : Paper :=
  mkPaper (id cur) (title cur)
    (split_trim_nonempty (edit_authors f))
    (Js.parseInt (edit_year f))
    (Js.trim (edit_journal f))
    (edit_researchArea f)
    (edit_methodology f)
    (edit_studyType f)
    (split_trim_nonempty (edit_keywords f))
    (Js.or_zero (Js.parseInt (edit_citations f)))
    (hIndex cur)
    (Js.or_zero (Js.parseInt (edit_downloads f)))
    (Js.trim (edit_abstract f))
    (Js.trim (edit_doi f))
    (pdfUrl cur) (websiteUrl cur) (thumbnail cur) (originalThumbnail cur)
    (pdfFile cur).

(** [arr.findIndex(f)], [None] for [-1]. *)
Fixpoint findIndex {A : Type} (f : A -> bool) (l : list A) : option nat :=
  match l with
  | [] => None
  | x :: l' => if f x then Some 0%nat else S <$> findIndex f l'
  end.

(** The two guards of [savePaperDetails]: the message of the notification
    when one of them fires. *)
Definition validation_error (editedPaper : Paper) : option string :=
  if (Z.of_nat (length (authors editedPaper)) =? 0)
     || negb (Js.truthy_str (journal editedPaper))
     || negb (Js.truthy_num (year editedPaper))
  then Some "Please fill in required fields: authors, journal and year"%string
  else if Js.lt (year editedPaper) (Some 1900)
          || Js.gt (year editedPaper) (Some 2030)
  then Some "Please enter a valid publication year"%string
  else None.

(** [savePaperDetails]. The form is [None] when its inputs are not in the
    document (reading [.value] of [null] throws, and the [catch] reports
    it). *)
Definition savePaperDetails (form : option EditForm)
    (st : LiteratureManager) : LiteratureManager :=
  match currentEditingPaper st with
  | None => st
  | Some cur =>
      match form with
      | None => showNotification "Save failed: " "error" st
      | Some f =>
          let editedPaper := collect cur f in
          match validation_error editedPaper with
          | Some msg => showNotification msg "error" st
          | None =>
              match findIndex (fun p => Js.strict_eq (id p) (id cur))
                      (papers st) with
              | None => st
              | Some paperIndex =>
                  let editedPaper' :=
                    set_hIndex (Js.floor_div (citations editedPaper) 3)
                      editedPaper in
                  let st1 :=
                    set_currentEditingPaper (Some editedPaper')
                      (set_papers (<[paperIndex := editedPaper']> (papers st))
                         st) in
                  let st2 := snd (saveData st1) in
                  (* [this.currentEditingPaper] and
                     [this.papers[paperIndex]] are one object: an id given
                     to it by [saveData] shows through both *)
                  let st2 :=
                    set_currentEditingPaper (papers st2 !! paperIndex) st2 in
                  let st3 := applyFilters st2 in
                  let st4 := set_isEditMode false st3 in
                  showNotification "Paper information saved successfully!"
                    "success" st4
              end
          end
      end
  end.

(** *** Adding records: [normalizepaperData], [handleManualEntry],
    [addPaper] *)

(** [normalizepaperData(data, selectedCategory)]; [None] when a [.split]
    is applied to a value that is not a string. *)
Definition normalizepaperData (data : gmap string Raw)
    (selectedCategory : string) (st : LiteratureManager) : option Paper :=
  let researchArea' :=
    if String.eqb selectedCategory "auto"
    then raw_to_string
           (first_truthy data ["researchArea"; "Research Field"]
              (RStr "General"))
    else selectedCategory in
  authors' ←
    match data !! "authors" with
    | Some (RArr l) => Some l
    | _ =>
        map Js.trim <$>
          raw_split (first_truthy data ["authors"; "Authors"] (RStr "Unknown"))
    end;
  keywords' ←
    match data !! "keywords" with
    | Some (RArr l) => Some l
    | _ =>
        (fun l => List.filter Js.truthy_str (map Js.trim l)) <$>
          raw_split (first_truthy data ["keywords"; "Keywords"] (RStr ""))
    end;
  Some
    (mkPaper
       (Js.Num (Z.of_nat (length (papers st)) + 1))
       (raw_to_string (first_truthy data ["title"; "Title"] (RStr "Untitled")))
       authors'
       (raw_parseInt
          (first_truthy data ["year"; "Year"]
             (RNum (currentYear (world st)))))
       (raw_to_string
          (first_truthy data ["journal"; "Journal"; "venue"]
             (RStr "Unknown Journal")))
       researchArea'
       (raw_to_string
          (first_truthy data ["methodology"; "Method"] (RStr "Experimental")))
       (raw_to_string
          (first_truthy data ["studyType"; "Type"] (RStr "Empirical")))
       keywords'
       (raw_parseInt (first_truthy data ["citations"; "Citations"] (RNum 0)))
       (raw_parseInt (first_truthy data ["hIndex"; "H-Index"] (RNum 0)))
       (raw_parseInt (first_truthy data ["downloads"; "Downloads"] (RNum 0)))
       (raw_to_string (first_truthy data ["abstract"; "Abstract"] (RStr "")))
       (raw_to_string (first_truthy data ["doi"; "DOI"] (RStr "")))
       (raw_to_string (first_truthy data ["pdfUrl"; "PDF Link"] (RStr "#")))
       (raw_to_string
          (first_truthy data ["websiteUrl"; "Website Link"] (RStr "#")))
       None None None).

(** [addPaper(paperData)]: the returned id ([None] when the function
    throws, after notifying), and the manager afterwards. *)
Definition addPaper (paperData : Paper) (st : LiteratureManager)
    : option Js.value * LiteratureManager :=
  let failed st' :=
    (None, showNotification "Error adding paper: " "error" st') in
  let finish (p : Paper) st' :=
    (Some (id p), set_currentPage 1 (applyFilters st')) in
  let '(paperData1, w1) := ensure_id paperData (world st) in
  if storageInitialized st then
    let '(ok, w2) := savePaper paperData1 (pdfFile paperData1) w1 in
    if negb ok then failed (set_world w2 st) else
    let '(ok', w3) :=
      match thumbnail paperData1 with
      | Some t =>
          if Js.truthy_str t then saveThumbnail (id paperData1) t w2
          else (true, w2)
      | None => (true, w2)
      end in
    if negb ok' then failed (set_world w3 st) else
    let '(fetched, w4) :=
      if bool_decide (is_Some (pdfFile paperData1))
         && negb (Js.startsWith (pdfUrl paperData1) "data:")
      then
        let '(r, w4) := getPDFFile (id paperData1) w3 in
        (match r with
         | None => None
         | Some None => Some paperData1
         | Some (Some url) => Some (set_pdfUrl url paperData1)
         end, w4)
      else (Some paperData1, w3) in
    match fetched with
    | None => failed (set_world w4 st)
    | Some paperData2 =>
        let st1 := set_world w4 (set_papers (papers st ++ [paperData2]) st) in
        let lightweightPaper := set_pdfFile None paperData2 in
        let localPapers := default [] (localStorage st) ++ [lightweightPaper] in
        let st2 :=
          if setItemOk localPapers
          then set_localStorage (Some localPapers) st1
          else st1 in
        finish paperData2 st2
    end
  else
    let st1 := set_papers (papers st ++ [paperData1]) (set_world w1 st) in
    let st2 := snd (saveData st1) in
    finish paperData1 st2.

(** The values of the inputs of the manual entry form. *)
Record ManualForm := mkManualForm {
  titleInput : string;
  authorsInput : string;
  yearInput : string;
  journalInput : string;
  researchAreaInput : string;
  methodologyInput : string;
  studyTypeInput : string;
  keywordsInput : string;
  citationsInput : string;
  downloadsInput : string;
  abstractInput : string;
  doiInput : string
}.

(** [paperData] of [handleManualEntry]. *)
Definition manualPaperData (f : ManualForm) (st : LiteratureManager) : Paper :=
  mkPaper
    (Js.Num (Z.of_nat (length (papers st)) + 1))
    (titleInput f)
    (map Js.trim (Js.split "," (authorsInput f)))
    (Js.parseInt (yearInput f))
    (journalInput f)
    (researchAreaInput f)
    (methodologyInput f)
    (studyTypeInput f)
    (split_trim_nonempty (keywordsInput f))
    (Js.or_zero (Js.parseInt (citationsInput f)))
    (Js.floor_div (Js.or_zero (Js.parseInt (citationsInput f))) 3)
    (Js.or_zero (Js.parseInt (downloadsInput f)))
    (abstractInput f)
    (doiInput f)
    "#" "#" None None None.

(** [handleManualEntry]: [addPaper] is called and not awaited, then the
    success notification is shown. With IndexedDB, [addPaper] is
    suspended at its first [await], the call of [savePaper], before it
    has shown anything: the success notification comes first, and
    [addPaper] runs on from there. Without IndexedDB, [addPaper] runs
    without a pause up to the end of [saveData], which shows the only
    notification of that path; what is left of it after the success
    notification shows nothing. *)
Definition handleManualEntry (f : ManualForm) (st : LiteratureManager)
    : LiteratureManager :=
  let paperData := manualPaperData f st in
  if storageInitialized st
  then snd (addPaper paperData
              (showNotification "Paper added successfully!" "success" st))
  else showNotification "Paper added successfully!" "success"
         (snd (addPaper paperData st)).

(** [parseJSON] once the file is read and parsed: the required keys are
    checked, then the object is normalised; [None] when it throws. *)
Definition parseJSON (data : gmap string Raw) (selectedCategory : string)
    (st : LiteratureManager) : option Paper :=
  let present k :=
    match data !! k with
    | Some v => raw_truthy v
    | None => false
    end in
  if negb (present "title"%string) || negb (present "authors"%string)
     || negb (present "year"%string)
  then None
  else normalizepaperData data selectedCategory st.

End Manager.

End Catalog.


(** ** The release uploader: class [GitHubReleasesUploader] of
    [github-releases-uploader.js] *)

Module Uploader.

(** What a call returns: a value, or an [Error] with its message. *)
Inductive Try (A : Type) :=
  | Returned (a : A)
  | Thrown (msg : string).
Arguments Returned {A} a.
Arguments Thrown {A} msg.

(** The JSON body of a response of the releases API, with the properties
    the uploader reads; a property the body does not have is [None]. *)
Record ResponseJson := mkResponseJson {
  json_message : option string;
  json_id : option Z;
  json_name : option string;
  tag_name : option string;
  html_url : option string;
  browser_download_url : option string
}.

(** What [await fetch(url, init)] gives: a rejection (the network failed),
    or a response with its [ok] flag and its body. *)
Inductive FetchOutcome :=
  | Rejected (msg : string)
  | Response (ok : bool) (body : ResponseJson).

(** The network: the only thing the uploader does not own. *)
Class Network (Net : Type) := {
  fetch : string -> string -> Net -> FetchOutcome * Net
}.

(** The fields of the uploader; an option left out by the caller is the
    empty string for [token] (falsy either way). *)
Record Config := mkConfig {
  repoOwner : string;
  repoName : string;
  token : string
}.

Definition apiBase : string := "https://api.github.com".

(** An entry of [exportResult.pdfFiles], as [preparePDFFilesForRelease]
    builds it. *)
Record PdfFile := mkPdfFile {
  paperId : Js.value;
  fileName : string;
  standardFileName : string;
  blob : string
}.

(** An entry of the array returned by [uploadPDFs]. *)
Record UploadResult := mkUploadResult {
  success : bool;
  result_fileName : string;
  result_paperId : Js.value;
  downloadUrl : option string;
  cdnUrl : option string;
  error : option string
}.

(** The argument of a call of [onProgress] by [uploadPDFs]. *)
Record Progress := mkProgress {
  current : Z;
  total : Z;
  progress_fileName : string;
  status : string;
  progress_error : option string
}.

(** A property of a JSON file of the bundle: a primitive, or any other
    JSON value (array or object), which the uploader never looks into. *)
Inductive Json :=
  | JVal (v : Js.value)
  | JOther (text : string).

(** [${x}] of a property that may be [undefined]. *)
Definition interpolate (x : option string) : string :=
  default "undefined"%string x.

(** [x || dflt] for a string property. *)
Definition or_else (x : option string) (dflt : string) : string :=
  match x with
  | Some s => if Js.truthy_str s then s else dflt
  | None => dflt
  end.

(** [obj.id] of a JSON file. *)
Definition json_get (file : gmap string Json) (key : string) : Json :=
  default (JVal Js.Undefined) (file !! key).

(** [r.paperId === paperData.id]: an array or object is never identical
    to the primitive in [paperId]. *)
Definition same_id (v : Js.value) (j : Json) : bool :=
  match j with
  | JVal w => Js.strict_eq v w
  | JOther _ => false
  end.

(** A progress callback handed in by the caller: for the report it is
    called with, it either returns ([None]) or throws an error, of which
    the message is kept. *)
Definition Callback (A : Type) : Type := A -> option string.

(** [if (onProgress) { onProgress(report) }]: the reports made to the
    callback, and the message of what the callback throws, if it does. *)
Definition notify {A : Type} (onProgress : option (Callback A)) (report : A)
    : list A * option string :=
  match onProgress with
  | None => ([], None)
  | Some callback => ([report], callback report)
  end.

(** The callback, if there is one, returns from every call. *)
Definition returns_normally {A : Type} (onProgress : option (Callback A))
    : Prop :=
  match onProgress with
  | None => True
  | Some callback => forall report, callback report = None
  end.

(** The argument of a call of [onProgress] by [deployToGitHubReleases]:
    a step with its message, or a report of [uploadPDFs] under the step
    [uploading_pdfs]. *)
Inductive DeployProgress :=
  | StepMessage (step message : string)
  | StepUpload (step : string) (progress : Progress).

(** The entry pushed for a file whose upload returned [result]. *)
Definition success_entry (u : Config) (pdfFile : PdfFile)
    (result : ResponseJson) : UploadResult :=
  mkUploadResult true (standardFileName pdfFile) (paperId pdfFile)
    (browser_download_url result)
    (Some ("https://cdn.jsdelivr.net/gh/" +:+ repoOwner u +:+ "/"
           +:+ repoName u +:+ "@" +:+ or_else (tag_name result) "latest"
           +:+ "/" +:+ standardFileName pdfFile))
    None.

(** The entry pushed by the [catch] for the error caught. *)
Definition failure_entry (pdfFile : PdfFile) (msg : string) : UploadResult :=
  mkUploadResult false (standardFileName pdfFile) (paperId pdfFile)
    None None (Some msg).

Section Releases.
Context {Net : Type} `{Network Net}.

(** [createRelease(releaseInfo)]; [releaseInfo] is the serialised body. *)
Definition createRelease (u : Config) (releaseInfo : string) (net : Net)
    : Try ResponseJson * Net :=
  if negb (Js.truthy_str (token u))
  then (Thrown "GitHub token is required for creating releases", net)
  else
    let '(r, net') :=
      fetch (apiBase +:+ "/repos/" +:+ repoOwner u +:+ "/" +:+ repoName u
             +:+ "/releases") releaseInfo net in
    match r with
    | Rejected msg => (Thrown msg, net')
    | Response ok body =>
        if negb ok
        then (Thrown ("Failed to create release: "
                      +:+ interpolate (json_message body)), net')
        else (Returned body, net')
    end.

(** [uploadAsset(releaseId, fileName, fileBlob)]. *)
Definition uploadAsset (u : Config) (releaseId : option Z)
    (fileName' : string) (fileBlob : string) (net : Net)
    : Try ResponseJson * Net :=
  if negb (Js.truthy_str (token u))
  then (Thrown "GitHub token is required for uploading assets", net)
  else
    let uploadUrl :=
      "https://uploads.github.com/repos/" +:+ repoOwner u +:+ "/"
      +:+ repoName u +:+ "/releases/"
      +:+ interpolate (pretty <$> releaseId) +:+ "/assets?name="
      +:+ Js.encodeURIComponent fileName' in
    let '(r, net') := fetch uploadUrl fileBlob net in
    match r with
    | Rejected msg => (Thrown msg, net')
    | Response ok body =>
        if negb ok
        then (Thrown ("Failed to upload asset " +:+ fileName' +:+ ": "
                      +:+ interpolate (json_message body)), net')
        else (Returned body, net')
    end.

(** One turn of the loop of [uploadPDFs], for the file at index [i]: the
    entries pushed on [results], the progress reported, the message of
    an error that leaves the loop, and the network afterwards. The
    callback is called inside the [try], after the entry of a success is
    pushed: if it throws there, the [catch] pushes a second entry, a
    failure, for the same file. The [catch] calls the callback again,
    and what is thrown there leaves the loop. The pause between two
    uploads is not modelled. *)
Definition upload_one (u : Config) (releaseId : option Z) (total' : Z)
    (i : Z) (pdfFile : PdfFile) (onProgress : option (Callback Progress))
    (net : Net)
    : list UploadResult * list Progress * option string * Net :=
  let caught (msg : string) :=
    notify onProgress
      (mkProgress (i + 1) total' (standardFileName pdfFile) "error"
         (Some msg)) in
  let '(r, net') :=
    uploadAsset u releaseId (standardFileName pdfFile) (blob pdfFile) net in
  match r with
  | Returned result =>
      let '(reported, thrown) :=
        notify onProgress
          (mkProgress (i + 1) total' (standardFileName pdfFile) "uploaded"
             None) in
      match thrown with
      | None => ([success_entry u pdfFile result], reported, None, net')
      | Some msg =>
          let '(reported', thrown') := caught msg in
          ([success_entry u pdfFile result; failure_entry pdfFile msg],
           reported ++ reported', thrown', net')
      end
  | Thrown msg =>
      let '(reported, thrown) := caught msg in
      ([failure_entry pdfFile msg], reported, thrown, net')
  end.

Fixpoint upload_loop (u : Config) (releaseId : option Z) (total' : Z)
    (i : Z) (pdfFiles : list PdfFile) (onProgress : option (Callback Progress))
    (net : Net)
    : list UploadResult * list Progress * option string * Net :=
  match pdfFiles with
  | [] => ([], [], None, net)
  | pdfFile :: rest =>
      let '(entries, reported, thrown, net1) :=
        upload_one u releaseId total' i pdfFile onProgress net in
      match thrown with
      | Some msg => (entries, reported, Some msg, net1)
      | None =>
          let '(rs, ps, thrown', net2) :=
            upload_loop u releaseId total' (i + 1) rest onProgress net1 in
          (entries ++ rs, reported ++ ps, thrown', net2)
      end
  end.

(** [uploadPDFs(releaseId, pdfFiles, onProgress)]: the results, or the
    error that left the loop; the arguments of the calls of [onProgress];
    and the network afterwards. *)
Definition uploadPDFs (u : Config) (releaseId : option Z)
    (pdfFiles : list PdfFile) (onProgress : option (Callback Progress))
    (net : Net)
    : Try (list UploadResult) * list Progress * Net :=
  let '(results, reported, thrown, net') :=
    upload_loop u releaseId (Z.of_nat (length pdfFiles)) 0 pdfFiles
      onProgress net in
  (match thrown with
   | Some msg => Thrown msg
   | None => Returned results
   end, reported, net').

(** The test of the paths rewritten by [updateCDNUrls]. *)
Definition is_paper_file (filePath : string) : bool :=
  Js.includes filePath "papers/" && Js.endsWith filePath ".json".

(** [updateCDNUrls(jsonFiles, tagName, uploadResults)]; [tagName] is not
    read by the body of the function. *)
Definition updateCDNUrls (jsonFiles : gmap string (gmap string Json))
    (tagName : option string) (uploadResults : list UploadResult)
    : gmap string (gmap string Json) :=
  let successfulUploads := List.filter success uploadResults in
  map_imap
    (fun filePath paperData =>
       Some
         (if is_paper_file filePath then
            match List.find
                    (fun r => same_id (result_paperId r)
                                (json_get paperData "id"))
                    successfulUploads with
            | Some uploadResult =>
                <["pdfUrl"%string :=
                    JVal (match cdnUrl uploadResult with
                          | Some url => Js.Str url
                          | None => Js.Undefined
                          end)]> paperData
            | None => paperData
            end
          else paperData))
    jsonFiles.

(** The argument of [deployToGitHubReleases]. *)
Record ExportResult := mkExportResult {
  releaseInfo : string;
  pdfFiles : list PdfFile;
  jsonFiles : gmap string (gmap string Json)
}.

(** [summary] of [generateDeploymentInstructions]. *)
Record Summary := mkSummary {
  totalPDFs : Z;
  successfulUploads : Z;
  failedUploads : Z;
  jsonFilesCount : Z
}.

(** The object returned by [deployToGitHubReleases]; of [instructions]
    the summary is kept. *)
Record DeployOutcome := mkDeployOutcome {
  release : ResponseJson;
  uploadResults : list UploadResult;
  deployed_jsonFiles : gmap string (gmap string Json);
  cdnBaseUrl : string;
  summary : Summary
}.

Definition generateSummary (results : list UploadResult)
    (files : gmap string (gmap string Json)) : Summary :=
  mkSummary
    (Z.of_nat (length results))
    (Z.of_nat (length (List.filter success results)))
    (Z.of_nat (length (List.filter (fun r => negb (success r)) results)))
    (Z.of_nat (size files)).

(** [deployToGitHubReleases(exportResult, onProgress)]: whatever is
    thrown, by [createRelease], by [uploadPDFs] or by the callback, is
    logged and thrown again. *)
Definition deployToGitHubReleases (u : Config) (exportResult : ExportResult)
    (onProgress : option (Callback DeployProgress)) (net : Net)
    : Try DeployOutcome * Net :=
  match snd (notify onProgress
               (StepMessage "creating_release" "Creating GitHub release..."))
  with
  | Some msg => (Thrown msg, net)
  | None =>
      let '(r, net1) := createRelease u (releaseInfo exportResult) net in
      match r with
      | Thrown msg => (Thrown msg, net1)
      | Returned release' =>
          let base :=
            "https://cdn.jsdelivr.net/gh/" +:+ repoOwner u +:+ "/"
            +:+ repoName u +:+ "@" +:+ interpolate (tag_name release')
            +:+ "/" in
          if 0 <? Z.of_nat (length (pdfFiles exportResult)) then
            match snd (notify onProgress
                         (StepMessage "uploading_pdfs"
                            ("Uploading "
                             +:+ pretty (Z.of_nat
                                           (length (pdfFiles exportResult)))
                             +:+ " PDF files...")))
            with
            | Some msg => (Thrown msg, net1)
            | None =>
                let forward : Callback Progress :=
                  fun progress =>
                    snd (notify onProgress
                           (StepUpload "uploading_pdfs" progress)) in
                let '(uploaded, _, net2) :=
                  uploadPDFs u (json_id release') (pdfFiles exportResult)
                    (Some forward) net1 in
                match uploaded with
                | Thrown msg => (Thrown msg, net2)
                | Returned results =>
                    let updatedJsonFiles :=
                      updateCDNUrls (jsonFiles exportResult)
                        (tag_name release') results in
                    (Returned
                       (mkDeployOutcome release' results updatedJsonFiles base
                          (generateSummary results updatedJsonFiles)), net2)
                end
            end
          else
            (Returned
               (mkDeployOutcome release' [] (jsonFiles exportResult) base
                  (generateSummary [] (jsonFiles exportResult))), net1)
      end
  end.

End Releases.

End Uploader.


(** ** Reference notions the properties are stated against *)

Module Reference.
Import Catalog.

(** The required-field policy of an edit, as the specification words it:
    authors non-empty, venue non-empty, year present and within
    [1900, 2030]. *)
Definition required_policy (p : Paper) : Prop :=
  authors p <> [] /\ journal p <> EmptyString /\
  exists y, year p = Some y /\ 1900 <= y <= 2030.

(** The predicates of a Filter State, as the specification words them.
    Each is active only when its part of the state is set (a non-empty
    query, a category other than ["all"], a non-empty selection, a venue,
    a bound that is not [null]); the year range is always active. *)







Definition at_least (bound : option Js.num) (v : Js.num) : Prop :=
  match bound with
  | None => True
  | Some b =>
      match b, v with
      | Some m, Some x => m <= x
      | _, _ => False
      end
  end.

Definition at_most (bound : option Js.num) (v : Js.num) : Prop :=
  match bound with
  | None => True
  | Some b =>
      match b, v with
      | Some m, Some x => x <= m
      | _, _ => False
      end
  end.







(** The numbers of a record, and of a Filter State, are integers (none
    is [NaN]), as the data model has them. *)
Definition paper_numeric (p : Paper) : Prop :=
  is_Some (year p) /\ is_Some (citations p).

Definition filters_numeric (f : Filters) : Prop :=
  is_Some (yearMin f) /\ is_Some (yearMax f) /\
  citationMin f <> Some None /\ citationMax f <> Some None.

(** The query is stored in lower case: the search box writes it so, and
    the constructor and [resetFilters] write the empty string. *)
Definition search_lowercase (f : Filters) : Prop :=
  Js.toLowerCase (search f) = search f.

(** Page [k] (counted from 1) of a list cut in pages of
    [papersPerPage] records. *)
Definition page_of {A : Type} (k : Z) (l : list A) : list A :=
  take (Z.to_nat papersPerPage) (drop (Z.to_nat (papersPerPage * (k - 1))) l).

(** The page number the claim on pagination expects to be shown for a
    requested page: the request clamped to [1, total]. *)
Definition clampPage (page total : Z) : Z := Z.max 1 (Z.min page total).

(** Two records that differ at most by their [id]. *)
Definition same_content (p q : Paper) : Prop :=
  set_id Js.Undefined p = set_id Js.Undefined q.

Section StoreRun.
Context {World : Type} `{Environment World}.

(** The record as it is presented to the store: itself when it has an
    id, otherwise itself under a freshly generated id. *)
Definition presented (p q : Paper) (w w' : World) : Prop :=
  (Js.truthy (id p) = true /\ q = p /\ w' = w) \/
  (Js.truthy (id p) = false /\
   q = set_id (Js.Str (fst (freshId w))) p /\ w' = snd (freshId w)).

(** The records are handed to the Record Store one after the other, each
    in the environment the record before it left, whatever became of
    that one. A record goes to [savePaper]; when it is accepted and the
    record has a thumbnail, the thumbnail goes to [saveThumbnail]. The
    outcome noted for a record is a success when nothing was rejected. *)
Inductive handed_to_store
    : list Paper -> World -> list (Paper * bool) -> World -> Prop :=
  | handed_none (w : World) : handed_to_store [] w [] w
  | handed_rejected (p q : Paper) (rest : list Paper) (w w1 w2 w' : World)
      (outcomes : list (Paper * bool)) :
      presented p q w w1 ->
      savePaper q None w1 = (false, w2) ->
      handed_to_store rest w2 outcomes w' ->
      handed_to_store (p :: rest) w ((q, false) :: outcomes) w'
  | handed_plain (p q : Paper) (rest : list Paper) (w w1 w2 w' : World)
      (outcomes : list (Paper * bool)) :
      presented p q w w1 ->
      savePaper q None w1 = (true, w2) ->
      (forall t, thumbnail q = Some t -> t = EmptyString) ->
      handed_to_store rest w2 outcomes w' ->
      handed_to_store (p :: rest) w ((q, true) :: outcomes) w'
  | handed_thumbnail (p q : Paper) (rest : list Paper) (w w1 w2 w3 w' : World)
      (t : string) (ok : bool) (outcomes : list (Paper * bool)) :
      presented p q w w1 ->
      savePaper q None w1 = (true, w2) ->
      thumbnail q = Some t -> t <> EmptyString ->
      saveThumbnail (id q) t w2 = (ok, w3) ->
      handed_to_store rest w3 outcomes w' ->
      handed_to_store (p :: rest) w ((q, ok) :: outcomes) w'.

End StoreRun.

End Reference.

(** ** A concrete environment, for running the model on examples *)

Module Scenario.
Import Catalog.

(** Ids are numbered from a counter; IndexedDB rejects exactly the records
    titled ["unsaved"]; [localStorage] accepts every payload. *)
#[global] Instance counter_env : Environment nat := {
  freshId n := (("paper_" +:+ pretty n)%string, S n);
  currentYear _ := 2024;
  savePaper p _ n := (negb (String.eqb (title p) "unsaved"), n);
  saveThumbnail _ _ n := (true, n);
  getPDFFile _ n := (Some None, n);
  setItemOk _ := true;
  localeCompare a b :=
    match String.compare a b with Lt => -1 | Eq => 0 | Gt => 1 end
}.

Definition paper (i : Js.value) (t : string) (y c : Z) : Paper :=
  mkPaper i t ["A. Author"%string] (Some y) "Venue" "General" "Experimental"
    "Empirical" ["kw"%string] (Some c) (Some 0) (Some 0) "An abstract" ""
    "#" "#" None None None.

Definition manager (ps : list Paper) (editing : option Paper)
    (indexedDB : bool) : @LiteratureManager nat :=
  mkManager ps ps "year-desc" 1 indexedDB defaultFilters editing true None
    0%nat [].

(** A string of [n] copies of a character, and a record carrying it as
    thumbnail (with a binary attached). *)
Fixpoint repeat_char (n : nat) (c : ascii) : string :=
  match n with
  | O => EmptyString
  | S n' => String c (repeat_char n' c)
  end.

Definition with_thumbnail (t : string) : Paper :=
  mkPaper (Js.Num 1) "T" ["A. Author"%string] (Some 2020) "Venue" "General"
    "Experimental" "Empirical" [] (Some 0) (Some 0) (Some 0) "" "" "#" "#"
    (Some t) (Some t) (Some "%PDF-1.4").

(** The manager after [loadData] has read [ps] from [localStorage] with
    IndexedDB initialised: the state in which the migration is started. *)
Definition loaded_from_fallback (ps : list Paper) : @LiteratureManager nat :=
  mkManager ps ps "year-desc" 1 true defaultFilters None false (Some ps)
    0%nat [].

(** A manager whose search box has received the text [q]. *)
Definition searching (q : string) (ps : list Paper) : @LiteratureManager nat :=
  mkManager ps [] "year-desc" 1 false (set_search q defaultFilters) None false
    None 0%nat [].

(** A scripted network: each [fetch] takes the next outcome of the script,
    and is rejected once the script is exhausted. *)
#[global] Instance scripted : Uploader.Network (list Uploader.FetchOutcome) := {
  Uploader.fetch _ _ script :=
    match script with
    | r :: rest => (r, rest)
    | [] => (Uploader.Rejected "Failed to fetch", [])
    end
}.

(** A bundle with one record ["p1"] and its binary, as the exporter
    prepares it, the release tag already written in [pdfUrl]. *)
Definition bundle : Uploader.ExportResult :=
  Uploader.mkExportResult "{tag_name: v2024.01.15}"
    [Uploader.mkPdfFile (Js.Str "p1") "original.pdf" "p1.pdf" "%PDF-1.4"]
    {[ "data/index.json"%string :=
         {[ "totalPapers"%string := Uploader.JVal (Js.Num 1) ]};
       "data/papers/p1.json"%string :=
         {[ "id"%string := Uploader.JVal (Js.Str "p1");
            "pdfUrl"%string :=
              Uploader.JVal
                (Js.Str "https://cdn.jsdelivr.net/gh/u/r@v2024.01.15/p1.pdf") ]} ]}.

(** The answers of the releases API to a deploy of that bundle: the
    release created under the tag [v2024.01.15], then the uploaded asset
    (an asset object has no [tag_name]). *)
Definition api_answers : list Uploader.FetchOutcome :=
  [Uploader.Response true
     (Uploader.mkResponseJson None (Some 42) (Some "Literature Data Release")
        (Some "v2024.01.15") (Some "https://github.com/u/r/releases/42") None);
   Uploader.Response true
     (Uploader.mkResponseJson None (Some 7) (Some "p1.pdf") None None
        (Some "https://github.com/u/r/releases/download/v2024.01.15/p1.pdf"))].

(** A progress callback that only looks on, and one that throws when it
    is told of an uploaded file. *)
Definition onlooker {A : Type} : option (Uploader.Callback A) :=
  Some (fun _ => None).

Definition failing_on_uploaded : option (Uploader.Callback Uploader.Progress) :=
  Some (fun report =>
          if String.eqb (Uploader.status report) "uploaded"
          then Some "callback failed"%string else None).

Definition form (authors' journal' year' citations' : string) : EditForm :=
  mkEditForm authors' journal' year' "General" "Experimental" "Empirical"
    "An abstract" "kw" citations' "0" "".

End Scenario.

(** ** The controls of the catalog: listeners of [setupEventListeners],
    [resetFilters], [showPaperDetails] and the pagination bar *)

Module Controls.
Import Catalog.

(** The buttons and texts [updatePagination] writes in the bar. A page or
    arrow button carries the argument of the [goToPage] call of its
    [onclick]; a disabled button does not fire it. *)
Inductive BarItem :=
  | PrevBtn (disabled : bool) (target : Z)
  | PageBtn (target : Z) (active : bool)
  | Dots
  | NextBtn (disabled : bool) (target : Z)
  | PageInfo (page total : Z).

(** The body of the loop over the page numbers. *)
Definition page_items (cur total i : Z) : list BarItem :=
  if (i =? 1) || (i =? total) || ((cur - 2 <=? i) && (i <=? cur + 2))
  then [PageBtn i (i =? cur)]
  else if (i =? cur - 3) || (i =? cur + 3) then [Dots]
  else [].

(** The double quote character. *)
Definition dquote : ascii := "034"%char.

(** A text field of the CSV export: every double quote of the text is
    written twice, and the whole is put between double quotes. *)
Fixpoint double_quotes (s : string) : string :=
  match s with
  | EmptyString => EmptyString
  | String c s' =>
      if Ascii.eqb c dquote
      then String dquote (String dquote (double_quotes s'))
      else String c (double_quotes s')
  end.

Definition csv_text (s : string) : string :=
  String dquote (double_quotes s +:+ String dquote EmptyString).

(** [String(n)] of a number. *)
Definition num_to_string (n : Js.num) : string :=
  match n with
  | Some z => pretty z
  | None => "NaN"
  end.

(** The row of a record in [generateCSV]. *)
Definition csv_row (paper : Paper) : string :=
  Js.join ","
    [csv_text (title paper);
     csv_text (Js.join "; " (authors paper));
     num_to_string (year paper);
     csv_text (journal paper);
     csv_text (researchArea paper);
     csv_text (methodology paper);
     csv_text (studyType paper);
     csv_text (Js.join "; " (keywords paper));
     num_to_string (citations paper);
     csv_text (doi paper)].

(** The header line of [generateCSV]. *)
Definition csv_headers : list string :=
  ["Title"; "Authors"; "Year"; "Journal"; "Research Field"; "Method"; "Type";
   "Keywords"; "Citations"; "DOI"]%string.

(** The byte order mark (U+FEFF), in its UTF-8 bytes. *)
Definition bom : string :=
  String "239"%char (String "187"%char (String "191"%char EmptyString)).

Definition newline : ascii := "010"%char.

(** Every double quote of the text is removed. *)
Fixpoint remove_quotes (s : string) : string :=
  match s with
  | EmptyString => EmptyString
  | String c s' =>
      if Ascii.eqb c dquote then remove_quotes s'
      else String c (remove_quotes s')
  end.

(** The cells of a line: split at the commas, each cell trimmed and
    stripped of its double quotes. *)
Definition csv_cells (line : string) : list string :=
  map (fun v => remove_quotes (Js.trim v)) (Js.split "," line).

(** [headers.forEach((header, index) =>
       paperData[header] = values[index] || '')]. *)
Fixpoint csv_object (headers values : list string) (paperData : gmap string Raw)
    : gmap string Raw :=
  match headers with
  | [] => paperData
  | header :: headers' =>
      csv_object headers' (tail values)
        (<[header := RStr (default EmptyString (head values))]> paperData)
  end.

(** [paperData.k], truthy. *)
Definition has_key (paperData : gmap string Raw) (k : string) : bool :=
  match paperData !! k with
  | Some v => raw_truthy v
  | None => false
  end.

(** The table of [classifyResearchArea], in the order of its keys. *)
Definition classifications : list (string * list string) :=
  [("Accessible Interaction",
    ["accessibility"; "impairment"; "disability"; "visually impaired";
     "motor impairment"; "blind"; "deaf"; "assistive"; "accessible";
     "touchscreen"; "motor disabilities"; "visual disabilities"]);
   ("HCI New Wearable Devices",
    ["wearable"; "earput"; "behind-the-ear"; "ear-based"; "clothing buttons";
     "wearable device"; "smart watch"; "fitness tracker";
     "augmented reality glasses"; "ear-worn"; "button"; "clothing"]);
   ("Immersive Interaction",
    ["mixed reality"; "virtual reality"; "immersive"; "vr"; "mr";
     "digital shapes"; "virtual environment"; "desktop virtual reality";
     "presentation"; "boundary"; "immersion"; "virtual world"]);
   ("Mobile Device",
    ["mobile"; "smartphone"; "finger"; "gesture"; "touch interaction";
     "one-handed"; "touchscreen"; "mobile input"; "finger-grained";
     "smart devices"; "touch"; "mobile device"]);
   ("Special Scenarios",
    ["conductor"; "musical"; "string instruments"; "performance";
     "sleight of hand"; "finger motion"; "expressiveness"; "visualization";
     "musical interface"; "gesture elicitation";
     "interface morphologies"])]%string.

(** The two nested loops of [classifyResearchArea] over a table. *)
Fixpoint classify_in (table : list (string * list string)) (textLower : string)
    : string :=
  match table with
  | [] => "General"
  | (area, keywords') :: table' =>
      if existsb (Js.includes textLower) keywords' then area
      else classify_in table' textLower
  end.

(** [classifyResearchArea(text)]. *)
Definition classifyResearchArea (text : string) : string :=
  classify_in classifications (Js.toLowerCase text).

(** [a <= b] on numbers that are integers. *)
Definition num_le (a b : Js.num) : Prop :=
  match a, b with
  | Some x, Some y => x <= y
  | _, _ => False
  end.

(** The integer by which a sort key other than ["title-asc"] orders the
    records, smallest first (a descending order is the ascending order of
    the opposite). *)
Definition sort_key (sortKey : string) (p : Paper) : Z :=
  if String.eqb sortKey "year-asc" then default 0 (year p)
  else if String.eqb sortKey "citations-desc" then - default 0 (citations p)
  else if String.eqb sortKey "citations-asc" then default 0 (citations p)
  else - default 0 (year p).

(** The year filter of a Filter State is an ordered range of integers. *)
Definition year_range_ordered (f : Filters) : Prop :=
  num_le (yearMin f) (yearMax f).

(** The filters as the listeners are meant to keep them: integers where
    numbers stand, the query in lower case, the year range ordered. *)
Definition filters_well_formed (f : Filters) : Prop :=
  Reference.filters_numeric f /\ Reference.search_lowercase f /\
  year_range_ordered f.

Section Listeners.
Context {World : Type} `{Environment World}.

Local Abbreviation Manager := (@LiteratureManager World).

Definition set_filters (f : Filters) (st : Manager)
    : Manager :=
  mkManager (papers st) (filteredPapers st) (currentSort st) (currentPage st)
    (storageInitialized st) f (currentEditingPaper st) (isEditMode st)
    (localStorage st) (world st) (notifications st).

Definition set_currentSort (k : string) (st : Manager)
    : Manager :=
  mkManager (papers st) (filteredPapers st) k (currentPage st)
    (storageInitialized st) (filters st) (currentEditingPaper st)
    (isEditMode st) (localStorage st) (world st) (notifications st).

(** What the user can do to the filters, the sort and the page: one
    constructor per listener, with the value the listener reads. *)
Inductive Action :=
  | SearchInput (value : string)
  | YearMinInput (value : string)
  | YearMaxInput (value : string)
  | CitationMinInput (value : string)
  | CitationMaxInput (value : string)
  | VenueChange (value : string)
  | CategoryClick (value : string)
  | CheckboxChange (methodology_group : bool) (item : string) (checked : bool)
  | SortChange (value : string)
  | ResetClick.

(** The checkbox listener on one of the two selections: a checked box
    pushes its item, an unchecked one filters it out. *)
Definition toggle (l : list string) (item : string) (checked : bool)
    : list string :=
  if checked then l ++ [item]
  else List.filter (fun i => negb (String.eqb i item)) l.

(** The filters after a listener has written its part of them. *)
Definition write_filters (a : Action) (f : Filters) : Filters :=
  match a with
  | SearchInput v => set_search v f
  | YearMinInput v =>
      let yearMin' := Js.parseInt v in
      mkFilters (search f) (category f) yearMin'
        (if Js.gt yearMin' (yearMax f) then yearMin' else yearMax f)
        (methodologies f) (studyTypes f) (venue f) (citationMin f)
        (citationMax f)
  | YearMaxInput v =>
      let yearMax' := Js.parseInt v in
      mkFilters (search f) (category f)
        (if Js.lt yearMax' (yearMin f) then yearMax' else yearMin f)
        yearMax'
        (methodologies f) (studyTypes f) (venue f) (citationMin f)
        (citationMax f)
  | CitationMinInput v =>
      mkFilters (search f) (category f) (yearMin f) (yearMax f)
        (methodologies f) (studyTypes f) (venue f)
        (if Js.truthy_str v then Some (Js.parseInt v) else None)
        (citationMax f)
  | CitationMaxInput v =>
      mkFilters (search f) (category f) (yearMin f) (yearMax f)
        (methodologies f) (studyTypes f) (venue f) (citationMin f)
        (if Js.truthy_str v then Some (Js.parseInt v) else None)
  | VenueChange v =>
      mkFilters (search f) (category f) (yearMin f) (yearMax f)
        (methodologies f) (studyTypes f) v (citationMin f) (citationMax f)
  | CategoryClick v =>
      mkFilters (search f) v (yearMin f) (yearMax f)
        (methodologies f) (studyTypes f) (venue f) (citationMin f)
        (citationMax f)
  | CheckboxChange true item checked =>
      mkFilters (search f) (category f) (yearMin f) (yearMax f)
        (toggle (methodologies f) item checked) (studyTypes f) (venue f)
        (citationMin f) (citationMax f)
  | CheckboxChange false item checked =>
      mkFilters (search f) (category f) (yearMin f) (yearMax f)
        (methodologies f) (toggle (studyTypes f) item checked) (venue f)
        (citationMin f) (citationMax f)
  | SortChange _ => f
  | ResetClick => defaultFilters
  end.

(** The value a slider or a number input hands to its listener reads as
    an integer (an emptied number input is the empty string). *)
Definition numeric_value (a : Action) : Prop :=
  match a with
  | YearMinInput v | YearMaxInput v => is_Some (Js.parseInt v)
  | CitationMinInput v | CitationMaxInput v =>
      v <> EmptyString -> is_Some (Js.parseInt v)
  | _ => True
  end.

(** The selection a checkbox group writes. *)
Definition selection (methodology_group : bool) (f : Filters) : list string :=
  if methodology_group then methodologies f else studyTypes f.

(** A listener: the filter listeners write their part and call
    [applyFilters]; the sort listener sets [currentSort] and sorts (the
    redraw that follows changes no field). The category buttons also set
    [currentCategory], which only the statistics panel reads. *)
Definition handle (a : Action) (st : Manager) : Manager :=
  match a with
  | SortChange v => sortPapers (set_currentSort v st)
  | _ => applyFilters (set_filters (write_filters a (filters st)) st)
  end.

(** A session: the listeners run one after the other. *)
Definition run (actions : list Action) (st : Manager)
    : Manager :=
  foldl (fun s a => handle a s) st actions.

(** [updatePagination]: the content of the bar, empty when there is at
    most one page. *)
Definition updatePagination (st : Manager) : list BarItem :=
  let total := totalPages st in
  let cur := currentPage st in
  if total <=? 1 then []
  else
    [PrevBtn (cur =? 1) (cur - 1)]
    ++ flat_map (page_items cur total) (seqZ 1 total)
    ++ [NextBtn (cur =? total) (cur + 1); PageInfo cur total].

(** A click on an item of the bar. *)
Definition click (item : BarItem) (st : Manager)
    : Manager :=
  match item with
  | PrevBtn false target => goToPage target st
  | NextBtn false target => goToPage target st
  | PageBtn target _ => goToPage target st
  | _ => st
  end.

(** [showPaperDetails(paperId)]. *)
Definition showPaperDetails (paperId : Js.value) (st : Manager)
    : Manager :=
  match List.find (fun p => Js.strict_eq (id p) paperId) (papers st) with
  | None => st
  | Some paper =>
      set_isEditMode false (set_currentEditingPaper (Some paper) st)
  end.

(** [toggleEditMode]. *)
Definition toggleEditMode (st : Manager) : Manager :=
  set_isEditMode true st.

(** [csvData.join('\n')] of [generateCSV]: the header, then one row per
    filtered record. *)
Definition csv_content (st : Manager) : string :=
  Js.join (String newline EmptyString)
    (Js.join "," csv_headers :: map csv_row (filteredPapers st)).

(** [generateCSV]: the content after a byte order mark. *)
Definition generateCSV (st : Manager) : string := bom +:+ csv_content st.

(** [parseCSV] once the text of the file is read; [None] when it throws
    (a file of one line, or without a valid row). *)
Definition parseCSV (text : string) (selectedCategory : string)
    (st : Manager) : option Paper :=
  let lines := Js.split newline text in
  let headers := csv_cells (default EmptyString (head lines)) in
  if Z.of_nat (length lines) <? 2 then None
  else
    let rows :=
      List.filter (fun line => negb (String.eqb (Js.trim line) EmptyString))
        (tail lines) in
    let objects := map (fun line => csv_object headers (csv_cells line) ∅) rows in
    let valid :=
      List.filter
        (fun paperData =>
           has_key paperData "title" && has_key paperData "authors"
           && has_key paperData "year") objects in
    papers' ← mapM (fun paperData =>
                      normalizepaperData paperData selectedCategory st) valid;
    head papers'.

End Listeners.

End Controls.

(** ** The configuration check of the uploader *)

Module UploaderChecks.
Import Uploader.

(** [validateConfig]: the [valid] flag and the [issues]. *)
Definition validateConfig (u : Config) : bool * list string :=
  let issues :=
    (if negb (Js.truthy_str (repoOwner u))
     then ["Repository owner is required"%string] else [])
    ++ (if negb (Js.truthy_str (repoName u))
        then ["Repository name is required"%string] else [])
    ++ (if negb (Js.truthy_str (token u))
        then ["GitHub token is required"%string] else []) in
  (Z.of_nat (length issues) =? 0, issues).

(** The content-delivery URL of a file under a tag. *)
Definition cdn_url (u : Config) (tag file : string) : string :=
  "https://cdn.jsdelivr.net/gh/" +:+ repoOwner u +:+ "/" +:+ repoName u
  +:+ "@" +:+ tag +:+ "/" +:+ file.

End UploaderChecks.

(** ** Notions about generated ids *)

Module Ids.
Import Catalog Reference.

(** A record with an id is left as it is by the id assignment; a record
    without one differs afterwards by its id only. *)
Definition keeps_given_id (p q : Paper) : Prop :=
  same_content p q /\ (Js.truthy (id p) = true -> q = p).

(** The generated ids are not empty: in the source they start with
    [paper_]. *)
Definition ids_not_empty {World : Type} `{Environment World} : Prop :=
  forall w : World, fst (freshId w) <> EmptyString.

End Ids.

(** ** Start-up and the static bundle: [loadData],
    [initializeStaticMode], and [exportPapersMetadata] and
    [exportThumbnails] of the static exporter *)

Module Startup.
Import Catalog.

(** An entry of [papers.json], as [exportPapersMetadata] writes it. The
    exporter reads [venue] (and [url], [notes], [tags], [dateAdded]) from
    the record; a catalog record has no such property, so the value is
    [undefined] and the serialisation leaves the property out. *)
Record Metadata := mkMetadata {
  meta_id : Js.value;
  meta_title : string;
  meta_authors : list string;
  meta_year : Js.num;
  meta_venue : option string;
  meta_researchArea : string;
  meta_keywords : list string;
  meta_citations : Js.num;
  meta_abstract : string;
  meta_doi : string;
  hasFile : bool;
  hasThumbnail : bool;
  dataFile : string
}.

(** What the static loader holds once [initialize] has fetched its files:
    the entries of [papers.json] and the map of [thumbnails.json]. *)
Record StaticFiles := mkStaticFiles {
  papersData : list Metadata;
  thumbnailsData : gmap string string
}.

(** The string a value becomes as a property key or in a template. *)
Definition value_to_string (v : Js.value) : string :=
  match v with
  | Js.Undefined => "undefined"
  | Js.Num n => pretty n
  | Js.Str s => s
  end.

(** [s || dflt] on strings. *)
Definition str_or (s dflt : string) : string :=
  if Js.truthy_str s then s else dflt.

(** A thumbnail that passes [if (thumbnail)]: present and not empty. *)
Definition truthy_thumbnail (t : option string) : option string :=
  match t with
  | Some s => if Js.truthy_str s then Some s else None
  | None => None
  end.

(** The reads of the IndexedDB wrapper and the fetch of the static files
    ([StaticDataLoader.initialize]; [None] when a file cannot be loaded).
    A promise is rejected ([None]) or fulfilled. *)
Class Sources (World : Type) := {
  getAllPapers : World -> option (list Paper) * World;
  getThumbnail : Js.value -> World -> option (option string) * World;
  fetchStatic : World -> option StaticFiles * World
}.

(** The entry of [papers.json] for a record. *)
Definition exportMetadata (paper : Paper) : Metadata :=
  mkMetadata (id paper) (title paper) (authors paper) (year paper) None
    (researchArea paper) (keywords paper) (citations paper)
    (abstract_ paper) (doi paper)
    (bool_decide (is_Some (pdfFile paper)) || Js.truthy_str (pdfUrl paper))
    (bool_decide (is_Some (truthy_thumbnail (thumbnail paper))))
    ("papers/" +:+ value_to_string (id paper) +:+ ".json").

(** The property names every plain object inherits. The map of
    [thumbnails.json] is a plain object: under one of these names a
    lookup finds the inherited member, not an entry of the file. *)
Definition inherited_keys : list string :=
  ["constructor"; "__defineGetter__"; "__defineSetter__"; "hasOwnProperty";
   "__lookupGetter__"; "__lookupSetter__"; "isPrototypeOf";
   "propertyIsEnumerable"; "toString"; "valueOf"; "__proto__";
   "toLocaleString"]%string.

Definition plain_key (k : string) : bool :=
  negb (existsb (String.eqb k) inherited_keys).

(** [StaticDataLoader.getThumbnail(paperId)], for an id that is a plain
    key. *)
Definition staticThumbnail (files : StaticFiles) (paperId : Js.value)
    : option string :=
  truthy_thumbnail (thumbnailsData files !! value_to_string paperId).

(** The record [initializeStaticMode] builds from an entry of that shape:
    [journal], [methodology], [studyType], [downloads], [hIndex],
    [websiteUrl] and [pdfUrl] are read from properties the entry does not
    have. *)
Definition staticPaper (thisYear : Z) (files : StaticFiles) (m : Metadata)
    : Paper :=
  mkPaper (meta_id m)
    (str_or (meta_title m) "Untitled")
    (meta_authors m)
    (if Js.truthy_num (meta_year m) then meta_year m else Some thisYear)
    (match meta_venue m with
     | Some v => str_or v "Unknown Journal"
     | None => "Unknown Journal"
     end)
    (str_or (meta_researchArea m) "General")
    "Experimental" "Empirical"
    (meta_keywords m)
    (Js.or_zero (meta_citations m))
    (Js.floor_div (Js.or_zero (meta_citations m)) 3)
    (Some 0)
    (meta_abstract m) (meta_doi m) "#" "#"
    (staticThumbnail files (meta_id m))
    None None.

Section Loading.
Context {World : Type} `{Environment World} `{Sources World}.

Local Abbreviation Manager := (@LiteratureManager World).

(** [exportPapersMetadata]: the [papers] of [papers.json]. *)
Definition exportPapersMetadata (st : Manager) : list Metadata :=
  map exportMetadata (papers st).

(** The loop of [exportThumbnails]: the thumbnail in memory when there is
    one, otherwise the one of IndexedDB when the database is open (a
    rejected read is logged and the record skipped). *)
Fixpoint exportThumbnails_loop (db : bool) (l : list Paper)
    (thumbnails : gmap string string) (w : World)
    : gmap string string * World :=
  match l with
  | [] => (thumbnails, w)
  | paper :: rest =>
      match truthy_thumbnail (thumbnail paper) with
      | Some t =>
          exportThumbnails_loop db rest
            (<[value_to_string (id paper) := t]> thumbnails) w
      | None =>
          if db then
            let '(r, w') := getThumbnail (id paper) w in
            match r with
            | Some stored =>
                match truthy_thumbnail stored with
                | Some t =>
                    exportThumbnails_loop db rest
                      (<[value_to_string (id paper) := t]> thumbnails) w'
                | None => exportThumbnails_loop db rest thumbnails w'
                end
            | None => exportThumbnails_loop db rest thumbnails w'
            end
          else exportThumbnails_loop db rest thumbnails w
      end
  end.

(** [exportThumbnails]: the [thumbnails] of [thumbnails.json], for ids
    that are plain keys. The database is open exactly when the storage
    has been initialised. *)
Definition exportThumbnails (st : Manager) : gmap string string * World :=
  exportThumbnails_loop (storageInitialized st) (papers st) ∅ (world st).

(** The collection [initializeStaticMode] builds from the files. *)
Definition staticPapers (thisYear : Z) (files : StaticFiles) : list Paper :=
  map (staticPaper thisYear files) (papersData files).

(** [initializeStaticMode]: whether static data was found, and the
    manager afterwards. *)
Definition initializeStaticMode (st : Manager) : bool * Manager :=
  let '(r, w) := fetchStatic (world st) in
  match r with
  | None => (false, set_world w st)
  | Some files =>
      (true,
       showNotification "Loaded papers from static data" "success"
         (set_filteredPapers (staticPapers (currentYear w) files)
            (set_papers (staticPapers (currentYear w) files)
               (set_world w st))))
  end.

(** The loop of [loadData] over the records read from IndexedDB: a record
    without thumbnail receives the stored one; [None] when a read is
    rejected. *)
Fixpoint load_thumbnails (l : list Paper) (w : World)
    : option (list Paper) * World :=
  match l with
  | [] => (Some [], w)
  | paper :: rest =>
      match truthy_thumbnail (thumbnail paper) with
      | Some _ =>
          let '(r, w') := load_thumbnails rest w in
          ((fun l' => paper :: l') <$> r, w')
      | None =>
          let '(t, w1) := getThumbnail (id paper) w in
          match t with
          | None => (None, w1)
          | Some stored =>
              let paper' :=
                match truthy_thumbnail stored with
                | Some t' => set_thumbnail (Some t') paper
                | None => paper
                end in
              let '(r, w') := load_thumbnails rest w1 in
              ((fun l' => paper' :: l') <$> r, w')
          end
      end
  end.

(** The notification of [loadData] after a load from [localStorage]. *)
Definition fallback_notice (l : list Paper) : Notification :=
  let hasInvalidPdfLinks :=
    existsb (fun p => Js.truthy_str (pdfUrl p)
                      && Js.startsWith (pdfUrl p) "blob:") l in
  let hasPersistentPdfs :=
    existsb (fun p => Js.truthy_str (pdfUrl p)
                      && Js.startsWith (pdfUrl p) "data:") l in
  if hasInvalidPdfLinks && negb hasPersistentPdfs
  then mkNotification
         "Note: Uploaded PDF links will expire after page refresh" "warning"
  else if hasPersistentPdfs
  then mkNotification
         "PDF files are permanently saved and can be viewed anytime" "success"
  else mkNotification "papers from local storage" "info".

(** The end of [loadData] when a rejection reaches its [catch]. *)
Definition load_failed (st : Manager) : Manager :=
  set_filteredPapers []
    (set_papers [] (showNotification "Error loading data: " "error" st)).

(** The [localStorage] branch of [loadData], the item being the payload
    the catalog wrote (an array of records). *)
Definition load_fallback (st : Manager) : Manager * bool :=
  match localStorage st with
  | Some (p :: l) =>
      (showNotification (message (fallback_notice (p :: l)))
         (kind (fallback_notice (p :: l)))
         (set_filteredPapers (p :: l) (set_papers (p :: l) st)),
       storageInitialized st)
  | _ =>
      (showNotification "Welcome! Upload your first paper to get started."
         "info" (set_filteredPapers [] (set_papers [] st)),
       false)
  end.

(** [loadData]: the manager afterwards, and whether the migration to
    IndexedDB has been scheduled. *)
Definition loadData (st : Manager) : Manager * bool :=
  let '(staticModeInitialized, st0) := initializeStaticMode st in
  if staticModeInitialized then (st0, false)
  else if storageInitialized st0 then
    let '(r, w1) := getAllPapers (world st0) in
    match r with
    | None => (load_failed (set_world w1 st0), false)
    | Some [] => load_fallback (set_world w1 st0)
    | Some indexedDBPapers =>
        let '(withThumbnails, w2) := load_thumbnails indexedDBPapers w1 in
        match withThumbnails with
        | None => (load_failed (set_world w2 st0), false)
        | Some l =>
            (showNotification "papers from secure storage" "success"
               (set_filteredPapers l (set_papers l (set_world w2 st0))),
             false)
        end
    end
  else load_fallback st0.

End Loading.


(** What a record keeps and what it loses on the way through
    [papers.json]. *)
Definition survives_export (thisYear : Z) (p q : Paper) : Prop :=
  id q = id p /\ authors q = authors p /\ keywords q = keywords p /\
  abstract_ q = abstract_ p /\ doi q = doi p /\
  title q = str_or (title p) "Untitled" /\
  researchArea q = str_or (researchArea p) "General" /\
  year q = (if Js.truthy_num (year p) then year p else Some thisYear) /\
  citations q = Js.or_zero (citations p) /\
  hIndex q = Js.floor_div (Js.or_zero (citations p)) 3 /\
  journal q = "Unknown Journal" /\ methodology q = "Experimental" /\
  studyType q = "Empirical" /\ downloads q = Some 0 /\
  pdfUrl q = "#" /\ websiteUrl q = "#" /\ pdfFile q = None.

End Startup.

(** ** Sample sources *)

Module StartupSamples.
Import Catalog Startup Scenario.

Definition stored_thumbnail : string := "data:image/png;base64,AAAA".

(** A record with a venue, a binary and a thumbnail. *)
Definition published : Paper :=
  mkPaper (Js.Num 41) "Graph search" ["A. Author"%string] (Some 2019)
    "Journal of Graphs" "Algorithms" "Survey" "Review" ["graphs"%string]
    (Some 10) (Some 7) (Some 120) "An abstract" "10.1/x"
    "data:application/pdf;base64,JVBERi0=" "https://example.org" 
    (Some stored_thumbnail) None (Some "%PDF-1.4").

(** The environment in state [0] rejects the read of the records; in
    state [1] the database holds one record without thumbnail, whose
    thumbnail is stored apart; in state [7] the static files are served;
    otherwise the database is empty. *)
#[global] Instance scripted_sources : Sources nat := {
  getAllPapers n :=
    match n with
    | O => (None, n)
    | S O => (Some [paper (Js.Num 5) "Stored" 2020 2], n)
    | _ => (Some [], n)
    end;
  getThumbnail _ n := (Some (Some stored_thumbnail), n);
  fetchStatic n :=
    if Nat.eqb n 7
    then (Some (mkStaticFiles [exportMetadata published] ∅), n)
    else (None, n)
}.

(** A manager at start-up, with the fallback store holding [ps]. *)
Definition starting (ps : list Paper) (indexedDB : bool) (w : nat)
    : @LiteratureManager nat :=
  mkManager [] [] "year-desc" 1 indexedDB defaultFilters None false (Some ps)
    w [].

End StartupSamples.

(** ** Sample data for the controls and the uploader *)

Module Samples.
Import Catalog Controls Scenario.

(** A CSV file of two lines, with the header in lower case. *)
Definition small_csv : string :=
  ("title,authors,year" +:+
   String newline "A paper,A. Author; B. Writer,2020")%string.

(** Three records in the order they were added (scenario A of the
    specification), two of them of the same year. *)
Definition unsorted : @LiteratureManager nat :=
  manager [paper (Js.Num 1) "One" 2019 5; paper (Js.Num 2) "Two" 2021 9;
           paper (Js.Num 3) "Three" 2020 1; paper (Js.Num 4) "Four" 2021 0]
    None false.

(** A session at the controls. *)
Definition session : list Action :=
  [SearchInput "Deep"; YearMinInput "2030"; CitationMinInput "3";
   CheckboxChange true "Survey" true; YearMaxInput "2010";
   CitationMinInput ""; SortChange "citations-asc"].

(** A manual entry that IndexedDB rejects. *)
Definition rejected_entry : ManualForm :=
  mkManualForm "unsaved" "A. Author" "2020" "Venue" "General" "Experimental"
    "Empirical" "" "3" "0" "" "".

(** Two records from the fallback store, one without id. *)
Definition from_fallback : @LiteratureManager nat :=
  loaded_from_fallback
    [paper Js.Undefined "One" 2019 0; paper (Js.Num 7) "Two" 2021 4].

(** Thirty records, on three pages. *)
Definition thirty : @LiteratureManager nat :=
  manager (replicate 30 (paper (Js.Num 1) "T" 2020 3)) None false.

End Samples.

(** ** Properties of the edit path *)

Module EditFacts.
Import Catalog Reference.

Section Edit.
Context {World : Type} `{Environment World}.

Lemma validation_error_None (p : Paper) :
  validation_error p = None <-> required_policy p.
Proof.
  unfold validation_error, required_policy.
  destruct (authors p) as [|a l]; simpl.
  { split; [discriminate | intros [Ha _]; congruence]. }
  destruct (journal p) as [|c s]; simpl.
  { split; [discriminate | intros (_ & Hj & _); congruence]. }
  destruct (year p) as [y|]; simpl.
  - destruct (Z.eqb_spec y 0) as [->|Hy]; simpl.
    + split; [discriminate | intros (_ & _ & y' & Hy' & Hr)].
      injection Hy' as <-. lia.
    + destruct (Z.ltb_spec y 1900); simpl.
      * split; [discriminate | intros (_ & _ & y' & Hy' & Hr)].
        injection Hy' as <-. lia.
      * destruct (Z.ltb_spec 2030 y); simpl.
        -- split; [discriminate | intros (_ & _ & y' & Hy' & Hr)].
           injection Hy' as <-. lia.
        -- split; [intros _ | reflexivity].
           repeat split; try discriminate. exists y. split; [reflexivity|lia].
  - split; [discriminate | intros (_ & _ & y' & Hy' & _); discriminate].
Qed.

Lemma validation_error_Some (p : Paper) :
  ~ required_policy p -> exists msg, validation_error p = Some msg.
Proof.
  intros Hn. destruct (validation_error p) as [msg|] eqn:E.
  - now exists msg.
  - apply validation_error_None in E. contradiction.
Qed.

Lemma findIndex_Some {A : Type} (f : A -> bool) (l : list A) (i : nat) :
  findIndex f l = Some i -> exists x, l !! i = Some x /\ f x = true.
Proof.
  revert i. induction l as [|x l IH]; intros i; simpl; [discriminate|].
  destruct (f x) eqn:Hx.
  - intros [= <-]. exists x. split; [reflexivity | assumption].
  - destruct (findIndex f l) as [j|]; simpl; [|discriminate].
    intros [= <-]. destruct (IH j eq_refl) as (y & Hy & Hf).
    exists y. split; assumption.
Qed.

Lemma findIndex_None {A : Type} (f : A -> bool) (l : list A) :
  (forall x, In x l -> f x = false) -> findIndex f l = None.
Proof.
  induction l as [|x l IH]; intros Hall; simpl; [reflexivity|].
  rewrite (Hall x (or_introl eq_refl)).
  rewrite IH; [reflexivity|]. intros y Hy. apply Hall. now right.
Qed.

Lemma findIndex_is_Some {A : Type} (f : A -> bool) (l : list A) (x : A) :
  In x l -> f x = true -> exists i, findIndex f l = Some i.
Proof.
  induction l as [|y l IH]; intros Hin Hx; [destruct Hin|].
  simpl. destruct (f y) eqn:Hy; [now exists 0%nat|].
  destruct Hin as [->|Hin]; [congruence|].
  destruct (IH Hin Hx) as [i ->]. now exists (S i).
Qed.

Lemma same_content_refl (p : Paper) : same_content p p.
Proof. reflexivity. Qed.

Lemma same_content_hIndex (p q : Paper) :
  same_content p q -> hIndex p = hIndex q /\ citations p = citations q.
Proof.
  unfold same_content. intros E.
  split; [apply (f_equal hIndex) in E | apply (f_equal citations) in E];
    exact E.
Qed.

Lemma ensure_id_same_content (p : Paper) (w : World) :
  same_content p (fst (ensure_id p w)).
Proof.
  unfold ensure_id. destruct (negb (Js.truthy (id p))); [|reflexivity].
  destruct (freshId w) as [s w']. reflexivity.
Qed.

Lemma saveData_loop_same_content (l : list Paper) (c : Z) (w : World) :
  Forall2 same_content l (fst (fst (saveData_loop l c w))).
Proof.
  revert c w. induction l as [|p l IH]; intros c w; simpl; [constructor|].
  pose proof (ensure_id_same_content p w) as Hp.
  destruct (ensure_id p w) as [p1 w1]. simpl in Hp.
  destruct (savePaper p1 None w1) as [ok w2].
  specialize (IH (if ok then c + 1 else c) w2).
  destruct (saveData_loop l (if ok then c + 1 else c) w2) as [[l' n] w3].
  simpl in *. constructor; assumption.
Qed.

Lemma saveData_papers (st : LiteratureManager) :
  Forall2 same_content (papers st) (papers (snd (saveData st))).
Proof.
  unfold saveData. destruct (storageInitialized st).
  - pose proof (saveData_loop_same_content (papers st) 0 (world st)) as Hl.
    destruct (saveData_loop (papers st) 0 (world st)) as [[l' n] w].
    exact Hl.
  - destruct (setItemOk (papersToSave st)); simpl;
      apply Forall2_same_length_lookup_2; try reflexivity;
      intros i x y Hx Hy; rewrite Hx in Hy; injection Hy as <-; reflexivity.
Qed.

(** What a successful edit leaves behind. *)
Lemma savePaperDetails_success (st : LiteratureManager) (cur : Paper)
    (f : EditForm) (i : nat) :
  currentEditingPaper st = Some cur ->
  validation_error (collect cur f) = None ->
  findIndex (fun p => Js.strict_eq (id p) (id cur)) (papers st) = Some i ->
  exists p',
    papers (savePaperDetails (Some f) st) !! i = Some p' /\
    same_content
      (set_hIndex (Js.floor_div (citations (collect cur f)) 3) (collect cur f))
      p' /\
    last (notifications (savePaperDetails (Some f) st)) =
      Some (mkNotification "Paper information saved successfully!" "success").
Proof.
  intros Hcur Hval Hfind. unfold savePaperDetails.
  rewrite Hcur, Hval, Hfind.
  destruct (findIndex_Some _ _ _ Hfind) as (x & Hx & _).
  apply lookup_lt_Some in Hx.
  set (e := set_hIndex _ (collect cur f)).
  set (st1 := set_currentEditingPaper (Some e) _).
  pose proof (saveData_papers st1) as Hsd.
  assert (Hi : papers st1 !! i = Some e).
  { unfold st1. simpl. now apply list_lookup_insert_eq. }
  destruct (Forall2_lookup_l _ _ _ _ _ Hsd Hi) as (p' & Hp' & Hsame).
  exists p'. split; [exact Hp' | split; [exact Hsame|]].
  simpl. apply last_snoc.
Qed.

Lemma or_zero_Some (a : Js.num) : exists c, Js.or_zero a = Some c.
Proof.
  unfold Js.or_zero. destruct a as [x|]; simpl.
  - destruct (negb (x =? 0)); eauto.
  - eauto.
Qed.

Lemma rejected_edit (st : LiteratureManager) (cur : Paper) (f : EditForm) :
  currentEditingPaper st = Some cur ->
  ~ required_policy (collect cur f) ->
  exists msg,
    savePaperDetails (Some f) st = showNotification msg "error" st.
Proof.
  intros Hcur Hbad. destruct (validation_error_Some _ Hbad) as [msg Hmsg].
  exists msg. unfold savePaperDetails. now rewrite Hcur, Hmsg.
Qed.

(** C1. An edit whose fields fail the required-field policy (authors
    empty, venue empty, year absent or outside [1900, 2030]) is rejected:
    the only effect is an error notification, and the collection is as it
    was. In particular the year 1899 is rejected, while with the other
    required fields valid the years 1900 and 2030 are accepted: the record
    of the collection is replaced by the edited one and success is
    notified. *)
Theorem edit_validation (st : LiteratureManager) (cur : Paper) (f : EditForm) :
  currentEditingPaper st = Some cur ->
  In cur (papers st) ->
  let st' := savePaperDetails (Some f) st in
  (~ required_policy (collect cur f) ->
     (exists msg, st' = showNotification msg "error" st) /\
     papers st' = papers st) /\
  (Js.parseInt (edit_year f) = Some 1899 ->
     (exists msg, st' = showNotification msg "error" st) /\
     papers st' = papers st) /\
  (forall y, y = 1900 \/ y = 2030 ->
     Js.parseInt (edit_year f) = Some y ->
     split_trim_nonempty (edit_authors f) <> [] ->
     Js.trim (edit_journal f) <> EmptyString ->
     exists i p',
       findIndex (fun p => Js.strict_eq (id p) (id cur)) (papers st) = Some i /\
       papers st' !! i = Some p' /\
       same_content
         (set_hIndex (Js.floor_div (citations (collect cur f)) 3)
            (collect cur f)) p' /\
       year p' = Some y /\
       last (notifications st') =
         Some (mkNotification "Paper information saved successfully!"
                 "success")).
Proof.
  intros Hcur Hin st'.
  assert (Hrej : ~ required_policy (collect cur f) ->
                 (exists msg, st' = showNotification msg "error" st) /\
                 papers st' = papers st).
  { intros Hbad. destruct (rejected_edit st cur f Hcur Hbad) as [msg Hmsg].
    split; [now exists msg|]. unfold st'. now rewrite Hmsg. }
  split; [exact Hrej|]. split.
  - intros Hy. apply Hrej. intros (_ & _ & y & Hy' & Hr).
    simpl in Hy'. rewrite Hy in Hy'. injection Hy' as <-. lia.
  - intros y Hy Hparse Hauth Hjour.
    assert (Hok : validation_error (collect cur f) = None).
    { apply validation_error_None. repeat split; try assumption.
      exists y. split; [exact Hparse | lia]. }
    destruct (findIndex_is_Some (fun p => Js.strict_eq (id p) (id cur))
                (papers st) cur Hin) as [i Hi].
    { unfold Js.strict_eq. now apply bool_decide_eq_true. }
    destruct (savePaperDetails_success st cur f i Hcur Hok Hi)
      as (p' & Hp' & Hsame & Hlast).
    exists i, p'. repeat split; try assumption.
    apply (f_equal year) in Hsame. simpl in Hsame. now rewrite <- Hsame.
Qed.

(** C3. After a successful edit (the fields pass validation and the
    record is in the collection) that sets the citation count [c], an
    integer a number holds exactly, the record stored at the position of
    the edited one carries that count, and its [hIndex] is the count
    divided by three and rounded down. *)
Theorem edit_hIndex (st : LiteratureManager) (cur : Paper) (f : EditForm)
    (c : Z) :
  currentEditingPaper st = Some cur ->
  In cur (papers st) ->
  required_policy (collect cur f) ->
  Js.or_zero (Js.parseInt (edit_citations f)) = Some c ->
  Js.safe_integer c ->
  exists i p',
    findIndex (fun p => Js.strict_eq (id p) (id cur)) (papers st) = Some i /\
    papers (savePaperDetails (Some f) st) !! i = Some p' /\
    citations p' = Some c /\
    hIndex p' = Some (c / 3) /\
    3 * (c / 3) <= c < 3 * (c / 3) + 3.
Proof.
  intros Hcur Hin Hok Hc _. apply validation_error_None in Hok.
  destruct (findIndex_is_Some (fun p => Js.strict_eq (id p) (id cur))
              (papers st) cur Hin) as [i Hi].
  { unfold Js.strict_eq. now apply bool_decide_eq_true. }
  destruct (savePaperDetails_success st cur f i Hcur Hok Hi)
    as (p' & Hp' & Hsame & _).
  apply same_content_hIndex in Hsame. destruct Hsame as [Hh Hcit].
  simpl in Hh, Hcit. rewrite Hc in Hh, Hcit. simpl in Hh.
  exists i, p'. repeat split; try congruence.
  - apply Z.mul_div_le. lia.
  - pose proof (Z.mod_pos_bound c 3 ltac:(lia)).
    pose proof (Z.div_mod c 3 ltac:(lia)). lia.
Qed.

(** C10. An edit whose fields pass validation but whose target id is
    carried by no record of the collection changes nothing at all: the
    collection, the persisted state, the filter results and the
    notifications (no error, no success) are as before. *)
Theorem edit_missing_record_noop (st : LiteratureManager) (cur : Paper)
    (f : EditForm) :
  currentEditingPaper st = Some cur ->
  required_policy (collect cur f) ->
  (forall p, In p (papers st) -> id p <> id cur) ->
  savePaperDetails (Some f) st = st.
Proof.
  intros Hcur Hok Hmiss. apply validation_error_None in Hok.
  unfold savePaperDetails. rewrite Hcur, Hok.
  rewrite findIndex_None; [reflexivity|].
  intros p Hp. unfold Js.strict_eq. apply bool_decide_eq_false.
  now apply Hmiss.
Qed.

End Edit.
End EditFacts.

(** ** Properties of filtering and pagination *)

Module ViewFacts.
Import Catalog Reference.

Lemma lower_char_idem (c : ascii) :
  Js.lower_char (Js.lower_char c) = Js.lower_char c.
Proof. destruct c as [[] [] [] [] [] [] [] []]; reflexivity. Qed.

Lemma toLowerCase_idem (s : string) :
  Js.toLowerCase (Js.toLowerCase s) = Js.toLowerCase s.
Proof.
  induction s as [|c s IH]; simpl; [reflexivity|].
  now rewrite lower_char_idem, IH.
Qed.

(** The writers of the query keep it in lower case. *)
Lemma set_search_lowercase (v : string) (f : Filters) :
  search_lowercase (set_search v f).
Proof. unfold search_lowercase. simpl. apply toLowerCase_idem. Qed.

Lemma defaultFilters_lowercase : search_lowercase defaultFilters.
Proof. reflexivity. Qed.

Lemma truthy_str_false (s : string) :
  Js.truthy_str s = false <-> s = EmptyString.
Proof. destruct s; simpl; split; congruence. Qed.


Lemma length_positive {A : Type} (l : list A) :
  (0 <? Z.of_nat (length l)) = false <-> l = [].
Proof. destruct l; [easy|]. split; [cbn; discriminate | discriminate]. Qed.





Lemma range_check (lo hi y : Z) :
  negb (Js.lt (Some y) (Some lo) || Js.gt (Some y) (Some hi)) = true <->
  lo <= y <= hi.
Proof.
  unfold Js.gt, Js.lt.
  destruct (Z.ltb_spec y lo), (Z.ltb_spec hi y); simpl; split;
    try discriminate; try lia; reflexivity.
Qed.

Lemma at_least_check (bound : option Js.num) (c : Z) :
  bound <> Some None ->
  negb (match bound with
        | Some m => Js.lt (Some c) m
        | None => false
        end) = true <-> at_least bound (Some c).
Proof.
  intros Hb. destruct bound as [[m|]|]; simpl.
  - destruct (Z.ltb_spec c m); simpl; split; try discriminate; try lia;
      reflexivity.
  - now contradiction Hb.
  - easy.
Qed.

Lemma at_most_check (bound : option Js.num) (c : Z) :
  bound <> Some None ->
  negb (match bound with
        | Some m => Js.gt (Some c) m
        | None => false
        end) = true <-> at_most bound (Some c).
Proof.
  intros Hb. destruct bound as [[m|]|]; simpl.
  - unfold Js.gt. simpl.
    destruct (Z.ltb_spec m c); simpl; split; try discriminate; try lia;
      reflexivity.
  - now contradiction Hb.
  - easy.
Qed.
















Lemma insert_sorted_Permutation {A : Type} (cmp : A -> A -> Js.num)
    (x : A) (l : list A) :
  Permutation (insert_sorted cmp x l) (x :: l).
Proof.
  induction l as [|y l IH]; simpl; [reflexivity|].
  destruct (after cmp x y); [|reflexivity].
  rewrite IH. apply perm_swap.
Qed.

Lemma array_sort_Permutation {A : Type} (cmp : A -> A -> Js.num)
    (l : list A) :
  Permutation (array_sort cmp l) l.
Proof.
  induction l as [|x l IH]; simpl; [reflexivity|].
  unfold array_sort in *. simpl.
  rewrite insert_sorted_Permutation. now constructor.
Qed.

Lemma ceil_div_12 (n : Z) :
  Js.ceil_div n papersPerPage = (n + 11) / 12 /\
  12 * (Js.ceil_div n papersPerPage - 1) < n <= 12 * Js.ceil_div n papersPerPage.
Proof.
  unfold Js.ceil_div, papersPerPage.
  pose proof (Z.div_mod (- n) 12 ltac:(lia)).
  pose proof (Z.mod_pos_bound (- n) 12 ltac:(lia)).
  pose proof (Z.div_mod (n + 11) 12 ltac:(lia)).
  pose proof (Z.mod_pos_bound (n + 11) 12 ltac:(lia)).
  lia.
Qed.

Lemma slice_inside {A : Type} (l : list A) (start : Z) :
  0 <= start < Z.of_nat (length l) ->
  slice l start (Z.min (start + papersPerPage) (Z.of_nat (length l))) =
    take (Z.to_nat papersPerPage) (drop (Z.to_nat start) l) /\
  slice l start (Z.min (start + papersPerPage) (Z.of_nat (length l))) <> [].
Proof.
  intros Hs. unfold slice, papersPerPage.
  set (n := Z.of_nat (length l)) in *.
  destruct (Z.ltb_spec start 0); [lia|].
  destruct (Z.ltb_spec (Z.min (start + 12) n) 0); [lia|].
  replace (Z.min start n) with start by lia.
  replace (Z.min (Z.min (start + 12) n) n) with (Z.min (start + 12) n) by lia.
  assert (Hlen : length (drop (Z.to_nat start) l) = Z.to_nat (n - start)).
  { rewrite length_drop. unfold n. lia. }
  split.
  - destruct (Z.le_gt_cases (start + 12) n).
    + f_equal. lia.
    + rewrite !take_ge; try reflexivity; rewrite Hlen; lia.
  - intros E. apply (f_equal length) in E. rewrite length_take, Hlen in E.
    simpl in E. lia.
Qed.

Lemma slice_beyond {A : Type} (l : list A) (start : Z) :
  Z.of_nat (length l) <= start ->
  slice l start (Z.min (start + papersPerPage) (Z.of_nat (length l))) = [].
Proof.
  intros Hs. unfold slice, papersPerPage.
  set (n := Z.of_nat (length l)) in *.
  destruct (Z.ltb_spec start 0); [lia|].
  destruct (Z.ltb_spec (Z.min (start + 12) n) 0); [lia|].
  replace (Z.to_nat (Z.min (Z.min (start + 12) n) n - Z.min start n))
    with 0%nat by lia.
  reflexivity.
Qed.

Lemma slice_page_zero {A : Type} (l : list A) :
  slice l ((0 - 1) * papersPerPage)
    (Z.min ((0 - 1) * papersPerPage + papersPerPage) (Z.of_nat (length l)))
  = [].
Proof.
  unfold slice, papersPerPage.
  set (m := Z.of_nat (length l)).
  assert (0 <= m) by (unfold m; lia).
  change ((0 - 1) * 12) with (-12). change (-12 + 12) with 0.
  change (-12 <? 0) with true. cbv iota.
  destruct (Z.ltb_spec (Z.min 0 m) 0); [lia|].
  replace (Z.to_nat (Z.min (Z.min 0 m) m - Z.max (m + -12) 0))
    with 0%nat by lia.
  reflexivity.
Qed.

Section View.
Context {World : Type} `{Environment World}.


(** C9, as the code has it. Pages hold 12 records and the number of
    pages is the count divided by 12 and rounded up. [goToPage] takes the
    requested number as it is, without clamping: for a request within
    [1, total] the grid shows that page, which is not empty; for a request
    beyond the last page, and for page 0, the grid shows no record. *)
Theorem pagination_as_requested (st : @LiteratureManager World) (page : Z) :
  let n := Z.of_nat (length (filteredPapers st)) in
  papersPerPage = 12 /\
  totalPages st = (n + 11) / 12 /\
  12 * (totalPages st - 1) < n <= 12 * totalPages st /\
  currentPage (goToPage page st) = page /\
  filteredPapers (goToPage page st) = filteredPapers st /\
  (1 <= page <= totalPages st ->
     renderPapersGrid (goToPage page st) = page_of page (filteredPapers st) /\
     renderPapersGrid (goToPage page st) <> []) /\
  (totalPages st < page \/ page = 0 ->
     renderPapersGrid (goToPage page st) = []).
Proof.
  intros n.
  assert (Ht : totalPages st = Js.ceil_div n papersPerPage) by reflexivity.
  destruct (ceil_div_12 n) as (Hc & Hlo & Hhi). rewrite <- Ht in Hc, Hlo, Hhi.
  clear Ht. subst n.
  split; [reflexivity|]. split; [exact Hc|]. split; [now split|].
  split; [reflexivity|]. split; [reflexivity|]. split.
  - intros Hpage. unfold renderPapersGrid, page_of. simpl.
    replace (papersPerPage * (page - 1)) with ((page - 1) * papersPerPage)
      by lia.
    apply slice_inside. unfold papersPerPage. lia.
  - intros [Hpage| ->]; unfold renderPapersGrid; simpl.
    + apply slice_beyond. unfold papersPerPage. lia.
    + apply slice_page_zero.
Qed.

End View.
End ViewFacts.

(** Filtering and pagination on concrete managers. *)

Module ViewExamples.
Import Catalog Reference Scenario ViewFacts.

Example search_ignores_case :
  map title
    (filteredPapers
       (applyFilters
          (searching "DEEP"
             [paper (Js.Num 1) "Deep learning" 2019 5;
              paper (Js.Num 2) "Shallow water" 2021 9;
              paper (Js.Num 3) "A deep dive" 2022 1])))
  = ["A deep dive"; "Deep learning"]%string.
Proof. reflexivity. Qed.


(** C9, as the claim words it, fails: with 13 records there are two
    pages; a request for page 3 is not clamped to page 2 (which holds the
    thirteenth record), and the grid shows no record at all. *)
Lemma no_clamping_counterexample :
  totalPages (manager (replicate 13 (paper (Js.Num 1) "T" 2020 3)) None false)
    = 2 /\
  clampPage 3 2 = 2 /\
  renderPapersGrid
    (goToPage 3
       (manager (replicate 13 (paper (Js.Num 1) "T" 2020 3)) None false)) = [] /\
  renderPapersGrid
    (goToPage 3
       (manager (replicate 13 (paper (Js.Num 1) "T" 2020 3)) None false))
  <> page_of (clampPage 3 2) (replicate 13 (paper (Js.Num 1) "T" 2020 3)).
Proof. repeat split. discriminate. Qed.

Lemma pagination_as_requested_witness :
  renderPapersGrid
    (goToPage 2
       (manager (replicate 13 (paper (Js.Num 1) "T" 2020 3)) None false))
  = page_of 2 (replicate 13 (paper (Js.Num 1) "T" 2020 3)).
Proof.
  destruct (pagination_as_requested
              (manager (replicate 13 (paper (Js.Num 1) "T" 2020 3)) None false)
              2) as (_ & Ht & _ & _ & _ & Hin & _).
  apply Hin. rewrite Ht. split; [lia|]. vm_compute. discriminate.
Defined.

End ViewExamples.

(** ** Properties of the fallback store and of the migration *)

Module StorageFacts.
Import Catalog Reference EditFacts.

Section Storage.
Context {World : Type} `{Environment World}.

Lemma localCopy_thumbnail (p : Paper) :
  thumbnail (localCopy p) =
    match thumbnail p with
    | Some t =>
        if Js.truthy_str t && (Js.length t <? 50000) then Some t else None
    | None => None
    end.
Proof. reflexivity. Qed.

(** C5, as the code has it. The payload [saveData] writes to the fallback
    store holds one copy per record, in order; every copy has no binary
    and differs from its record in nothing else than the thumbnail;
    a thumbnail that is present (and not the empty string) is kept exactly
    when it is shorter than 50,000 characters, and dropped when it has
    50,000 characters or more; an absent or empty thumbnail is absent from
    the copy. When IndexedDB is not initialised and the store accepts the
    payload, that payload is what is stored. *)
Theorem fallback_payload (st : LiteratureManager) :
  (storageInitialized st = false ->
   setItemOk (papersToSave st) = true ->
   saveData st = (true, set_localStorage (Some (papersToSave st)) st)) /\
  length (papersToSave st) = length (papers st) /\
  forall (i : nat) (p : Paper),
    papers st !! i = Some p ->
    exists q,
      papersToSave st !! i = Some q /\
      pdfFile q = None /\
      q = set_pdfFile None (set_thumbnail (thumbnail q) p) /\
      (forall t, thumbnail p = Some t -> t <> EmptyString ->
         (Js.length t < 50000 -> thumbnail q = Some t) /\
         (50000 <= Js.length t -> thumbnail q = None)) /\
      (thumbnail p = None \/ thumbnail p = Some EmptyString ->
         thumbnail q = None).
Proof.
  split; [|split].
  - intros Hs Hq. unfold saveData. now rewrite Hs, Hq.
  - unfold papersToSave. apply length_map.
  - intros i p Hp. exists (localCopy p). unfold papersToSave.
    rewrite list_lookup_fmap, Hp.
    split; [reflexivity|]. split; [reflexivity|]. split; [reflexivity|].
    rewrite localCopy_thumbnail. split.
    + intros t Ht Hne. rewrite Ht.
      destruct t as [|a t]; [contradiction|].
      change (Js.truthy_str (String a t)) with true. rewrite andb_true_l.
      split; intros Hlen.
      * destruct (Z.ltb_spec (Js.length (String a t)) 50000);
          [reflexivity|lia].
      * destruct (Z.ltb_spec (Js.length (String a t)) 50000);
          [lia|reflexivity].
    + intros [Hn|He]; [now rewrite Hn | now rewrite He].
Qed.

Lemma migrate_loop_app (l1 l2 : list Paper) (c : Z) (w : World) :
  let r1 := migrate_loop l1 c w in
  let r2 := migrate_loop l2 (migratedCount r1) (world_after r1) in
  migrate_loop (l1 ++ l2) c w =
    mkMigration (migrated r1 ++ migrated r2) (attempts r1 ++ attempts r2)
      (migratedCount r2) (world_after r2).
Proof.
  revert c w. induction l1 as [|p l1 IH]; intros c w; simpl.
  - now destruct (migrate_loop l2 c w).
  - destruct (migrate_one p w) as [[p1 ok] w1]. simpl.
    now rewrite IH.
Qed.

Lemma migrate_one_same_content (p : Paper) (w : World) :
  same_content p (fst (fst (migrate_one p w))).
Proof.
  unfold migrate_one.
  pose proof (ensure_id_same_content p w) as Hp.
  destruct (ensure_id p w) as [p1 w1]. simpl in Hp.
  destruct (savePaper p1 None w1) as [[] w2]; [|exact Hp].
  destruct (thumbnail p1) as [t|]; [|exact Hp].
  destruct (Js.truthy_str t); [|exact Hp].
  now destruct (saveThumbnail (id p1) t w2).
Qed.

Lemma migrate_loop_attempts (l : list Paper) (c : Z) (w : World) :
  let r := migrate_loop l c w in
  map fst (attempts r) = migrated r /\
  Forall2 same_content l (migrated r) /\
  migratedCount r = c + Z.of_nat (length (List.filter snd (attempts r))).
Proof.
  revert c w. induction l as [|p l IH]; intros c w; simpl.
  - repeat split; [constructor | lia].
  - pose proof (migrate_one_same_content p w) as Hp.
    destruct (migrate_one p w) as [[p1 ok] w1]. simpl in Hp |- *.
    destruct (IH (if ok then c + 1 else c) w1) as (Ha & Hs & Hc).
    split; [now rewrite Ha|]. split; [now constructor|].
    rewrite Hc. destruct ok; simpl; lia.
Qed.

Lemma ensure_id_presented (p : Paper) (w : World) :
  presented p (fst (ensure_id p w)) w (snd (ensure_id p w)).
Proof.
  unfold presented, ensure_id.
  destruct (Js.truthy (id p)); simpl.
  - left. auto.
  - right. destruct (freshId w) as [s w1]. simpl. auto.
Qed.

Lemma migrate_loop_handed (l : list Paper) (c : Z) (w : World) :
  handed_to_store l w (attempts (migrate_loop l c w))
    (world_after (migrate_loop l c w)).
Proof.
  revert c w. induction l as [|p l IH]; intros c w; simpl; [constructor|].
  unfold migrate_one.
  pose proof (ensure_id_presented p w) as Hp.
  destruct (ensure_id p w) as [q w1]. simpl in Hp.
  destruct (savePaper q None w1) as [[|] w2] eqn:Hsave; simpl.
  - destruct (thumbnail q) as [t|] eqn:Ht.
    + destruct (Js.truthy_str t) eqn:Htt.
      * destruct (saveThumbnail (id q) t w2) as [ok w3] eqn:Hthumb. simpl.
        eapply handed_thumbnail; eauto.
        intros ->. discriminate.
      * simpl. eapply handed_plain; eauto.
        intros t' Ht'. rewrite Ht in Ht'. injection Ht' as <-.
        destruct t; [reflexivity | discriminate].
    + simpl. eapply handed_plain; eauto.
      intros t' Ht'. rewrite Ht in Ht'. discriminate.
  - eapply handed_rejected; eauto.
Qed.

(** C6. A run of the migration over a non-empty collection, IndexedDB
    being initialised. Every record is handed to the store, in order:
    it goes to [savePaper] (and its thumbnail to [saveThumbnail]) in the
    environment the record before it left, whether that one was rejected
    or not, and the attempt is a success exactly when nothing was
    rejected. So the outcome of a record has no influence on whether the
    records after it are attempted: the attempts split at any record
    into those before it, its own, and those of the remainder run from
    the environment it left. The counter is the number of successful
    attempts, and the fallback payload is removed exactly when the counter
    is positive; otherwise it is left as it was. *)
Theorem migration_best_effort (st : LiteratureManager) :
  storageInitialized st = true ->
  papers st <> [] ->
  let r := migrate_loop (papers st) 0 (world st) in
  handed_to_store (papers st) (world st) (attempts r)
    (world (migrateToIndexedDB st)) /\
  map fst (attempts r) = migrated r /\
  Forall2 same_content (papers st) (migrated r) /\
  length (attempts r) = length (papers st) /\
  (forall l1 p l2, papers st = l1 ++ p :: l2 ->
     let r1 := migrate_loop l1 0 (world st) in
     let step := migrate_one p (world_after r1) in
     let ok := snd (fst step) in
     attempts r =
       attempts r1 ++ (fst (fst step), ok) ::
       attempts (migrate_loop l2
                   (if ok then migratedCount r1 + 1 else migratedCount r1)
                   (snd step))) /\
  migratedCount r = Z.of_nat (length (List.filter snd (attempts r))) /\
  papers (migrateToIndexedDB st) = migrated r /\
  (0 < migratedCount r -> localStorage (migrateToIndexedDB st) = None) /\
  (migratedCount r <= 0 ->
     localStorage (migrateToIndexedDB st) = localStorage st).
Proof.
  intros Hinit Hne r.
  destruct (migrate_loop_attempts (papers st) 0 (world st))
    as (Ha & Hs & Hc). fold r in Ha, Hs, Hc.
  assert (Hrun : migrateToIndexedDB st =
                 let st1 := set_world (world_after r)
                              (set_papers (migrated r) st) in
                 if 0 <? migratedCount r
                 then showNotification
                        "Successfully migrated papers to secure storage!"
                        "success" (set_localStorage None st1)
                 else st1).
  { unfold migrateToIndexedDB. rewrite Hinit. simpl.
    destruct (papers st) as [|p l] eqn:E; [contradiction|]. reflexivity. }
  split.
  { replace (world (migrateToIndexedDB st)) with (world_after r);
      [apply migrate_loop_handed|].
    rewrite Hrun. simpl. now destruct (0 <? migratedCount r). }
  split; [exact Ha|]. split; [exact Hs|]. split.
  { rewrite <- (length_map fst), Ha. symmetry.
    eapply Forall2_length, Hs. }
  split.
  { intros l1 p l2 E r1 step ok. unfold r. rewrite E.
    rewrite (migrate_loop_app l1 (p :: l2) 0 (world st)). simpl.
    fold r1. unfold ok, step.
    now destruct (migrate_one p (world_after r1)) as [[p1 b] w1]. }
  split; [lia|]. rewrite Hrun. simpl.
  split; [now destruct (0 <? migratedCount r)|].
  split; intros Hcount.
  - destruct (Z.ltb_spec 0 (migratedCount r)); [reflexivity|lia].
  - destruct (Z.ltb_spec 0 (migratedCount r)); [lia|reflexivity].
Qed.

End Storage.
End StorageFacts.

(** ** Properties of the release uploader *)

Module UploaderFacts.
Import Uploader.

Section Uploads.
Context {Net : Type} `{Network Net}.

(** With a callback that returns, a turn of the loop pushes one entry,
    and nothing leaves the loop. *)
Lemma upload_one_normal (u : Config) (releaseId : option Z) (t i : Z)
    (f : PdfFile) (cb : option (Callback Progress)) (net : Net) :
  returns_normally cb ->
  upload_one u releaseId t i f cb net =
    match uploadAsset u releaseId (standardFileName f) (blob f) net with
    | (Returned result, net') =>
        ([success_entry u f result],
         fst (notify cb (mkProgress (i + 1) t (standardFileName f)
                           "uploaded" None)),
         None, net')
    | (Thrown msg, net') =>
        ([failure_entry f msg],
         fst (notify cb (mkProgress (i + 1) t (standardFileName f)
                           "error" (Some msg))),
         None, net')
    end.
Proof.
  intros Hcb. unfold upload_one.
  destruct (uploadAsset u releaseId (standardFileName f) (blob f) net)
    as [[result|msg] net'];
    destruct cb as [k|]; simpl in *; rewrite ?Hcb; reflexivity.
Qed.

(** The entries pushed on [results] do not depend on the position of a
    file in the batch nor on the callback, as long as it returns; only
    the progress reports do. *)
Lemma upload_loop_normal (u : Config) (releaseId : option Z) (t t' i i' : Z)
    (cb cb' : option (Callback Progress)) (l : list PdfFile) (net : Net) :
  returns_normally cb -> returns_normally cb' ->
  (upload_loop u releaseId t i l cb net).1.1.1 =
    (upload_loop u releaseId t' i' l cb' net).1.1.1 /\
  (upload_loop u releaseId t i l cb net).1.2 = None /\
  (upload_loop u releaseId t i l cb net).2 =
    (upload_loop u releaseId t' i' l cb' net).2.
Proof.
  intros Hcb Hcb'. revert i i' net.
  induction l as [|f l IH]; intros i i' net; [now repeat split|].
  cbn [upload_loop]. rewrite !upload_one_normal by assumption.
  destruct (uploadAsset u releaseId (standardFileName f) (blob f) net)
    as [[body|msg] net1];
    specialize (IH (i + 1) (i' + 1) net1);
    destruct (upload_loop u releaseId t (i + 1) l cb net1)
      as [[[rs ps] th] n2];
    destruct (upload_loop u releaseId t' (i' + 1) l cb' net1)
      as [[[rs' ps'] th'] n2'];
    simpl in *; destruct IH as (-> & -> & ->); now repeat split.
Qed.

Lemma upload_loop_app (u : Config) (releaseId : option Z) (t i : Z)
    (cb : option (Callback Progress)) (l1 l2 : list PdfFile) (net : Net) :
  returns_normally cb ->
  (upload_loop u releaseId t i (l1 ++ l2) cb net).1.1.1 =
    (upload_loop u releaseId t i l1 cb net).1.1.1 ++
    (upload_loop u releaseId t i l2 cb
       (upload_loop u releaseId t i l1 cb net).2).1.1.1 /\
  (upload_loop u releaseId t i (l1 ++ l2) cb net).2 =
    (upload_loop u releaseId t i l2 cb
       (upload_loop u releaseId t i l1 cb net).2).2.
Proof.
  intros Hcb. revert i net.
  induction l1 as [|f l1 IH]; intros i net; [now split|].
  cbn [app upload_loop]. rewrite !upload_one_normal by assumption.
  destruct (uploadAsset u releaseId (standardFileName f) (blob f) net)
    as [[body|msg] net1];
    specialize (IH (i + 1) net1);
    destruct (upload_loop_normal u releaseId t t (i + 1) i cb cb l2
                (upload_loop u releaseId t (i + 1) l1 cb net1).2 Hcb Hcb)
      as (E1 & _ & E2);
    rewrite E1, E2 in IH;
    destruct (upload_loop u releaseId t (i + 1) (l1 ++ l2) cb net1)
      as [[[rs ps] th] n2];
    destruct (upload_loop u releaseId t (i + 1) l1 cb net1)
      as [[[rs1 ps1] th1] n1];
    simpl in *; destruct IH as [-> ->]; now split.
Qed.

Lemma uploadPDFs_normal (u : Config) (releaseId : option Z)
    (l : list PdfFile) (cb cb' : option (Callback Progress)) (net : Net)
    (t i : Z) :
  returns_normally cb -> returns_normally cb' ->
  (uploadPDFs u releaseId l cb net).1.1 =
    Returned (upload_loop u releaseId t i l cb' net).1.1.1 /\
  (uploadPDFs u releaseId l cb net).2 =
    (upload_loop u releaseId t i l cb' net).2.
Proof.
  intros Hcb Hcb'. unfold uploadPDFs.
  destruct (upload_loop_normal u releaseId (Z.of_nat (length l)) t 0 i cb cb'
              l net Hcb Hcb') as (E1 & E2 & E3).
  destruct (upload_loop u releaseId (Z.of_nat (length l)) 0 l cb net)
    as [[[rs ps] th] n]. simpl in *. subst th. now split; f_equal.
Qed.

Lemma upload_loop_labels (u : Config) (releaseId : option Z) (t i : Z)
    (l : list PdfFile) (net : Net) :
  Forall2
    (fun f r => result_fileName r = standardFileName f /\
                result_paperId r = paperId f)
    l (upload_loop u releaseId t i l None net).1.1.1.
Proof.
  revert i net. induction l as [|f l IH]; intros i net; [constructor|].
  cbn [upload_loop]. rewrite upload_one_normal by exact I.
  destruct (uploadAsset u releaseId (standardFileName f) (blob f) net)
    as [[body|msg] net1];
    specialize (IH (i + 1) net1);
    destruct (upload_loop u releaseId t (i + 1) l None net1)
      as [[[rs ps] th] n2];
    simpl in *; constructor; auto.
Qed.

(** C7. With no progress callback, or with one that returns from every
    call, [uploadPDFs] returns one outcome per asset, in the order of the
    assets, each carrying the file name and paper id of its asset and
    marked success or failure according to its own upload alone. The
    outcomes of a batch are those of any of its prefixes followed by
    those of the rest, uploaded over the network as the prefix left it:
    nothing that happens to an asset stops the uploads after it. In
    particular, of three assets of which only the second fails, the first
    and the third are marked success. *)
Theorem uploadPDFs_itemized (u : Config) (releaseId : option Z)
    (assets : list PdfFile) (onProgress : option (Callback Progress))
    (net : Net) :
  returns_normally onProgress ->
  let run l n := uploadPDFs u releaseId l onProgress n in
  let upload f n := uploadAsset u releaseId (standardFileName f) (blob f) n in
  exists results,
    (run assets net).1.1 = Returned results /\
    Forall2
      (fun f r => result_fileName r = standardFileName f /\
                  result_paperId r = paperId f)
      assets results /\
    (forall l1 l2, assets = l1 ++ l2 ->
       exists r1 r2,
         (run l1 net).1.1 = Returned r1 /\
         (run l2 (run l1 net).2).1.1 = Returned r2 /\
         results = r1 ++ r2) /\
    (forall f n, exists r,
       (run [f] n).1.1 = Returned [r] /\
       result_fileName r = standardFileName f /\
       (success r = true <-> exists body, (upload f n).1 = Returned body) /\
       (run [f] n).2 = (upload f n).2) /\
    (forall f1 f2 f3 b1 m2 b3 n1 n2 n3,
       assets = [f1; f2; f3] ->
       upload f1 net = (Returned b1, n1) ->
       upload f2 n1 = (Thrown m2, n2) ->
       upload f3 n2 = (Returned b3, n3) ->
       map success results = [true; false; true]).
Proof.
  intros Hcb run upload.
  assert (Hquiet : @returns_normally Progress None) by exact I.
  assert (Hrun : forall l n,
            (run l n).1.1 = Returned (upload_loop u releaseId 0 0 l None n).1.1.1
            /\ (run l n).2 = (upload_loop u releaseId 0 0 l None n).2).
  { intros l n. apply uploadPDFs_normal; assumption. }
  exists (upload_loop u releaseId 0 0 assets None net).1.1.1.
  split; [apply Hrun|]. split; [apply upload_loop_labels|].
  split; [|split].
  - intros l1 l2 ->.
    exists (upload_loop u releaseId 0 0 l1 None net).1.1.1,
      (upload_loop u releaseId 0 0 l2 None
         (upload_loop u releaseId 0 0 l1 None net).2).1.1.1.
    split; [apply Hrun|]. split.
    + destruct (Hrun l1 net) as [_ ->]. apply Hrun.
    + apply upload_loop_app. exact I.
  - intros f n. destruct (Hrun [f] n) as [E1 E2]. rewrite E1, E2.
    unfold upload. cbn [upload_loop]. rewrite upload_one_normal by exact I.
    destruct (uploadAsset u releaseId (standardFileName f) (blob f) n)
      as [[body|msg] n1]; simpl; eexists; repeat split; simpl; eauto.
    + intros [=].
    + intros [body [=]].
  - intros f1 f2 f3 b1 m2 b3 n1 n2 n3 -> H1 H2 H3.
    unfold upload in *. cbn [upload_loop].
    rewrite !upload_one_normal by exact I.
    rewrite H1. cbn [upload_loop]. rewrite !upload_one_normal by exact I.
    rewrite H2. cbn [upload_loop]. rewrite !upload_one_normal by exact I.
    rewrite H3. reflexivity.
Qed.

End Uploads.
End UploaderFacts.

(** The uploader on a scripted network. *)

Module UploaderExamples.
Import Uploader Scenario UploaderFacts.

(** Scenario D: three assets, the second upload fails. *)
Example three_assets_second_fails :
  (uploadPDFs (mkConfig "u" "r" "token") (Some 42)
     [mkPdfFile (Js.Str "a") "a.pdf" "a.pdf" "A";
      mkPdfFile (Js.Str "b") "b.pdf" "b.pdf" "B";
      mkPdfFile (Js.Str "c") "c.pdf" "c.pdf" "C"]
     onlooker
     [Response true (mkResponseJson None (Some 1) None None None None);
      Rejected "Failed to fetch";
      Response true (mkResponseJson None (Some 3) None None None None)]).1.1
  = Returned
      [success_entry (mkConfig "u" "r" "token")
         (mkPdfFile (Js.Str "a") "a.pdf" "a.pdf" "A")
         (mkResponseJson None (Some 1) None None None None);
       failure_entry (mkPdfFile (Js.Str "b") "b.pdf" "b.pdf" "B")
         "Failed to fetch";
       success_entry (mkConfig "u" "r" "token")
         (mkPdfFile (Js.Str "c") "c.pdf" "c.pdf" "C")
         (mkResponseJson None (Some 3) None None None None)].
Proof. reflexivity. Qed.

(** A callback that throws when it is told of an uploaded file: the
    upload succeeded, and the file is entered twice, as a success and as
    a failure carrying the error of the callback. *)
Example throwing_callback_doubles_entry :
  (uploadPDFs (mkConfig "u" "r" "token") (Some 42)
     [mkPdfFile (Js.Str "a") "a.pdf" "a.pdf" "A"]
     failing_on_uploaded
     [Response true (mkResponseJson None (Some 1) None None None None)]).1.1
  = Returned
      [success_entry (mkConfig "u" "r" "token")
         (mkPdfFile (Js.Str "a") "a.pdf" "a.pdf" "A")
         (mkResponseJson None (Some 1) None None None None);
       failure_entry (mkPdfFile (Js.Str "a") "a.pdf" "a.pdf" "A")
         "callback failed"].
Proof. reflexivity. Qed.

Lemma uploadPDFs_itemized_witness :
  exists results,
    (uploadPDFs (mkConfig "u" "r" "token") (Some 42)
       [mkPdfFile (Js.Str "a") "a.pdf" "a.pdf" "A";
        mkPdfFile (Js.Str "b") "b.pdf" "b.pdf" "B";
        mkPdfFile (Js.Str "c") "c.pdf" "c.pdf" "C"]
       onlooker
       [Response true (mkResponseJson None (Some 1) None None None None);
        Rejected "Failed to fetch";
        Response true (mkResponseJson None (Some 3) None None None None)]).1.1
    = Returned results /\
    map success results = [true; false; true].
Proof.
  destruct (uploadPDFs_itemized (mkConfig "u" "r" "token") (Some 42)
              [mkPdfFile (Js.Str "a") "a.pdf" "a.pdf" "A";
               mkPdfFile (Js.Str "b") "b.pdf" "b.pdf" "B";
               mkPdfFile (Js.Str "c") "c.pdf" "c.pdf" "C"]
              onlooker
              [Response true (mkResponseJson None (Some 1) None None None None);
               Rejected "Failed to fetch";
               Response true (mkResponseJson None (Some 3) None None None None)]
              (fun _ => eq_refl))
    as (results & Hrun & _ & _ & _ & Hd).
  exists results. split; [exact Hrun|].
  eapply Hd; reflexivity.
Defined.

Lemma updateCDNUrls_lookup (files : gmap string (gmap string Json))
    (tagName : option string) (results : list UploadResult) (path : string) :
  updateCDNUrls files tagName results !! path =
    (fun paperData =>
       if is_paper_file path then
         match List.find
                 (fun r => same_id (result_paperId r) (json_get paperData "id"))
                 (List.filter success results) with
         | Some uploadResult =>
             <["pdfUrl"%string :=
                 JVal (match cdnUrl uploadResult with
                       | Some url => Js.Str url
                       | None => Js.Undefined
                       end)]> paperData
         | None => paperData
         end
       else paperData) <$> files !! path.
Proof.
  unfold updateCDNUrls. rewrite map_lookup_imap.
  now destruct (files !! path).
Qed.

(** The tag handed to [updateCDNUrls] has no influence on its result. *)
Lemma updateCDNUrls_tag_unused (files : gmap string (gmap string Json))
    (t t' : option string) (results : list UploadResult) :
  updateCDNUrls files t results = updateCDNUrls files t' results.
Proof. reflexivity. Qed.

(** C8 fails on the code. The release is created under the tag
    [v2024.01.15], the base URL returned by the deploy carries that tag,
    and the asset of record ["p1"] is uploaded successfully; but the
    [pdfUrl] written in the per-paper file is built from the [tag_name]
    of the asset response, which an asset does not have, and so carries
    [latest] instead of the tag of the release. *)
Theorem deploy_writes_latest_tag :
  exists o net,
    deployToGitHubReleases (mkConfig "u" "r" "token") bundle onlooker
      api_answers
      = (Returned o, net) /\
    tag_name (release o) = Some "v2024.01.15"%string /\
    cdnBaseUrl o = "https://cdn.jsdelivr.net/gh/u/r@v2024.01.15/"%string /\
    map success (uploadResults o) = [true] /\
    (deployed_jsonFiles o !! "data/papers/p1.json"%string)
      ≫= (fun file => file !! "pdfUrl"%string)
    = Some (JVal (Js.Str "https://cdn.jsdelivr.net/gh/u/r@latest/p1.pdf")) /\
    (deployed_jsonFiles o !! "data/papers/p1.json"%string)
      ≫= (fun file => file !! "pdfUrl"%string)
    <> Some (JVal (Js.Str "https://cdn.jsdelivr.net/gh/u/r@v2024.01.15/p1.pdf")).
Proof.
  eexists _, _. split; [reflexivity|].
  repeat split; try reflexivity.
  vm_compute. discriminate.
Qed.

End UploaderExamples.

(** Adding records to concrete managers. *)

Module AddExamples.
Import Catalog Scenario.

(** C2 fails on the code. The collection holds one record, whose id is
    the number 2 (say, read from a static bundle); a JSON file is parsed
    and its record added. [normalizepaperData] numbers the new record by
    the size of the collection plus one, which is 2 again, and [addPaper]
    appends it without looking at the ids already there. *)
Theorem parsed_record_reuses_id :
  exists p id' st',
    parseJSON
      {[ "title"%string := RStr "A new paper";
         "authors"%string := RArr ["N. Author"%string];
         "year"%string := RNum 2021 ]}
      "auto" (manager [paper (Js.Num 2) "Imported" 2020 3] None false)
      = Some p /\
    addPaper p (manager [paper (Js.Num 2) "Imported" 2020 3] None false)
      = (Some id', st') /\
    id' = Js.Num 2 /\
    map id (papers st') = [Js.Num 2; Js.Num 2] /\
    ~ NoDup (map id (papers st')).
Proof.
  eexists _, _, _. split; [vm_compute; reflexivity|].
  split; [vm_compute; reflexivity|].
  split; [reflexivity|]. split; [reflexivity|].
  intros Hnd. inversion Hnd as [|x l Hx _]; subst.
  apply Hx. left.
Qed.

(** A record added directly with an id that is already in the collection
    is appended as it is. *)
Example direct_add_keeps_id :
  map id
    (papers
       (snd (addPaper (paper (Js.Str "paper_1") "Again" 2022 0)
               (manager [paper (Js.Str "paper_1") "First" 2020 3] None true))))
  = [Js.Str "paper_1"; Js.Str "paper_1"].
Proof. reflexivity. Qed.

(** A record without id receives a generated one. *)
Example add_generates_id :
  fst (addPaper (paper Js.Undefined "Fresh" 2022 0)
         (manager [paper (Js.Num 1) "First" 2020 3] None true))
  = Some (Js.Str "paper_0").
Proof. reflexivity. Qed.

End AddExamples.

(** The edit path on concrete managers. *)

Module EditExamples.
Import Catalog Reference Scenario EditFacts.

Example parseInt_year : Js.parseInt "1899" = Some 1899.
Proof. reflexivity. Qed.

Example parseInt_prefix : Js.parseInt "  -42abc" = Some (-42).
Proof. reflexivity. Qed.

Example parseInt_empty : Js.parseInt "" = Js.NaN.
Proof. reflexivity. Qed.

Example parseInt_hex : Js.parseInt "0x1F" = Some 31.
Proof. reflexivity. Qed.

Example split_trim_example :
  split_trim_nonempty " A. One , ,B. Two," = ["A. One"; "B. Two"]%string.
Proof. reflexivity. Qed.

Lemma edit_validation_witness :
  papers (savePaperDetails (Some (form "A. Author" "Venue" "1899" "7"))
            (manager [paper (Js.Num 1) "T" 2020 3]
               (Some (paper (Js.Num 1) "T" 2020 3)) false))
  = [paper (Js.Num 1) "T" 2020 3].
Proof.
  destruct (edit_validation
              (manager [paper (Js.Num 1) "T" 2020 3]
                 (Some (paper (Js.Num 1) "T" 2020 3)) false)
              (paper (Js.Num 1) "T" 2020 3)
              (form "A. Author" "Venue" "1899" "7")
              eq_refl (or_introl eq_refl)) as (_ & H1899 & _).
  apply H1899. reflexivity.
Defined.

Lemma edit_hIndex_witness :
  exists i p',
    findIndex (fun p => Js.strict_eq (id p) (Js.Num 1))
      [paper (Js.Num 1) "T" 2020 3] = Some i /\
    papers (savePaperDetails (Some (form "A. Author" "Venue" "2030" "7"))
              (manager [paper (Js.Num 1) "T" 2020 3]
                 (Some (paper (Js.Num 1) "T" 2020 3)) false)) !! i = Some p' /\
    citations p' = Some 7 /\
    hIndex p' = Some (7 / 3) /\
    3 * (7 / 3) <= 7 < 3 * (7 / 3) + 3.
Proof.
  apply (edit_hIndex
           (manager [paper (Js.Num 1) "T" 2020 3]
              (Some (paper (Js.Num 1) "T" 2020 3)) false)
           (paper (Js.Num 1) "T" 2020 3)
           (form "A. Author" "Venue" "2030" "7") 7).
  - reflexivity.
  - left. reflexivity.
  - repeat split; try discriminate.
    exists 2030. split; [reflexivity | lia].
  - reflexivity.
  - unfold Js.safe_integer. lia.
Defined.

Lemma edit_missing_record_noop_witness :
  savePaperDetails (Some (form "A. Author" "Venue" "2001" "7"))
    (manager [paper (Js.Num 1) "T" 2020 3]
       (Some (paper (Js.Num 9) "Gone" 2020 3)) false)
  = manager [paper (Js.Num 1) "T" 2020 3]
      (Some (paper (Js.Num 9) "Gone" 2020 3)) false.
Proof.
  apply (edit_missing_record_noop
           (manager [paper (Js.Num 1) "T" 2020 3]
              (Some (paper (Js.Num 9) "Gone" 2020 3)) false)
           (paper (Js.Num 9) "Gone" 2020 3)
           (form "A. Author" "Venue" "2001" "7")).
  - reflexivity.
  - repeat split; try discriminate.
    exists 2001. split; [reflexivity | lia].
  - intros p [<-|[]]. discriminate.
Defined.

Example edit_1899_rejected :
  notifications
    (savePaperDetails (Some (form "A. Author" "Venue" "1899" "7"))
       (manager [paper (Js.Num 1) "T" 2020 3]
          (Some (paper (Js.Num 1) "T" 2020 3)) false))
  = [mkNotification "Please enter a valid publication year" "error"].
Proof. reflexivity. Qed.

Example edit_1900_accepted :
  papers
    (savePaperDetails (Some (form "B. Writer, C. Poet" " Other " "1900" "7"))
       (manager [paper (Js.Num 1) "T" 2020 3]
          (Some (paper (Js.Num 1) "T" 2020 3)) false))
  = [mkPaper (Js.Num 1) "T" ["B. Writer"; "C. Poet"]%string (Some 1900)
       "Other" "General" "Experimental" "Empirical" ["kw"%string] (Some 7)
       (Some 2) (Some 0) "An abstract" "" "#" "#" None None None].
Proof. reflexivity. Qed.

End EditExamples.

(** The fallback store on concrete managers. *)

Module StorageExamples.
Import Catalog Reference Scenario StorageFacts.

(** C5, as the claim words it, fails at the threshold: a thumbnail of
    exactly 50,000 characters does not exceed 50,000, and yet the payload
    written to the fallback store has dropped it. *)
Lemma thumbnail_threshold_counterexample :
  Js.length (repeat_char (Z.to_nat 50000) "a") = 50000 /\
  (map thumbnail <$>
     localStorage
       (snd (saveData
               (manager [with_thumbnail (repeat_char (Z.to_nat 50000) "a")] None false))))
  = Some [None].
Proof. split; vm_compute; reflexivity. Qed.

Lemma fallback_payload_witness :
  saveData (manager [with_thumbnail "data:image/jpeg;base64,AAAA"] None false)
  = (true,
     set_localStorage
       (Some (papersToSave
                (manager [with_thumbnail "data:image/jpeg;base64,AAAA"]
                   None false)))
       (manager [with_thumbnail "data:image/jpeg;base64,AAAA"] None false)).
Proof.
  apply (fallback_payload
           (manager [with_thumbnail "data:image/jpeg;base64,AAAA"] None false));
    reflexivity.
Defined.

Example short_thumbnail_kept :
  map (fun q => Js.length <$> thumbnail q)
    (papersToSave
       (manager [with_thumbnail (repeat_char (Z.to_nat 49999) "a")] None
          false))
  = [Some 49999].
Proof. vm_compute. reflexivity. Qed.

(** Scenario B: two records without binaries in the fallback store; both
    are moved and the payload is then absent. *)
Example migration_two_records :
  let st := migrateToIndexedDB
              (loaded_from_fallback
                 [paper Js.Undefined "One" 2019 0; paper (Js.Num 7) "Two" 2021 4]) in
  map id (papers st) = [Js.Str "paper_0"; Js.Num 7] /\
  localStorage st = None /\
  map kind (notifications st) = ["success"%string].
Proof. repeat split. Qed.

(** A rejected record in the middle: the records around it are migrated,
    the payload is removed. *)
Example migration_partial :
  let ps := [paper (Js.Num 1) "One" 2019 0; paper (Js.Num 2) "unsaved" 2020 0;
             paper (Js.Num 3) "Three" 2021 0] in
  map snd (attempts (migrate_loop ps 0 0%nat)) = [true; false; true] /\
  migratedCount (migrate_loop ps 0 0%nat) = 2 /\
  localStorage (migrateToIndexedDB (loaded_from_fallback ps)) = None.
Proof. repeat split. Qed.

(** Every record rejected: the payload stays. *)
Example migration_nothing_saved :
  let ps := [paper (Js.Num 1) "unsaved" 2019 0] in
  migratedCount (migrate_loop ps 0 0%nat) = 0 /\
  localStorage (migrateToIndexedDB (loaded_from_fallback ps)) = Some ps.
Proof. repeat split. Qed.

Lemma migration_best_effort_witness :
  let ps := [paper (Js.Num 1) "One" 2019 0; paper (Js.Num 2) "unsaved" 2020 0;
             paper (Js.Num 3) "Three" 2021 0] in
  handed_to_store ps 0%nat
    [(paper (Js.Num 1) "One" 2019 0, true);
     (paper (Js.Num 2) "unsaved" 2020 0, false);
     (paper (Js.Num 3) "Three" 2021 0, true)]
    (world (migrateToIndexedDB (loaded_from_fallback ps))) /\
  localStorage (migrateToIndexedDB (loaded_from_fallback ps)) = None.
Proof.
  intros ps.
  destruct (migration_best_effort (loaded_from_fallback ps)
              eq_refl ltac:(discriminate))
    as (Hhanded & _ & _ & _ & _ & _ & _ & Hcleared & _).
  split; [exact Hhanded | apply Hcleared; reflexivity].
Defined.

End StorageExamples.

(** ** Properties of sorting, of the listeners and of the pagination bar *)

Module ControlsFacts.
Import Catalog Reference Controls EditFacts ViewFacts.

(** Insertion with a comparator that orders by an integer key. *)
Section KeySort.
Context {A : Type} (cmp : A -> A -> Js.num) (key : A -> Z) (P : A -> Prop).
Hypothesis Hkey : forall a b, P a -> P b -> after cmp a b = (key b <? key a).

Lemma insert_sorted_Forall (x : A) (l : list A) (Q : A -> Prop) :
  Q x -> Forall Q l -> Forall Q (insert_sorted cmp x l).
Proof.
  intros Hx Hl. induction Hl as [|y l Hy Hl IH]; simpl.
  - now constructor.
  - destruct (after cmp x y); repeat constructor; auto.
Qed.

Lemma array_sort_Forall (l : list A) (Q : A -> Prop) :
  Forall Q l -> Forall Q (array_sort cmp l).
Proof.
  intros Hl. induction Hl as [|x l Hx Hl IH]; [constructor|].
  now apply insert_sorted_Forall.
Qed.

Lemma insert_sorted_sorted (x : A) (l : list A) :
  P x -> Forall P l ->
  StronglySorted (fun a b => key a <= key b) l ->
  StronglySorted (fun a b => key a <= key b) (insert_sorted cmp x l).
Proof.
  intros Hx HP Hs. induction Hs as [|y l Hs IH Hy]; simpl.
  - repeat constructor.
  - apply Forall_cons in HP as [HPy HPl].
    rewrite (Hkey x y Hx HPy). destruct (Z.ltb_spec (key y) (key x)).
    + constructor; [now apply IH|].
      apply insert_sorted_Forall; [lia | assumption].
    + constructor; [now constructor|].
      constructor; [lia|]. eapply Forall_impl; [exact Hy|].
      simpl. intros; lia.
Qed.

Lemma array_sort_sorted (l : list A) :
  Forall P l -> StronglySorted (fun a b => key a <= key b) (array_sort cmp l).
Proof.
  intros HP. induction HP as [|x l Hx HP IH]; [constructor|].
  apply insert_sorted_sorted; [assumption | | exact IH].
  now apply array_sort_Forall.
Qed.

Lemma insert_sorted_stable (x : A) (l : list A) (k : Z) :
  P x -> Forall P l ->
  filter (fun a => key a = k) (insert_sorted cmp x l) =
    filter (fun a => key a = k) (x :: l).
Proof.
  intros Hx HP. induction HP as [|y l Hy HP IH]; [reflexivity|].
  simpl. rewrite (Hkey x y Hx Hy).
  destruct (Z.ltb_spec (key y) (key x)); [|reflexivity].
  rewrite !filter_cons, IH, filter_cons.
  destruct (decide (key y = k)), (decide (key x = k)); try reflexivity.
  lia.
Qed.

Lemma array_sort_stable (l : list A) (k : Z) :
  Forall P l ->
  filter (fun a => key a = k) (array_sort cmp l) =
    filter (fun a => key a = k) l.
Proof.
  intros HP. induction HP as [|x l Hx HP IH]; [reflexivity|].
  unfold array_sort in *. simpl.
  rewrite insert_sorted_stable; [|assumption | now apply array_sort_Forall].
  now rewrite !filter_cons, IH.
Qed.

Lemma array_sort_of_sorted (l : list A) :
  Forall P l ->
  StronglySorted (fun a b => key a <= key b) l -> array_sort cmp l = l.
Proof.
  intros HP Hs. induction Hs as [|x l Hs IH Hx]; [reflexivity|].
  apply Forall_cons in HP as [HPx HPl].
  unfold array_sort in *. simpl. rewrite (IH HPl).
  destruct l as [|y l]; [reflexivity|]. simpl.
  apply Forall_cons in HPl as [HPy _]. apply Forall_cons in Hx as [Hxy _].
  rewrite (Hkey x y HPx HPy).
  destruct (Z.ltb_spec (key y) (key x)); [lia | reflexivity].
Qed.

End KeySort.

Lemma StronglySorted_weaken {A : Type} (R R' : A -> A -> Prop) (P : A -> Prop)
    (l : list A) :
  (forall a b, P a -> P b -> R a b -> R' a b) ->
  Forall P l -> StronglySorted R l -> StronglySorted R' l.
Proof.
  intros HR HP Hs. induction Hs as [|x l Hs IH Hx]; [constructor|].
  apply Forall_cons in HP as [HPx HPl].
  constructor; [now apply IH|].
  rewrite Forall_forall in *. intros y Hy. apply HR; auto.
Qed.

Lemma filter_equiv {A : Type} (Q Q' P : A -> Prop)
    `{forall a, Decision (Q a)} `{forall a, Decision (Q' a)} (l : list A) :
  (forall a, P a -> (Q a <-> Q' a)) ->
  Forall P l -> filter Q l = filter Q' l.
Proof.
  intros HQ HP. induction HP as [|x l Hx HP IH]; [reflexivity|].
  rewrite !filter_cons, IH.
  destruct (decide (Q x)), (decide (Q' x)); try reflexivity;
    exfalso; apply HQ in Hx; tauto.
Qed.

Section Sorting.
Context {World : Type} `{Environment World}.

Lemma compareFn_key (sortKey : string) (a b : Paper) :
  sortKey <> "title-asc"%string ->
  paper_numeric a -> paper_numeric b ->
  after (compareFn sortKey) a b = (sort_key sortKey b <? sort_key sortKey a).
Proof.
  intros Hk ([ya Ha] & [ca Hca]) ([yb Hb] & [cb Hcb]).
  unfold after, compareFn, sort_key. rewrite Ha, Hb, Hca, Hcb.
  destruct (String.eqb_spec sortKey "year-desc") as [->|_]; simpl.
  { destruct (Z.ltb_spec 0 (yb - ya)), (Z.ltb_spec (- yb) (- ya)); lia. }
  destruct (String.eqb_spec sortKey "year-asc") as [->|_]; simpl.
  { destruct (Z.ltb_spec 0 (ya - yb)), (Z.ltb_spec yb ya); lia. }
  destruct (String.eqb_spec sortKey "citations-desc") as [->|_]; simpl.
  { destruct (Z.ltb_spec 0 (cb - ca)), (Z.ltb_spec (- cb) (- ca)); lia. }
  destruct (String.eqb_spec sortKey "citations-asc") as [->|_]; simpl.
  { destruct (Z.ltb_spec 0 (ca - cb)), (Z.ltb_spec cb ca); lia. }
  destruct (String.eqb_spec sortKey "title-asc") as [->|_]; [congruence|].
  destruct (Z.ltb_spec 0 (yb - ya)), (Z.ltb_spec (- yb) (- ya)); lia.
Qed.

Lemma sortPapers_key_sorted (st : @LiteratureManager World) :
  Forall paper_numeric (filteredPapers st) ->
  currentSort st <> "title-asc"%string ->
  Forall paper_numeric (filteredPapers (sortPapers st)) /\
  StronglySorted
    (fun p q => sort_key (currentSort st) p <= sort_key (currentSort st) q)
    (filteredPapers (sortPapers st)).
Proof.
  intros Hn Hk. simpl. split; [now apply array_sort_Forall|].
  apply (array_sort_sorted _ _ paper_numeric); [|assumption].
  intros a b. now apply compareFn_key.
Qed.

(** X1. [sortPapers] rearranges the filtered records (none is lost or
    added) and, the years and citation counts being integers, leaves
    them in the order of the sort key: years descending for
    ["year-desc"] and for any key it does not know, years ascending for
    ["year-asc"], citation counts descending or ascending for the two
    citation keys. *)
Theorem sortPapers_orders (st : @LiteratureManager World) :
  Forall paper_numeric (filteredPapers st) ->
  let l := filteredPapers (sortPapers st) in
  Permutation l (filteredPapers st) /\
  (currentSort st ∉ ["year-asc"; "citations-desc"; "citations-asc";
                      "title-asc"]%string ->
     StronglySorted (fun p q => num_le (year q) (year p)) l) /\
  (currentSort st = "year-asc"%string ->
     StronglySorted (fun p q => num_le (year p) (year q)) l) /\
  (currentSort st = "citations-desc"%string ->
     StronglySorted (fun p q => num_le (citations q) (citations p)) l) /\
  (currentSort st = "citations-asc"%string ->
     StronglySorted (fun p q => num_le (citations p) (citations q)) l).
Proof.
  intros Hn l.
  split; [apply array_sort_Permutation|].
  assert (Hgen : forall R : Paper -> Paper -> Prop,
            currentSort st <> "title-asc"%string ->
            (forall p q, paper_numeric p -> paper_numeric q ->
               sort_key (currentSort st) p <= sort_key (currentSort st) q ->
               R p q) ->
            StronglySorted R l).
  { intros R Hk HR. destruct (sortPapers_key_sorted st Hn Hk) as [Hn' Hs].
    exact (StronglySorted_weaken _ R paper_numeric _ HR Hn' Hs). }
  repeat split.
  - intros Hk. rewrite !not_elem_of_cons in Hk.
    destruct Hk as (K1 & K2 & K3 & K4 & _).
    apply Hgen; [assumption|].
    intros p q ([yp Hp] & _) ([yq Hq] & _). unfold sort_key, num_le.
    rewrite Hp, Hq.
    destruct (String.eqb_spec (currentSort st) "year-asc"); [contradiction|].
    destruct (String.eqb_spec (currentSort st) "citations-desc");
      [contradiction|].
    destruct (String.eqb_spec (currentSort st) "citations-asc");
      [contradiction|].
    simpl. lia.
  - intros Hk. apply Hgen; [rewrite Hk; discriminate|]. rewrite Hk.
    intros p q ([yp Hp] & _) ([yq Hq] & _). unfold sort_key, num_le.
    rewrite Hp, Hq. simpl. lia.
  - intros Hk. apply Hgen; [rewrite Hk; discriminate|]. rewrite Hk.
    intros p q (_ & [cp Hp]) (_ & [cq Hq]). unfold sort_key, num_le.
    rewrite Hp, Hq. simpl. lia.
  - intros Hk. apply Hgen; [rewrite Hk; discriminate|]. rewrite Hk.
    intros p q (_ & [cp Hp]) (_ & [cq Hq]). unfold sort_key, num_le.
    rewrite Hp, Hq. simpl. lia.
Qed.

(** X2. The sort is stable: for a key that orders by year, the records
    of any one year stand after [sortPapers] in the order they had
    before; likewise the records of any one citation count for a key that
    orders by citations. *)
Theorem sortPapers_stable (st : @LiteratureManager World) :
  Forall paper_numeric (filteredPapers st) ->
  (currentSort st ∉ ["citations-desc"; "citations-asc"; "title-asc"]%string ->
     forall y : Z,
       filter (fun p => year p = Some y) (filteredPapers (sortPapers st)) =
       filter (fun p => year p = Some y) (filteredPapers st)) /\
  (currentSort st ∈ ["citations-desc"; "citations-asc"]%string ->
     forall c : Z,
       filter (fun p => citations p = Some c) (filteredPapers (sortPapers st)) =
       filter (fun p => citations p = Some c) (filteredPapers st)).
Proof.
  intros Hn.
  assert (Hgen : forall (Q : Paper -> Prop) `{forall p, Decision (Q p)} (k : Z),
            currentSort st <> "title-asc"%string ->
            (forall p, paper_numeric p ->
               (Q p <-> sort_key (currentSort st) p = k)) ->
            filter Q (filteredPapers (sortPapers st)) =
            filter Q (filteredPapers st)).
  { intros Q HQ k Hk Hequiv.
    rewrite (filter_equiv Q _ paper_numeric _ Hequiv);
      [|now apply array_sort_Forall].
    rewrite (filter_equiv Q _ paper_numeric _ Hequiv Hn).
    simpl. apply (array_sort_stable _ _ paper_numeric); [|assumption].
    intros a b. now apply compareFn_key. }
  split.
  - intros Hk y. rewrite !not_elem_of_cons in Hk.
    destruct Hk as (K1 & K2 & K3 & _).
    destruct (String.eqb_spec (currentSort st) "year-asc") as [Ha|Ha].
    + apply (Hgen _ _ y); [assumption|].
      intros p ([yp Hp] & _). unfold sort_key. rewrite Ha, Hp. simpl.
      split; [intros [= ->]; reflexivity | intros ->; reflexivity].
    + apply (Hgen _ _ (- y)); [assumption|].
      intros p ([yp Hp] & _). unfold sort_key. rewrite Hp.
      destruct (String.eqb_spec (currentSort st) "year-asc"); [contradiction|].
      destruct (String.eqb_spec (currentSort st) "citations-desc");
        [contradiction|].
      destruct (String.eqb_spec (currentSort st) "citations-asc");
        [contradiction|].
      simpl. split; [intros [= ->]; reflexivity | intros E; f_equal; lia].
  - intros Hk c. rewrite !elem_of_cons in Hk.
    destruct Hk as [Hk|[Hk|Hk]]; [| |now apply elem_of_nil in Hk].
    + apply (Hgen _ _ (- c)); [rewrite Hk; discriminate|].
      intros p (_ & [cp Hp]). unfold sort_key. rewrite Hk, Hp. simpl.
      split; [intros [= ->]; reflexivity | intros E; f_equal; lia].
    + apply (Hgen _ _ c); [rewrite Hk; discriminate|].
      intros p (_ & [cp Hp]). unfold sort_key. rewrite Hk, Hp. simpl.
      split; [intros [= ->]; reflexivity | intros ->; reflexivity].
Qed.

(** X3. Sorting again changes nothing: on integer years and citation
    counts, and for a key other than ["title-asc"], [sortPapers] applied
    twice is [sortPapers] applied once. *)
Theorem sortPapers_idempotent (st : @LiteratureManager World) :
  Forall paper_numeric (filteredPapers st) ->
  currentSort st <> "title-asc"%string ->
  sortPapers (sortPapers st) = sortPapers st.
Proof.
  intros Hn Hk. destruct (sortPapers_key_sorted st Hn Hk) as [Hn' Hs].
  unfold sortPapers at 1. simpl currentSort.
  rewrite (array_sort_of_sorted _ (sort_key (currentSort st)) paper_numeric);
    try assumption.
  - now destruct st.
  - intros a b. now apply compareFn_key.
Qed.

End Sorting.

Lemma passes_default (p : Paper) :
  passes defaultFilters p =
    negb (Js.lt (year p) (Some 2000) || Js.gt (year p) (Some 2024)).
Proof.
  unfold passes. simpl.
  destruct (Js.lt (year p) (Some 2000) || Js.gt (year p) (Some 2024));
    reflexivity.
Qed.

Lemma toggle_off (l : list string) (item x : string) :
  x ∈ toggle l item false <-> x ∈ l /\ x <> item.
Proof.
  unfold toggle. rewrite !list_elem_of_In, filter_In, negb_true_iff.
  now rewrite String.eqb_neq.
Qed.

Lemma toggle_on_off (l : list string) (item : string) :
  item ∉ l -> toggle (toggle l item true) item false = l.
Proof.
  unfold toggle. intros Hni. rewrite List.filter_app. simpl.
  rewrite String.eqb_refl. simpl. rewrite app_nil_r.
  induction l as [|x l IH]; [reflexivity|]. simpl.
  rewrite not_elem_of_cons in Hni. destruct Hni as [Hx Hl].
  destruct (String.eqb_spec x item); [congruence|]. simpl.
  now rewrite IH.
Qed.

Section ListenerFacts.
Context {World : Type} `{Environment World}.

Lemma applyFilters_frame (st : @LiteratureManager World) :
  papers (applyFilters st) = papers st /\
  filters (applyFilters st) = filters st /\
  currentPage (applyFilters st) = 1 /\
  localStorage (applyFilters st) = localStorage st /\
  world (applyFilters st) = world st /\
  notifications (applyFilters st) = notifications st.
Proof. repeat split. Qed.

Lemma handle_filters (a : Action) (st : @LiteratureManager World) :
  filters (handle a st) = write_filters a (filters st) /\
  papers (handle a st) = papers st /\
  localStorage (handle a st) = localStorage st /\
  world (handle a st) = world st.
Proof. destruct a; repeat split. Qed.

Lemma write_filters_well_formed (a : Action) (f : Filters) :
  numeric_value a -> filters_well_formed f ->
  filters_well_formed (write_filters a f).
Proof.
  intros Ha ((Hmin & Hmax & Hcmin & Hcmax) & Hlow & Hord).
  unfold filters_well_formed, filters_numeric, search_lowercase,
    year_range_ordered in *.
  destruct Hmin as [lo Hlo], Hmax as [hi Hhi]. rewrite Hlo, Hhi in Hord.
  simpl in Hord.
  assert (Hbound : forall v, (v <> EmptyString -> is_Some (Js.parseInt v)) ->
            (if Js.truthy_str v then Some (Js.parseInt v) else None)
            <> Some None).
  { intros v Hv. destruct v as [|c v]; simpl; [discriminate|].
    destruct Hv as [m Hm]; [discriminate|]. rewrite Hm. discriminate. }
  destruct a as [v|v|v|v|v|v|v|g item checked|v|]; simpl in *;
    rewrite ?Hlo, ?Hhi.
  - split; [|split]; [eauto | apply toLowerCase_idem | exact Hord].
  - destruct Ha as [m Hm]. rewrite Hm. unfold Js.gt, Js.lt.
    destruct (Z.ltb_spec hi m); (split; [|split]); simpl; eauto; lia.
  - destruct Ha as [m Hm]. rewrite Hm. unfold Js.lt.
    destruct (Z.ltb_spec m lo); (split; [|split]); simpl; eauto; lia.
  - split; [|split]; eauto; repeat split; eauto.
  - split; [|split]; eauto; repeat split; eauto.
  - split; [|split]; eauto.
  - split; [|split]; eauto.
  - destruct g; simpl; rewrite ?Hlo, ?Hhi; (split; [|split]); eauto.
  - split; [|split]; eauto.
  - split; [|split]; simpl; [|reflexivity|lia].
    repeat split; eauto; discriminate.
Qed.

Lemma write_filters_lowercase (a : Action) (f : Filters) :
  search_lowercase f -> search_lowercase (write_filters a f).
Proof.
  unfold search_lowercase. intros Hlow.
  destruct a as [v|v|v|v|v|v|v|g item checked|v|]; simpl; try exact Hlow.
  - apply toLowerCase_idem.
  - destruct g; exact Hlow.
  - reflexivity.
Qed.

(** X4. From filters that are well formed (integer bounds, the query in
    lower case, the lower year not above the upper one), whatever the
    user does with the search box, the sliders, the number inputs, the
    selectors, the checkboxes, the sort menu and the reset button, in any
    order, neither the collection nor what is persisted is touched and
    the query stays in lower case. When moreover every slider and number
    input hands over a text that reads as an integer (or, for a citation
    input, nothing), the filters stay well formed: when a slider crosses
    the other, the other is dragged along. *)
Theorem session_keeps_filters_well_formed (actions : list Action)
    (st : @LiteratureManager World) :
  filters_well_formed (filters st) ->
  papers (run actions st) = papers st /\
  localStorage (run actions st) = localStorage st /\
  world (run actions st) = world st /\
  search_lowercase (filters (run actions st)) /\
  (Forall numeric_value actions ->
   filters_well_formed (filters (run actions st))).
Proof.
  intros Hwf.
  assert (Hframe : papers (run actions st) = papers st /\
                   localStorage (run actions st) = localStorage st /\
                   world (run actions st) = world st /\
                   (search_lowercase (filters st) ->
                    search_lowercase (filters (run actions st)))).
  { clear Hwf. revert st. induction actions as [|a actions IH]; intros st;
      [now repeat split|].
    unfold run in *. simpl.
    destruct (handle_filters a st) as (Hf & Hp & Hl & Hw).
    destruct (IH (handle a st)) as (IH1 & IH2 & IH3 & IH4).
    rewrite IH1, IH2, IH3. repeat split; try assumption.
    intros Hlow. apply IH4. rewrite Hf. now apply write_filters_lowercase. }
  destruct Hframe as (Hp & Hl & Hw & Hlow).
  split; [exact Hp|]. split; [exact Hl|]. split; [exact Hw|].
  split; [apply Hlow, Hwf|].
  intros Hnum. clear Hp Hl Hw Hlow. revert st Hwf.
  induction Hnum as [|a actions Ha Hnum IH]; intros st Hwf; [exact Hwf|].
  unfold run in *. simpl. apply IH.
  destruct (handle_filters a st) as (Hf & _).
  rewrite Hf. now apply write_filters_well_formed.
Qed.

(** X5. Unchecking a box removes its item from the selection of its
    group and leaves the other items selected; checking a box that was
    not selected and unchecking it again gives back the filters as they
    were. *)
Theorem checkbox_round_trip (group : bool) (item : string)
    (st : @LiteratureManager World) :
  (forall x,
     x ∈ selection group (filters (handle (CheckboxChange group item false) st))
     <-> x ∈ selection group (filters st) /\ x <> item) /\
  (item ∉ selection group (filters st) ->
   filters (run [CheckboxChange group item true;
                 CheckboxChange group item false] st) = filters st).
Proof.
  split.
  - intros x. rewrite (proj1 (handle_filters _ _)).
    destruct group; cbn; apply toggle_off.
  - intros Hni. unfold run. cbn [foldl].
    rewrite (proj1 (handle_filters _ _)), (proj1 (handle_filters _ _)).
    destruct (filters st) as [s c lo hi ms ts v cmin cmax].
    destruct group; cbn in Hni |- *; f_equal; exact (toggle_on_off _ _ Hni).
Qed.

(** X6. After [resetFilters] the filters are the initial ones and the
    first page is shown; the collection is as before, and the records
    listed are exactly those of the collection whose year is neither
    below 2000 nor above 2024: a record of another year is in the
    collection but not in the list. *)
Theorem resetFilters_lists_2000_to_2024 (st : @LiteratureManager World) :
  let st' := handle ResetClick st in
  filters st' = defaultFilters /\
  currentPage st' = 1 /\
  papers st' = papers st /\
  (forall p y, year p = Some y ->
     (p ∈ filteredPapers st' <-> p ∈ papers st /\ 2000 <= y <= 2024)) /\
  (forall p, year p = Js.NaN ->
     (p ∈ filteredPapers st' <-> p ∈ papers st)).
Proof.
  intros st'.
  assert (Hin : forall p, p ∈ filteredPapers st' <->
                  p ∈ papers st /\ passes defaultFilters p = true).
  { intros p. unfold st'. simpl.
    rewrite (array_sort_Permutation _ _).
    now rewrite !list_elem_of_In, filter_In. }
  split; [reflexivity|]. split; [reflexivity|]. split; [reflexivity|]. split.
  - intros p y Hy. rewrite Hin, passes_default, Hy. unfold Js.gt, Js.lt.
    destruct (Z.ltb_spec y 2000), (Z.ltb_spec 2024 y); simpl;
      split; intros [Hp Hr]; split; try assumption; try lia;
      try discriminate; reflexivity.
  - intros p Hy. rewrite Hin, passes_default, Hy. simpl. tauto.
Qed.

End ListenerFacts.

Lemma chunks_concat {A : Type} (m : nat) (l : list A) :
  (length l <= 12 * m)%nat ->
  concat (map (fun j : nat => take 12 (drop (12 * j) l)) (seq 0 m)) = l.
Proof.
  revert l. induction m as [|m IH]; intros l Hl.
  - destruct l; [reflexivity | simpl in Hl; lia].
  - cbn [seq map concat]. rewrite <- seq_shift, map_map.
    replace (12 * 0)%nat with 0%nat by lia. rewrite drop_0.
    transitivity (take 12 l ++ drop 12 l); [|apply take_drop].
    f_equal.
    transitivity
      (concat (map (fun j : nat => take 12 (drop (12 * j) (drop 12 l)))
                 (seq 0 m))).
    + f_equal. apply map_ext. intros j. rewrite drop_drop.
      do 2 f_equal. lia.
    + apply IH. rewrite length_drop. lia.
Qed.

Section BarFacts.
Context {World : Type} `{Environment World}.

Lemma totalPages_bounds (st : @LiteratureManager World) :
  12 * (totalPages st - 1) < Z.of_nat (length (filteredPapers st))
    <= 12 * totalPages st.
Proof. apply ceil_div_12. Qed.

Lemma grid_of_page (st : @LiteratureManager World) (page : Z) :
  1 <= page <= totalPages st ->
  renderPapersGrid (goToPage page st) = page_of page (filteredPapers st) /\
  renderPapersGrid (goToPage page st) <> [].
Proof.
  intros Hpage. pose proof (totalPages_bounds st) as Hb.
  unfold renderPapersGrid, page_of. simpl.
  replace (papersPerPage * (page - 1)) with ((page - 1) * papersPerPage)
    by lia.
  apply slice_inside. unfold papersPerPage. lia.
Qed.

(** X7. While the page shown is one of the pages that exist, every
    button of the pagination bar that can be clicked leads to a page that
    exists, on which the grid is not empty; and when there is more than
    one page the bar offers the first page, the last page and the page
    shown. *)
Theorem pagination_bar_stays_in_range (st : @LiteratureManager World) :
  1 <= currentPage st <= totalPages st ->
  (forall item, item ∈ updatePagination st ->
     1 <= currentPage (click item st) <= totalPages (click item st) /\
     renderPapersGrid (click item st) <> []) /\
  (1 < totalPages st ->
     PageBtn 1 (1 =? currentPage st) ∈ updatePagination st /\
     PageBtn (totalPages st) (totalPages st =? currentPage st)
       ∈ updatePagination st /\
     PageBtn (currentPage st) true ∈ updatePagination st).
Proof.
  intros Hcur.
  assert (Hgo : forall page, 1 <= page <= totalPages st ->
            1 <= currentPage (goToPage page st)
              <= totalPages (goToPage page st) /\
            renderPapersGrid (goToPage page st) <> []).
  { intros page Hp. split; [exact Hp | now apply grid_of_page]. }
  assert (Hstay : 1 <= currentPage st <= totalPages st /\
                  renderPapersGrid st <> []).
  { specialize (Hgo (currentPage st) Hcur). now destruct st. }
  unfold updatePagination.
  destruct (Z.leb_spec (totalPages st) 1) as [Hone|Hmany].
  { split; [intros item Hitem; now apply elem_of_nil in Hitem | lia]. }
  split.
  - intros item Hitem. rewrite !elem_of_app, list_elem_of_singleton in Hitem.
    destruct Hitem as [->|[Hitem|Hitem]].
    + simpl. destruct (Z.eqb_spec (currentPage st) 1); [exact Hstay|].
      apply Hgo. lia.
    + apply list_elem_of_In, in_flat_map in Hitem.
      destruct Hitem as (i & Hi & Hitem).
      apply list_elem_of_In, elem_of_seqZ in Hi.
      unfold page_items in Hitem.
      destruct ((i =? 1) || (i =? totalPages st)
                || ((currentPage st - 2 <=? i) && (i <=? currentPage st + 2))).
      * destruct Hitem as [<-|[]]. simpl. apply Hgo. lia.
      * destruct ((i =? currentPage st - 3) || (i =? currentPage st + 3));
          [|destruct Hitem].
        destruct Hitem as [<-|[]]. exact Hstay.
    + rewrite elem_of_cons, list_elem_of_singleton in Hitem.
      destruct Hitem as [->| ->]; [|exact Hstay].
      simpl. destruct (Z.eqb_spec (currentPage st) (totalPages st));
        [exact Hstay|]. apply Hgo. lia.
  - intros _.
    assert (Hbtn : forall i, 1 <= i <= totalPages st ->
              (i = 1 \/ i = totalPages st \/ i = currentPage st) ->
              PageBtn i (i =? currentPage st)
                ∈ [PrevBtn (currentPage st =? 1) (currentPage st - 1)]
                  ++ flat_map (page_items (currentPage st) (totalPages st))
                       (seqZ 1 (totalPages st))
                  ++ [NextBtn (currentPage st =? totalPages st)
                        (currentPage st + 1);
                      PageInfo (currentPage st) (totalPages st)]).
    { intros i Hi Hwhich. rewrite !elem_of_app. right. left.
      apply list_elem_of_In, in_flat_map. exists i. split.
      - apply list_elem_of_In, elem_of_seqZ. lia.
      - unfold page_items.
        replace ((i =? 1) || (i =? totalPages st)
                 || ((currentPage st - 2 <=? i) && (i <=? currentPage st + 2)))
          with true; [now left|].
        symmetry. destruct Hwhich as [->|[->| ->]].
        + reflexivity.
        + rewrite Z.eqb_refl. now rewrite orb_true_r.
        + replace (currentPage st - 2 <=? currentPage st) with true
            by (symmetry; apply Z.leb_le; lia).
          replace (currentPage st <=? currentPage st + 2) with true
            by (symmetry; apply Z.leb_le; lia).
          now rewrite orb_true_r. }
    split; [apply Hbtn; [lia | now left]|].
    split; [apply Hbtn; [lia | right; now left]|].
    replace (PageBtn (currentPage st) true)
      with (PageBtn (currentPage st) (currentPage st =? currentPage st))
      by (now rewrite Z.eqb_refl).
    apply Hbtn; [lia | right; now right].
Qed.

(** X8. The pages cut the filtered list in consecutive pieces: shown one
    after the other from page 1 to the last page, the grids give back the
    filtered list, every record once and in order. *)
Theorem pages_cover_filtered_list (st : @LiteratureManager World) :
  concat (map (fun page => renderPapersGrid (goToPage page st))
            (seqZ 1 (totalPages st)))
  = filteredPapers st.
Proof.
  pose proof (totalPages_bounds st) as Hb.
  transitivity
    (concat (map (fun page => page_of page (filteredPapers st))
               (seqZ 1 (totalPages st)))).
  { f_equal. apply map_ext_in. intros page Hp.
    apply list_elem_of_In, elem_of_seqZ in Hp.
    apply grid_of_page. lia. }
  unfold seqZ. rewrite <- list_fmap_compose.
  etransitivity;
    [|apply (chunks_concat (Z.to_nat (totalPages st))); lia].
  f_equal. apply map_ext. intros j. unfold compose, page_of, papersPerPage.
  f_equal. f_equal. lia.
Qed.

(** X9. An edit started from the details of a record of the collection
    is never the silent no-op: once [showPaperDetails] has found the
    record, saving a form that passes validation replaces the first
    record carrying that id by the edited one and notifies success. *)
Theorem edit_after_showPaperDetails (st : @LiteratureManager World)
    (paperId : Js.value) (p : Paper) (f : EditForm) :
  List.find (fun q => Js.strict_eq (id q) paperId) (papers st) = Some p ->
  required_policy (collect p f) ->
  let st' :=
    savePaperDetails (Some f) (toggleEditMode (showPaperDetails paperId st)) in
  exists i p',
    findIndex (fun q => Js.strict_eq (id q) paperId) (papers st) = Some i /\
    papers st' !! i = Some p' /\
    same_content
      (set_hIndex (Js.floor_div (citations (collect p f)) 3) (collect p f))
      p' /\
    last (notifications st') =
      Some (mkNotification "Paper information saved successfully!" "success").
Proof.
  intros Hfind Hok st'. apply validation_error_None in Hok.
  destruct (find_some _ _ Hfind) as [Hin Hid].
  unfold Js.strict_eq in Hid. apply bool_decide_eq_true in Hid.
  destruct (findIndex_is_Some (fun q => Js.strict_eq (id q) (id p))
              (papers st) p Hin) as [i Hi].
  { unfold Js.strict_eq. now apply bool_decide_eq_true. }
  assert (Hcur : currentEditingPaper (toggleEditMode (showPaperDetails paperId st))
                 = Some p).
  { unfold showPaperDetails. now rewrite Hfind. }
  assert (Hpapers : papers (toggleEditMode (showPaperDetails paperId st))
                    = papers st).
  { unfold showPaperDetails. now rewrite Hfind. }
  destruct (savePaperDetails_success _ p f i Hcur Hok) as (p' & Hp' & Hs & Hl).
  { now rewrite Hpapers. }
  exists i, p'. rewrite <- Hid. repeat split; assumption.
Qed.

End BarFacts.

(** X10. [classifyResearchArea] always answers one of six labels; it
    answers ["General"] when no keyword of its table occurs in the text,
    and ["Accessible Interaction"] as soon as a keyword of that area
    occurs, whatever else the text mentions; the case of the letters of
    the text does not matter. *)
Theorem classifyResearchArea_labels (text : string) :
  classifyResearchArea text ∈
    ["Accessible Interaction"; "HCI New Wearable Devices";
     "Immersive Interaction"; "Mobile Device"; "Special Scenarios";
     "General"]%string /\
  ((forall area keywords' k,
      (area, keywords') ∈ classifications -> k ∈ keywords' ->
      Js.includes (Js.toLowerCase text) k = false) ->
   classifyResearchArea text = "General"%string) /\
  (forall keywords' k,
     head classifications = Some ("Accessible Interaction"%string, keywords') ->
     k ∈ keywords' -> Js.includes (Js.toLowerCase text) k = true ->
     classifyResearchArea text = "Accessible Interaction"%string) /\
  classifyResearchArea (Js.toLowerCase text) = classifyResearchArea text.
Proof.
  split; [|split; [|split]].
  - unfold classifyResearchArea, classifications, classify_in.
    repeat match goal with
           | |- context [if ?b then _ else _] => destruct b
           end; set_solver.
  - intros Hnone. unfold classifyResearchArea.
    assert (Hgen : forall table,
              (forall area kws, (area, kws) ∈ table ->
                 (area, kws) ∈ classifications) ->
              classify_in table (Js.toLowerCase text) = "General"%string).
    { induction table as [|[area kws] table IH]; intros Hsub; [reflexivity|].
      simpl.
      replace (existsb (Js.includes (Js.toLowerCase text)) kws) with false.
      - apply IH. intros a ks Hin. apply Hsub. now right.
      - symmetry. apply not_true_is_false. intros Hex.
        apply existsb_exists in Hex. destruct Hex as (k & Hk & Hinc).
        rewrite (Hnone area kws k) in Hinc; [discriminate| |].
        + apply Hsub. now left.
        + now apply list_elem_of_In. }
    apply Hgen. auto.
  - intros kws k Hhead Hk Hinc. injection Hhead as <-.
    unfold classifyResearchArea, classifications. cbn [classify_in].
    replace (existsb (Js.includes (Js.toLowerCase text)) _) with true;
      [reflexivity|].
    symmetry. apply existsb_exists. exists k.
    split; [now apply list_elem_of_In | assumption].
  - unfold classifyResearchArea. now rewrite toLowerCase_idem.
Qed.

Lemma string_app_assoc (a b c : string) :
  ((a +:+ b) +:+ c = a +:+ (b +:+ c))%string.
Proof.
  induction a as [|x a IH]; [reflexivity|].
  change (String x ((a +:+ b) +:+ c) = String x (a +:+ (b +:+ c))).
  now f_equal.
Qed.

(** The first piece of a split text is what stands before the first
    separator. *)
Lemma split_by_first (sep : ascii -> bool) (h t : string) :
  Js.split_by sep h = [h] ->
  (t = EmptyString \/ exists c t', t = String c t' /\ sep c = true) ->
  head (Js.split_by sep (h +:+ t)) = Some h.
Proof.
  intros Hh Ht. induction h as [|a h IH].
  - change (EmptyString +:+ t) with t.
    destruct Ht as [->|(c & t' & -> & Hc)]; cbn; [reflexivity|].
    now rewrite Hc.
  - change (String a h +:+ t) with (String a (h +:+ t)). cbn in Hh |- *.
    destruct (sep a); [discriminate|].
    destruct (Js.split_by sep h) as [|w ws] eqn:E.
    + injection Hh as <-. discriminate.
    + injection Hh as -> ->. specialize (IH eq_refl).
      destruct (Js.split_by sep (h +:+ t)); [discriminate|].
      cbn in IH. injection IH as ->. reflexivity.
Qed.

Lemma csv_object_keys (headers values : list string) (m : gmap string Raw)
    (k : string) :
  is_Some (csv_object headers values m !! k) -> k ∈ headers \/ is_Some (m !! k).
Proof.
  revert values m. induction headers as [|h headers IH]; intros values m Hk;
    simpl in Hk; [now right|].
  apply IH in Hk. destruct Hk as [Hk|Hk]; [left; now right|].
  destruct (decide (h = k)) as [->|Hne]; [left; now left|].
  rewrite lookup_insert_ne in Hk by assumption. now right.
Qed.

Lemma has_key_in_headers (headers values : list string) (k : string) :
  has_key (csv_object headers values ∅) k = true -> k ∈ headers.
Proof.
  unfold has_key. intros Hk.
  destruct (csv_object headers values ∅ !! k) as [v|] eqn:E; [|discriminate].
  destruct (csv_object_keys headers values ∅ k) as [Hin|Hin]; eauto.
  rewrite lookup_empty in Hin. now destruct Hin.
Qed.

Section CsvFacts.
Context {World : Type} `{Environment World}.

Lemma normalizepaperData_id (data : gmap string Raw) (category' : string)
    (st : @LiteratureManager World) (p : Paper) :
  normalizepaperData data category' st = Some p ->
  id p = Js.Num (Z.of_nat (length (papers st)) + 1).
Proof.
  unfold normalizepaperData. intros Hp.
  apply bind_Some in Hp. destruct Hp as (a & _ & Hp).
  apply bind_Some in Hp. destruct Hp as (k & _ & Hp).
  now injection Hp as <-.
Qed.

(** X11. [parseCSV] returns a record only for a text of at least two
    lines whose header line has columns named [title], [authors] and
    [year], in lower case; the record it returns is numbered by the size
    of the collection plus one. *)
Theorem parseCSV_needs_lowercase_headers (text category' : string)
    (st : @LiteratureManager World) (p : Paper) :
  parseCSV text category' st = Some p ->
  let headers := csv_cells (default EmptyString (head (Js.split newline text))) in
  (2 <= length (Js.split newline text))%nat /\
  "title"%string ∈ headers /\ "authors"%string ∈ headers /\
  "year"%string ∈ headers /\
  id p = Js.Num (Z.of_nat (length (papers st)) + 1).
Proof.
  intros Hp headers. unfold parseCSV in Hp. cbv zeta in Hp.
  fold headers in Hp.
  destruct (Z.ltb_spec (Z.of_nat (length (Js.split newline text))) 2);
    [discriminate|].
  apply bind_Some in Hp. destruct Hp as (ps & Hps & Hhead).
  apply mapM_Some_1 in Hps.
  destruct ps as [|q ps]; [discriminate|]. injection Hhead as ->.
  inversion Hps as [|o p' valid ps' Ho Hrest Hvalid]; subst.
  assert (Hin : In o (o :: valid)) by now left.
  rewrite Hvalid in Hin. apply filter_In in Hin. destruct Hin as [Hobj Hkeys].
  apply in_map_iff in Hobj. destruct Hobj as (line & <- & _).
  apply andb_true_iff in Hkeys. destruct Hkeys as [Hkeys Hy].
  apply andb_true_iff in Hkeys. destruct Hkeys as [Ht Ha].
  split; [lia|].
  repeat split; try (eapply has_key_in_headers; eassumption).
  eapply normalizepaperData_id; eassumption.
Qed.

(** X12. The catalog cannot read back its own CSV export: whatever the
    filtered list, [parseCSV] throws on the text [generateCSV] produces,
    with or without its byte order mark, because the exported header
    spells its columns [Title], [Authors], [Year]. *)
Theorem parseCSV_rejects_generateCSV (st st' : @LiteratureManager World)
    (category' : string) :
  parseCSV (generateCSV st) category' st' = None /\
  parseCSV (csv_content st) category' st' = None.
Proof.
  assert (Hfirst : forall pre : string,
            Js.split newline (pre +:+ Js.join "," csv_headers)
              = [pre +:+ Js.join "," csv_headers] ->
            head (Js.split newline (pre +:+ csv_content st))
              = Some (pre +:+ Js.join "," csv_headers)).
  { intros pre Hpre. unfold csv_content.
    destruct (map csv_row (filteredPapers st)) as [|r rows] eqn:E.
    - change (Js.join (String newline EmptyString)
                [Js.join "," csv_headers])
        with (Js.join "," csv_headers).
      now rewrite Hpre.
    - change (Js.join (String newline EmptyString)
                (Js.join "," csv_headers :: r :: rows))
        with (Js.join "," csv_headers +:+
              String newline (Js.join (String newline EmptyString) (r :: rows))).
      rewrite <- string_app_assoc.
      apply split_by_first; [exact Hpre|].
      right. eexists _, _. split; [reflexivity|]. reflexivity. }
  assert (Hrej : forall text headers,
            head (Js.split newline text) = Some headers ->
            "title"%string ∉ csv_cells headers ->
            parseCSV text category' st' = None).
  { intros text headers Hh Hno.
    destruct (parseCSV text category' st') as [p|] eqn:E; [|reflexivity].
    destruct (parseCSV_needs_lowercase_headers _ _ _ _ E) as (_ & Ht & _).
    rewrite Hh in Ht. contradiction. }
  split.
  - apply (Hrej _ _ (Hfirst bom eq_refl)).
    intros Hin. apply list_elem_of_In in Hin. vm_compute in Hin.
    intuition discriminate.
  - apply (Hrej _ _ (Hfirst EmptyString eq_refl)).
    intros Hin. apply list_elem_of_In in Hin. vm_compute in Hin.
    intuition discriminate.
Qed.

End CsvFacts.

End ControlsFacts.

(** ** Further properties of the release uploader *)

Module ReleaseFacts.
Import Uploader UploaderChecks UploaderFacts.

Lemma updated_lookup (files : gmap string (gmap string Json))
    (tagName : option string) (results : list UploadResult) (path : string) :
  updateCDNUrls files tagName results !! path =
    (fun paperData =>
       if is_paper_file path then
         match List.find
                 (fun r => same_id (result_paperId r) (json_get paperData "id"))
                 (List.filter success results) with
         | Some uploadResult =>
             <["pdfUrl"%string :=
                 JVal (match cdnUrl uploadResult with
                       | Some url => Js.Str url
                       | None => Js.Undefined
                       end)]> paperData
         | None => paperData
         end
       else paperData) <$> files !! path.
Proof.
  unfold updateCDNUrls. rewrite map_lookup_imap.
  now destruct (files !! path).
Qed.

(** X13. [updateCDNUrls] keeps the set of files of the bundle; a file
    that is not a per-paper file is returned as it is; a per-paper file
    is returned with the same properties except possibly [pdfUrl], and
    as it is when no successful upload carries its id; when no upload
    succeeded the whole bundle is returned unchanged. *)
Theorem updateCDNUrls_frame (files : gmap string (gmap string Json))
    (tagName : option string) (results : list UploadResult) :
  let updated := updateCDNUrls files tagName results in
  dom updated = dom files /\
  (forall path, is_paper_file path = false ->
     updated !! path = files !! path) /\
  (forall path file, files !! path = Some file ->
     exists file', updated !! path = Some file' /\
       (forall key, key <> "pdfUrl"%string -> file' !! key = file !! key) /\
       ((forall r, r ∈ results -> success r = true ->
           same_id (result_paperId r) (json_get file "id") = false) ->
        file' = file)) /\
  (Forall (fun r => success r = false) results -> updated = files).
Proof.
  intros updated.
  assert (Hnone : forall file : gmap string Json,
            (forall r, r ∈ results -> success r = true ->
               same_id (result_paperId r) (json_get file "id") = false) ->
            List.find (fun r => same_id (result_paperId r) (json_get file "id"))
              (List.filter success results) = None).
  { intros file Hno.
    destruct (List.find _ (List.filter success results)) as [r|] eqn:E;
      [|reflexivity].
    apply find_some in E. destruct E as [Hin Hid].
    apply filter_In in Hin. destruct Hin as [Hin Hs].
    rewrite (Hno r) in Hid; [discriminate| |assumption].
    now apply list_elem_of_In. }
  split; [|split; [|split]].
  - apply set_eq. intros path. rewrite !elem_of_dom. unfold updated.
    rewrite updated_lookup. now rewrite fmap_is_Some.
  - intros path Hp. unfold updated. rewrite updated_lookup, Hp.
    now destruct (files !! path).
  - intros path file Hfile. unfold updated. rewrite updated_lookup, Hfile.
    simpl. eexists. split; [reflexivity|]. split.
    + intros key Hkey. destruct (is_paper_file path); [|reflexivity].
      destruct (List.find _ _); [|reflexivity].
      now rewrite lookup_insert_ne by congruence.
    + intros Hno. rewrite (Hnone file Hno). now destruct (is_paper_file path).
  - intros Hfail. apply map_eq. intros path. unfold updated.
    rewrite updated_lookup. destruct (files !! path) as [file|]; [|reflexivity].
    simpl. f_equal. rewrite Hnone; [now destruct (is_paper_file path)|].
    intros r Hr Hs. rewrite Forall_forall in Hfail.
    rewrite (Hfail r Hr) in Hs. discriminate.
Qed.

Section ReleaseRuns.
Context {Net : Type} `{Network Net}.

Lemma or_else_not_empty (x : option string) (dflt : string) :
  dflt <> EmptyString -> or_else x dflt <> EmptyString.
Proof.
  intros Hd. unfold or_else. destruct x as [[|c s]|]; simpl; congruence.
Qed.

(** The shape of the entries and of the reports of a batch, the callback
    returning from every call. *)
Lemma upload_loop_shape (u : Config) (releaseId : option Z) (t i : Z)
    (l : list PdfFile) (cb : option (Callback Progress)) (net : Net) :
  returns_normally cb ->
  let x := upload_loop u releaseId t i l cb net in
  Forall2 (fun f r =>
             result_fileName r = standardFileName f /\
             ((success r = true /\ error r = None /\
               exists tag, cdnUrl r = Some (cdn_url u tag (standardFileName f))
                           /\ tag <> EmptyString)
              \/ (success r = false /\ cdnUrl r = None /\
                  downloadUrl r = None /\ is_Some (error r)))) l x.1.1.1 /\
  (cb = None -> x.1.1.2 = []) /\
  (is_Some cb ->
     Forall2 (fun r p =>
                (success r = true <-> status p = "uploaded"%string) /\
                total p = t /\ progress_fileName p = result_fileName r)
       x.1.1.1 x.1.1.2 /\
     map current x.1.1.2 = seqZ (i + 1) (Z.of_nat (length l))).
Proof.
  intros Hcb. revert i net. induction l as [|f l IH]; intros i net.
  - simpl. repeat split; constructor.
  - cbn zeta. cbn [upload_loop]. rewrite upload_one_normal by assumption.
    destruct (uploadAsset u releaseId (standardFileName f) (blob f) net)
      as [[body|msg] net1];
      specialize (IH (i + 1) net1); cbn zeta in IH;
      destruct (upload_loop u releaseId t (i + 1) l cb net1)
        as [[[rs ps] th] net2];
      destruct IH as (IH1 & IH2 & IH3); cbn [fst snd] in *.
    + split; [|split].
      * constructor; [|exact IH1]. split; [reflexivity|]. left.
        repeat split. exists (or_else (tag_name body) "latest").
        split; [reflexivity | now apply or_else_not_empty].
      * intros ->. simpl. now apply IH2.
      * intros Hsome. destruct cb as [k|]; [|now destruct Hsome].
        destruct (IH3 Hsome) as [IH4 IH5]. simpl. split.
        { constructor; [|exact IH4]. simpl. repeat split. }
        rewrite IH5.
        replace (Z.of_nat (S (length l))) with (Z.succ (Z.of_nat (length l)))
          by lia.
        rewrite (seqZ_cons (i + 1) (Z.succ (Z.of_nat (length l)))) by lia.
        f_equal. f_equal; lia.
    + split; [|split].
      * constructor; [|exact IH1]. split; [reflexivity|]. right.
        repeat split. simpl. eauto.
      * intros ->. simpl. now apply IH2.
      * intros Hsome. destruct cb as [k|]; [|now destruct Hsome].
        destruct (IH3 Hsome) as [IH4 IH5]. simpl. split.
        { constructor; [|exact IH4]. simpl. repeat split; discriminate. }
        rewrite IH5.
        replace (Z.of_nat (S (length l))) with (Z.succ (Z.of_nat (length l)))
          by lia.
        rewrite (seqZ_cons (i + 1) (Z.succ (Z.of_nat (length l)))) by lia.
        f_equal. f_equal; lia.
Qed.

Lemma uploadPDFs_shape (u : Config) (releaseId : option Z)
    (assets : list PdfFile) (onProgress : option (Callback Progress))
    (net : Net) :
  returns_normally onProgress ->
  exists results,
    (uploadPDFs u releaseId assets onProgress net).1.1 = Returned results /\
    Forall2 (fun f r =>
               result_fileName r = standardFileName f /\
               ((success r = true /\ error r = None /\
                 exists tag,
                   cdnUrl r = Some (cdn_url u tag (standardFileName f))
                   /\ tag <> EmptyString)
                \/ (success r = false /\ cdnUrl r = None /\
                    downloadUrl r = None /\ is_Some (error r))))
      assets results /\
    (onProgress = None ->
       (uploadPDFs u releaseId assets onProgress net).1.2 = []) /\
    (is_Some onProgress ->
       map current (uploadPDFs u releaseId assets onProgress net).1.2
         = seqZ 1 (Z.of_nat (length assets)) /\
       Forall2 (fun r p =>
                  (success r = true <-> status p = "uploaded"%string) /\
                  total p = Z.of_nat (length assets) /\
                  progress_fileName p = result_fileName r)
         results (uploadPDFs u releaseId assets onProgress net).1.2).
Proof.
  intros Hcb. unfold uploadPDFs.
  pose proof (upload_loop_shape u releaseId (Z.of_nat (length assets)) 0
                assets onProgress net Hcb) as Hs. cbn zeta in Hs.
  destruct (upload_loop_normal u releaseId (Z.of_nat (length assets))
              (Z.of_nat (length assets)) 0 0 onProgress onProgress assets net
              Hcb Hcb) as (_ & Hth & _).
  destruct (upload_loop u releaseId (Z.of_nat (length assets)) 0 assets
              onProgress net) as [[[rs ps] th] net'].
  simpl in *. subst th. destruct Hs as (H1 & H2 & H3).
  exists rs. split; [reflexivity|]. split; [exact H1|].
  split; [exact H2|]. intros Hsome. destruct (H3 Hsome). now split.
Qed.

(** X14. With no progress callback, or with one that returns from every
    call, every entry [uploadPDFs] returns is of one of two shapes, one
    entry per asset. A success carries no error and a content-delivery
    URL made of the repository owner and name, a non-empty tag, and the
    file name of its asset; a failure carries an error message and no
    URL. With a callback, one progress report is made per asset, numbered
    1, 2, ... out of the number of assets, and it says [uploaded] exactly
    for the successes; without a callback nothing is reported. *)
Theorem uploadPDFs_entries (u : Config) (releaseId : option Z)
    (assets : list PdfFile) (onProgress : option (Callback Progress))
    (net : Net) :
  returns_normally onProgress ->
  exists results,
    (uploadPDFs u releaseId assets onProgress net).1.1 = Returned results /\
    Forall2 (fun f r =>
               result_fileName r = standardFileName f /\
               ((success r = true /\ error r = None /\
                 exists tag,
                   cdnUrl r = Some (cdn_url u tag (standardFileName f))
                   /\ tag <> EmptyString)
                \/ (success r = false /\ cdnUrl r = None /\
                    downloadUrl r = None /\ is_Some (error r))))
      assets results /\
    (onProgress = None ->
       (uploadPDFs u releaseId assets onProgress net).1.2 = []) /\
    (is_Some onProgress ->
       map current (uploadPDFs u releaseId assets onProgress net).1.2
         = seqZ 1 (Z.of_nat (length assets)) /\
       Forall2 (fun r p =>
                  (success r = true <-> status p = "uploaded"%string) /\
                  total p = Z.of_nat (length assets) /\
                  progress_fileName p = result_fileName r)
         results (uploadPDFs u releaseId assets onProgress net).1.2).
Proof. apply uploadPDFs_shape. Qed.

Lemma upload_loop_without_token (u : Config) (releaseId : option Z) (t i : Z)
    (l : list PdfFile) (cb : option (Callback Progress)) (net : Net) :
  token u = EmptyString ->
  (upload_loop u releaseId t i l cb net).2 = net /\
  (returns_normally cb ->
   length (upload_loop u releaseId t i l cb net).1.1.1 = length l /\
   Forall (fun r => success r = false)
     (upload_loop u releaseId t i l cb net).1.1.1).
Proof.
  intros Htok. revert i. induction l as [|f l IH]; intros i.
  - simpl. repeat split. constructor.
  - cbn [upload_loop]. unfold upload_one, uploadAsset. rewrite Htok.
    cbn [Js.truthy_str negb].
    destruct (notify cb
                (mkProgress (i + 1) t (standardFileName f) "error"
                   (Some "GitHub token is required for uploading assets")))
      as [reported [msg|]] eqn:Hn.
    + split; [reflexivity|]. intros Hcb.
      destruct cb as [k|]; simpl in Hn; [|discriminate].
      rewrite Hcb in Hn. discriminate.
    + specialize (IH (i + 1)).
      destruct (upload_loop u releaseId t (i + 1) l cb net)
        as [[[rs ps] th] n2].
      simpl in *. destruct IH as [-> IH]. split; [reflexivity|].
      intros Hcb. destruct (IH Hcb) as [-> Hall]. split; [reflexivity|].
      now constructor.
Qed.

(** X15. Without a token nothing goes on the network, whatever the
    progress callback does: [createRelease] and [deployToGitHubReleases]
    throw and [uploadPDFs] ends with the network as it was; when the
    callback returns from every call (or there is none), [uploadPDFs]
    returns a failure for every asset. [validateConfig] reports the
    configuration invalid. *)
Theorem no_token_no_request (u : Config) (net : Net) :
  token u = EmptyString ->
  fst (validateConfig u) = false /\
  (forall info, exists msg, createRelease u info net = (Thrown msg, net)) /\
  (forall bundle cb, exists msg,
     deployToGitHubReleases u bundle cb net = (Thrown msg, net)) /\
  (forall releaseId assets cb,
     (uploadPDFs u releaseId assets cb net).2 = net /\
     (returns_normally cb ->
      exists results,
        (uploadPDFs u releaseId assets cb net).1.1 = Returned results /\
        length results = length assets /\
        Forall (fun r => success r = false) results)).
Proof.
  intros Htok.
  assert (Hcreate : forall info,
            createRelease u info net
            = (Thrown "GitHub token is required for creating releases", net)).
  { intros info. unfold createRelease. now rewrite Htok. }
  split; [|split; [|split]].
  - unfold validateConfig. rewrite Htok. simpl.
    destruct (negb (Js.truthy_str (repoOwner u))),
      (negb (Js.truthy_str (repoName u))); reflexivity.
  - intros info. eauto.
  - intros bundle cb. unfold deployToGitHubReleases.
    destruct (notify cb _).2 as [msg|]; [eauto|]. rewrite Hcreate. eauto.
  - intros releaseId assets cb. unfold uploadPDFs.
    destruct (upload_loop_without_token u releaseId
                (Z.of_nat (length assets)) 0 assets cb net Htok) as [Hnet Hres].
    pose proof (fun Hcb =>
                  upload_loop_normal u releaseId (Z.of_nat (length assets))
                    (Z.of_nat (length assets)) 0 0 cb cb assets net Hcb Hcb)
      as Hth.
    destruct (upload_loop u releaseId (Z.of_nat (length assets)) 0 assets cb
                net) as [[[rs ps] th] net'].
    simpl in *. split; [exact Hnet|]. intros Hcb.
    destruct (Hth Hcb) as (_ & -> & _). destruct (Hres Hcb).
    exists rs. now repeat split.
Qed.

Lemma updateCDNUrls_dom (files : gmap string (gmap string Json))
    (tagName : option string) (results : list UploadResult) :
  dom (updateCDNUrls files tagName results) = dom files.
Proof.
  apply set_eq. intros path. rewrite !elem_of_dom.
  rewrite updated_lookup. now rewrite fmap_is_Some.
Qed.

(** X16. When [deployToGitHubReleases], called without a progress
    callback or with one that returns from every call, returns, its
    result holds one upload entry per asset of the bundle, the summary
    counts them (successes and failures add up to the total) and counts
    the files of the bundle, which are the files handed in; the base URL
    carries the tag of the release; and with no asset to upload the
    bundle comes back unchanged after the single request that created
    the release. *)
Theorem deploy_result (u : Config) (bundle : ExportResult)
    (cb : option (Callback DeployProgress)) (net net' : Net)
    (o : DeployOutcome) :
  returns_normally cb ->
  deployToGitHubReleases u bundle cb net = (Returned o, net') ->
  length (uploadResults o) = length (pdfFiles bundle) /\
  totalPDFs (summary o) = Z.of_nat (length (pdfFiles bundle)) /\
  successfulUploads (summary o) + failedUploads (summary o)
    = totalPDFs (summary o) /\
  dom (deployed_jsonFiles o) = dom (jsonFiles bundle) /\
  jsonFilesCount (summary o) = Z.of_nat (size (jsonFiles bundle)) /\
  cdnBaseUrl o = cdn_url u (interpolate (tag_name (release o))) "" /\
  exists net1,
    createRelease u (releaseInfo bundle) net = (Returned (release o), net1) /\
    (pdfFiles bundle = [] ->
       net' = net1 /\ deployed_jsonFiles o = jsonFiles bundle /\
       uploadResults o = []).
Proof.
  unfold deployToGitHubReleases. intros Hcb Hd.
  assert (Hquiet : forall report : DeployProgress, (notify cb report).2 = None).
  { intros report. destruct cb as [k|]; [apply Hcb | reflexivity]. }
  rewrite Hquiet in Hd.
  destruct (createRelease u (releaseInfo bundle) net) as [[rel|msg] net1]
    eqn:Hc; [|discriminate].
  assert (Hcount : forall rs : list UploadResult,
            Z.of_nat (length (List.filter success rs))
            + Z.of_nat (length (List.filter (fun r => negb (success r)) rs))
            = Z.of_nat (length rs)).
  { induction rs as [|r rs IH]; [reflexivity|]. simpl.
    destruct (success r); simpl; lia. }
  destruct (pdfFiles bundle) as [|f l] eqn:Hfiles.
  - simpl in Hd. injection Hd as <- <-. simpl.
    repeat split. exists net1. repeat split.
  - change (0 <? Z.of_nat (length (f :: l))) with true in Hd. cbv iota in Hd.
    rewrite Hquiet in Hd.
    destruct (uploadPDFs_shape u (json_id rel) (f :: l)
                (Some (fun progress =>
                         (notify cb (StepUpload "uploading_pdfs" progress)).2))
                net1) as (results & Hu & He & _).
    { intros report. apply Hquiet. }
    destruct (uploadPDFs u (json_id rel) (f :: l) _ net1)
      as [[uploaded reports] net2].
    simpl in Hu. subst uploaded.
    injection Hd as <- <-. cbn [uploadResults summary generateSummary
      totalPDFs successfulUploads failedUploads jsonFilesCount
      deployed_jsonFiles release cdnBaseUrl].
    apply Forall2_length in He.
    pose proof (updateCDNUrls_dom (jsonFiles bundle) (tag_name rel) results)
      as Hdom.
    split; [now rewrite <- He|]. split; [now rewrite <- He|].
    split; [apply Hcount|]. split; [exact Hdom|].
    split; [|split; [reflexivity|]].
    + f_equal. apply (f_equal size) in Hdom. now rewrite !size_dom in Hdom.
    + exists net1. split; [reflexivity | discriminate].
Qed.

End ReleaseRuns.
End ReleaseFacts.

(** ** Further properties of storing and adding records *)

Module CollectionFacts.
Import Catalog Reference Ids EditFacts StorageFacts.

Section Collection.
Context {World : Type} `{Environment World}.

Lemma ensure_id_result (p : Paper) (w : World) :
  ids_not_empty ->
  Js.truthy (id (fst (ensure_id p w))) = true /\
  keeps_given_id p (fst (ensure_id p w)).
Proof.
  intros Hgen. unfold ensure_id, keeps_given_id.
  destruct (Js.truthy (id p)) eqn:E; simpl.
  - repeat split. assumption.
  - specialize (Hgen w). destruct (freshId w) as [s w']. simpl in *.
    split; [|split; [reflexivity | discriminate]].
    destruct s; [contradiction | reflexivity].
Qed.

Lemma ensure_id_fixed (p : Paper) (w : World) :
  Js.truthy (id p) = true -> ensure_id p w = (p, w).
Proof. unfold ensure_id. now intros ->. Qed.

Lemma migrate_one_result (p : Paper) (w : World) :
  ids_not_empty ->
  Js.truthy (id (fst (fst (migrate_one p w)))) = true /\
  keeps_given_id p (fst (fst (migrate_one p w))).
Proof.
  intros Hgen. unfold migrate_one.
  pose proof (ensure_id_result p w Hgen) as Hp.
  destruct (ensure_id p w) as [p1 w1]. simpl in Hp.
  destruct (savePaper p1 None w1) as [[] w2]; [|exact Hp].
  destruct (thumbnail p1) as [t|]; [|exact Hp].
  destruct (Js.truthy_str t); [|exact Hp].
  now destruct (saveThumbnail (id p1) t w2).
Qed.

Lemma migrate_loop_result (l : list Paper) (c : Z) (w : World) :
  ids_not_empty ->
  Forall (fun q => Js.truthy (id q) = true) (migrated (migrate_loop l c w)) /\
  Forall2 keeps_given_id l (migrated (migrate_loop l c w)).
Proof.
  intros Hgen. revert c w. induction l as [|p l IH]; intros c w; simpl.
  - split; constructor.
  - pose proof (migrate_one_result p w Hgen) as [H1 H2].
    destruct (migrate_one p w) as [[p1 ok] w1]. simpl in *.
    destruct (IH (if ok then c + 1 else c) w1) as [IH1 IH2].
    split; constructor; assumption.
Qed.

Lemma keeps_given_id_fixed (l l' : list Paper) :
  Forall (fun q => Js.truthy (id q) = true) l ->
  Forall2 keeps_given_id l l' -> l' = l.
Proof.
  intros Hl H2. induction H2 as [|p q l l' [_ Hpq] H2 IH]; [reflexivity|].
  apply Forall_cons in Hl as [Hp Hl]. now rewrite (Hpq Hp), (IH Hl).
Qed.

(** X17. After a migration every record of the collection carries an
    id: a record that had one keeps it and is otherwise untouched, a
    record that had none differs by its new id only. A second migration
    changes no record: the ids given by the first are stable. *)
Theorem migration_assigns_stable_ids (st : @LiteratureManager World) :
  ids_not_empty ->
  storageInitialized st = true ->
  papers st <> [] ->
  Forall (fun q => Js.truthy (id q) = true) (papers (migrateToIndexedDB st)) /\
  Forall2 keeps_given_id (papers st) (papers (migrateToIndexedDB st)) /\
  papers (migrateToIndexedDB (migrateToIndexedDB st))
    = papers (migrateToIndexedDB st).
Proof.
  intros Hgen Hinit Hne.
  assert (Hrun : forall s : @LiteratureManager World,
            storageInitialized s = true ->
            papers (migrateToIndexedDB s)
            = migrated (migrate_loop (papers s) 0 (world s)) /\
            storageInitialized (migrateToIndexedDB s) = true).
  { intros s Hs. unfold migrateToIndexedDB. rewrite Hs. simpl.
    destruct (papers s) as [|p l] eqn:E; [now split|].
    change (Z.of_nat (length (p :: l)) =? 0) with false. cbv iota.
    destruct (0 <? migratedCount (migrate_loop (p :: l) 0 (world s)));
      now split. }
  destruct (Hrun st Hinit) as [Hp Hinit'].
  destruct (migrate_loop_result (papers st) 0 (world st) Hgen) as [H1 H2].
  rewrite <- Hp in H1, H2.
  split; [exact H1|]. split; [exact H2|].
  destruct (Hrun _ Hinit') as [Hp' _]. rewrite Hp'.
  apply keeps_given_id_fixed; [exact H1|].
  apply migrate_loop_result, Hgen.
Qed.

Lemma saveData_loop_result (l : list Paper) (c : Z) (w : World) :
  ids_not_empty ->
  Forall (fun q => Js.truthy (id q) = true)
    (fst (fst (saveData_loop l c w))) /\
  Forall2 keeps_given_id l (fst (fst (saveData_loop l c w))) /\
  0 <= snd (fst (saveData_loop l c w)) - c <= Z.of_nat (length l).
Proof.
  intros Hgen. revert c w. induction l as [|p l IH]; intros c w; simpl.
  - repeat split; try constructor; lia.
  - pose proof (ensure_id_result p w Hgen) as [H1 H2].
    destruct (ensure_id p w) as [p1 w1]. simpl in *.
    destruct (savePaper p1 None w1) as [ok w2].
    specialize (IH (if ok then c + 1 else c) w2).
    destruct (saveData_loop l (if ok then c + 1 else c) w2) as [[l' n] w3].
    simpl in *. destruct IH as (IH1 & IH2 & IH3).
    repeat split; try (constructor; assumption); destruct ok; lia.
Qed.

Lemma saveData_loop_fixed (l : list Paper) (c : Z) (w : World) :
  Forall (fun p => Js.truthy (id p) = true) l ->
  fst (fst (saveData_loop l c w)) = l.
Proof.
  intros Hl. revert c w. induction Hl as [|p l Hp Hl IH]; intros c w;
    [reflexivity|].
  simpl. rewrite (ensure_id_fixed p w Hp).
  destruct (savePaper p None w) as [ok w2].
  specialize (IH (if ok then c + 1 else c) w2).
  destruct (saveData_loop l (if ok then c + 1 else c) w2) as [[l' n] w3].
  simpl in *. now rewrite IH.
Qed.

(** X18. [saveData] always leaves the collection with the same records,
    up to the ids it gives to records that had none, and never touches
    the filters. Where it gives no id (without IndexedDB, or when every
    record has one) no record changes, in the collection or in the
    filtered list. With IndexedDB it answers [true] even when the store
    rejected records, gives every record an id and does not write the
    fallback payload; without IndexedDB it either writes the payload and
    answers [true], or, the quota being exceeded, leaves the payload as
    it was, answers [false] and notifies an error. *)
Theorem saveData_effects (st : @LiteratureManager World) :
  ids_not_empty ->
  let st' := snd (saveData st) in
  Forall2 keeps_given_id (papers st) (papers st') /\
  filters st' = filters st /\
  (storageInitialized st = false \/
   Forall (fun p => Js.truthy (id p) = true) (papers st) ->
   papers st' = papers st /\ filteredPapers st' = filteredPapers st) /\
  (storageInitialized st = true ->
     fst (saveData st) = true /\
     Forall (fun q => Js.truthy (id q) = true) (papers st') /\
     localStorage st' = localStorage st /\
     notifications st' = notifications st) /\
  (storageInitialized st = false ->
     world st' = world st /\
     ((fst (saveData st) = true /\ localStorage st' = Some (papersToSave st) /\
       notifications st' = notifications st)
      \/
      (fst (saveData st) = false /\ localStorage st' = localStorage st /\
       exists msg,
         notifications st' = notifications st ++ [mkNotification msg "error"]))).
Proof.
  intros Hgen st'. unfold st', saveData.
  assert (Hrefl : forall l : list Paper, Forall2 keeps_given_id l l).
  { induction l; constructor; [|assumption]. split; reflexivity. }
  destruct (storageInitialized st) eqn:Hinit.
  - destruct (saveData_loop_result (papers st) 0 (world st) Hgen)
      as (H1 & H2 & _).
    pose proof (saveData_loop_fixed (papers st) 0 (world st)) as Hfix.
    destruct (saveData_loop (papers st) 0 (world st)) as [[l' n] w].
    simpl in *. split; [exact H2|]. split; [reflexivity|]. split.
    { intros [Hoff | Hids]; [discriminate|]. now rewrite (Hfix Hids). }
    split; [|discriminate]. intros _. now repeat split.
  - destruct (setItemOk (papersToSave st)) eqn:Hq; simpl.
    + split; [apply Hrefl|]. split; [reflexivity|].
      split; [now intros _|]. split; [discriminate|]. intros _.
      split; [reflexivity|]. left. repeat split.
    + split; [apply Hrefl|]. split; [reflexivity|].
      split; [now intros _|]. split; [discriminate|]. intros _.
      split; [reflexivity|]. right.
      split; [reflexivity|]. split; [reflexivity|]. eauto.
Qed.

(** X19. [addPaper] either appends exactly one record to the collection,
    leaving the records already there as they were, or changes nothing
    in the collection. In the first case it returns the id of the new
    record, which is the id given when there was one, the record differs
    from the one given at most by a generated id and by its [pdfUrl], and
    the first page is shown; the second case only happens with IndexedDB,
    and ends on an error notification. *)
Theorem addPaper_appends_or_nothing (p : Paper)
    (st : @LiteratureManager World) :
  match addPaper p st with
  | (Some i, st') =>
      exists q,
        papers st' = papers st ++ [q] /\ id q = i /\
        (Js.truthy (id p) = true -> i = id p) /\
        set_pdfUrl EmptyString (set_id Js.Undefined q)
          = set_pdfUrl EmptyString (set_id Js.Undefined p) /\
        currentPage st' = 1
  | (None, st') =>
      papers st' = papers st /\ storageInitialized st = true /\
      exists msg,
        notifications st' = notifications st ++ [mkNotification msg "error"]
  end.
Proof.
  unfold addPaper.
  pose proof (ensure_id_same_content p (world st)) as Hsame.
  assert (Hkeep : Js.truthy (id p) = true ->
                  id (fst (ensure_id p (world st))) = id p).
  { intros Ht. now rewrite ensure_id_fixed. }
  destruct (ensure_id p (world st)) as [p1 w1]. simpl in Hsame, Hkeep.
  assert (Hp1 : set_pdfUrl EmptyString (set_id Js.Undefined p1)
                = set_pdfUrl EmptyString (set_id Js.Undefined p)).
  { unfold same_content in Hsame. now rewrite <- Hsame. }
  destruct (storageInitialized st) eqn:Hinit.
  - destruct (savePaper p1 (pdfFile p1) w1) as [[] w2]; simpl;
      [|repeat split; eauto].
    destruct (match thumbnail p1 with
              | Some t =>
                  if Js.truthy_str t then saveThumbnail (id p1) t w2
                  else (true, w2)
              | None => (true, w2)
              end) as [[] w3]; simpl; [|repeat split; eauto].
    destruct (bool_decide (is_Some (pdfFile p1))
              && negb (Js.startsWith (pdfUrl p1) "data:")).
    + destruct (getPDFFile (id p1) w3) as [[[url|]|] w4]; simpl.
      * exists (set_pdfUrl url p1). repeat split; try assumption.
        destruct (setItemOk _); reflexivity.
      * exists p1. repeat split; try assumption.
        destruct (setItemOk _); reflexivity.
      * repeat split; eauto.
    + simpl. exists p1. repeat split; try assumption.
      destruct (setItemOk _); reflexivity.
  - simpl. exists p1. repeat split; try assumption.
    unfold saveData. simpl. rewrite Hinit.
    destruct (setItemOk _); reflexivity.
Qed.

Lemma manual_id_truthy (f : ManualForm) (st : @LiteratureManager World) :
  Js.truthy (id (manualPaperData f st)) = true.
Proof.
  simpl. apply negb_true_iff, Z.eqb_neq. lia.
Qed.

(** X20. [handleManualEntry] reports success before it knows: when
    IndexedDB rejects the new record, the collection is left as it was,
    and the user is shown the message that the paper was added, followed
    by the error of [addPaper]. *)
Theorem handleManualEntry_reports_success (f : ManualForm)
    (st : @LiteratureManager World) :
  storageInitialized st = true ->
  fst (savePaper (manualPaperData f st) None (world st)) = false ->
  papers (handleManualEntry f st) = papers st /\
  exists msg,
    notifications (handleManualEntry f st) =
      notifications st ++
      [mkNotification "Paper added successfully!" "success";
       mkNotification msg "error"].
Proof.
  intros Hinit Hrej. unfold handleManualEntry, addPaper. rewrite Hinit.
  rewrite (ensure_id_fixed _ _ (manual_id_truthy f st)).
  cbn [storageInitialized showNotification world].
  rewrite Hinit.
  change (pdfFile (manualPaperData f st)) with (@None string).
  destruct (savePaper (manualPaperData f st) None (world st)) as [ok w2].
  simpl in Hrej. subst ok. simpl. split; [reflexivity|].
  eexists. now rewrite <- app_assoc.
Qed.

(** X21. [parseJSON] throws unless the object has a title, authors and a
    year; when it returns a record, the record is numbered by the size
    of the collection plus one whatever id the file carries, it has no
    thumbnail and no binary, and its research area is the category
    chosen for the upload unless that is [auto]. *)
Theorem parseJSON_result (data : gmap string Raw) (category' : string)
    (st : @LiteratureManager World) :
  (forall k, k ∈ ["title"; "authors"; "year"]%string ->
     (data !! k = None \/ exists v, data !! k = Some v /\ raw_truthy v = false) ->
     parseJSON data category' st = None) /\
  (forall p, parseJSON data category' st = Some p ->
     id p = Js.Num (Z.of_nat (length (papers st)) + 1) /\
     thumbnail p = None /\ pdfFile p = None /\
     (category' <> "auto"%string -> researchArea p = category')).
Proof.
  split.
  - intros k Hk Hmiss. unfold parseJSON.
    assert (Hfalse : match data !! k with
                     | Some v => raw_truthy v
                     | None => false
                     end = false).
    { destruct Hmiss as [->|(v & -> & Hv)]; [reflexivity | exact Hv]. }
    rewrite !elem_of_cons in Hk.
    destruct Hk as [->|[->|[->|Hk]]]; [| | |now apply elem_of_nil in Hk];
      rewrite Hfalse; simpl; rewrite ?orb_true_r; reflexivity.
  - intros p Hp. unfold parseJSON in Hp.
    destruct (_ || _) in Hp; [discriminate|].
    unfold normalizepaperData in Hp.
    apply bind_Some in Hp. destruct Hp as (a & _ & Hp).
    apply bind_Some in Hp. destruct Hp as (k & _ & Hp).
    injection Hp as <-. simpl. repeat split.
    intros Hc. destruct (String.eqb_spec category' "auto"); [contradiction|].
    reflexivity.
Qed.

End Collection.
End CollectionFacts.

(** The further properties on concrete managers and networks. *)

Module MoreExamples.
Import Catalog Reference Controls Uploader UploaderChecks Ids Scenario Samples.
Import ControlsFacts ReleaseFacts CollectionFacts.

Lemma unsorted_numeric : Forall paper_numeric (filteredPapers unsorted).
Proof. repeat constructor; simpl; eauto. Qed.

Lemma counter_ids_not_empty : @ids_not_empty nat counter_env.
Proof. intros w. discriminate. Qed.

(** Scenario A: the years 2019, 2021, 2020 come out as 2021, 2020,
    2019. *)
Example scenario_year_desc :
  map year (filteredPapers (sortPapers unsorted))
  = [Some 2021; Some 2021; Some 2020; Some 2019] /\
  map title (filteredPapers (sortPapers unsorted))
  = ["Two"; "Four"; "Three"; "One"]%string.
Proof. split; reflexivity. Qed.

Lemma sortPapers_orders_witness :
  StronglySorted (fun p q => num_le (year q) (year p))
    (filteredPapers (sortPapers unsorted)).
Proof.
  destruct (sortPapers_orders unsorted unsorted_numeric) as (_ & Hdesc & _).
  apply Hdesc. rewrite !not_elem_of_cons. repeat split; try discriminate.
  apply not_elem_of_nil.
Defined.

Lemma sortPapers_stable_witness :
  filter (fun p => year p = Some 2021) (filteredPapers (sortPapers unsorted))
  = filter (fun p => year p = Some 2021) (filteredPapers unsorted).
Proof.
  destruct (sortPapers_stable unsorted unsorted_numeric) as (Hyear & _).
  apply Hyear. rewrite !not_elem_of_cons. repeat split; try discriminate.
  apply not_elem_of_nil.
Defined.

Lemma sortPapers_idempotent_witness :
  sortPapers (sortPapers unsorted) = sortPapers unsorted.
Proof.
  apply (sortPapers_idempotent unsorted unsorted_numeric). discriminate.
Defined.

Lemma session_keeps_filters_well_formed_witness :
  filters_well_formed (filters (run session unsorted)).
Proof.
  destruct (session_keeps_filters_well_formed session unsorted)
    as (_ & _ & _ & _ & Hwf).
  - repeat split; simpl; eauto; try discriminate; try lia.
  - apply Hwf. repeat constructor; simpl; eauto; try discriminate;
      try (intros Hne; now contradiction Hne).
Defined.

Example session_filters :
  filters (run session unsorted)
  = mkFilters "deep" "all" (Some 2010) (Some 2010) ["Survey"%string] [] ""
      None None.
Proof. reflexivity. Qed.

Lemma pagination_bar_stays_in_range_witness :
  PageBtn 3 false ∈ updatePagination thirty.
Proof.
  destruct (pagination_bar_stays_in_range thirty) as (_ & Hbar).
  - split; [reflexivity | discriminate].
  - destruct Hbar as (_ & Hlast & _); [reflexivity | exact Hlast].
Defined.

Example bar_of_thirty :
  updatePagination thirty
  = [PrevBtn true 0; PageBtn 1 true; PageBtn 2 false; PageBtn 3 false;
     NextBtn false 2; PageInfo 1 3].
Proof. reflexivity. Qed.

Lemma edit_after_showPaperDetails_witness :
  exists i p',
    findIndex (fun q => Js.strict_eq (id q) (Js.Num 3)) (papers unsorted)
      = Some i /\
    papers
      (savePaperDetails (Some (form "A. Author" "Venue" "2001" "7"))
         (toggleEditMode (showPaperDetails (Js.Num 3) unsorted))) !! i
      = Some p' /\
    same_content
      (set_hIndex
         (Js.floor_div
            (citations
               (collect (paper (Js.Num 3) "Three" 2020 1)
                  (form "A. Author" "Venue" "2001" "7"))) 3)
         (collect (paper (Js.Num 3) "Three" 2020 1)
            (form "A. Author" "Venue" "2001" "7")))
      p' /\
    last
      (notifications
         (savePaperDetails (Some (form "A. Author" "Venue" "2001" "7"))
            (toggleEditMode (showPaperDetails (Js.Num 3) unsorted))))
    = Some (mkNotification "Paper information saved successfully!" "success").
Proof.
  apply (edit_after_showPaperDetails unsorted (Js.Num 3)
           (paper (Js.Num 3) "Three" 2020 1)
           (form "A. Author" "Venue" "2001" "7")).
  - reflexivity.
  - repeat split; try discriminate.
    exists 2001. split; [reflexivity | lia].
Defined.

Lemma parseCSV_needs_lowercase_headers_witness :
  exists p,
    parseCSV small_csv "auto" unsorted = Some p /\
    id p = Js.Num (Z.of_nat (length (papers unsorted)) + 1).
Proof.
  eexists. split; [vm_compute; reflexivity|].
  eapply (parseCSV_needs_lowercase_headers small_csv "auto" unsorted).
  vm_compute. reflexivity.
Defined.

Example small_csv_record :
  (fun p => (id p, title p, authors p, year p))
    <$> parseCSV small_csv "auto" unsorted
  = Some (Js.Num 5, "A paper", ["A. Author"; "B. Writer"], Some 2020)%string.
Proof. vm_compute. reflexivity. Qed.

Lemma uploadPDFs_entries_witness :
  exists results,
    (uploadPDFs (mkConfig "u" "r" "token") (Some 42)
       [mkPdfFile (Js.Str "a") "a.pdf" "a.pdf" "A";
        mkPdfFile (Js.Str "b") "b.pdf" "b.pdf" "B"]
       onlooker
       [Response true (mkResponseJson None (Some 1) None None None None);
        Rejected "Failed to fetch"]).1.1 = Returned results /\
    length results = 2%nat.
Proof.
  destruct (uploadPDFs_entries (mkConfig "u" "r" "token") (Some 42)
              [mkPdfFile (Js.Str "a") "a.pdf" "a.pdf" "A";
               mkPdfFile (Js.Str "b") "b.pdf" "b.pdf" "B"]
              onlooker
              [Response true (mkResponseJson None (Some 1) None None None None);
               Rejected "Failed to fetch"]
              (fun _ => eq_refl))
    as (results & Hrun & Hshape & _).
  exists results. split; [exact Hrun|].
  symmetry. exact (Forall2_length _ _ _ Hshape).
Defined.

Lemma no_token_no_request_witness :
  exists msg,
    deployToGitHubReleases (mkConfig "u" "r" "") bundle onlooker api_answers
    = (Thrown msg, api_answers).
Proof.
  destruct (no_token_no_request (mkConfig "u" "r" "") api_answers eq_refl)
    as (_ & _ & Hdeploy & _).
  apply Hdeploy.
Defined.

Lemma deploy_result_witness :
  exists o net',
    deployToGitHubReleases (mkConfig "u" "r" "token") bundle onlooker
      api_answers
      = (Returned o, net') /\
    successfulUploads (summary o) + failedUploads (summary o)
      = totalPDFs (summary o).
Proof.
  eexists _, _. split; [reflexivity|].
  eapply (deploy_result (mkConfig "u" "r" "token") bundle onlooker
            api_answers).
  - intros report. reflexivity.
  - reflexivity.
Defined.

Lemma migration_assigns_stable_ids_witness :
  papers (migrateToIndexedDB (migrateToIndexedDB from_fallback))
  = papers (migrateToIndexedDB from_fallback).
Proof.
  apply (migration_assigns_stable_ids from_fallback counter_ids_not_empty).
  - reflexivity.
  - discriminate.
Defined.

Lemma saveData_effects_witness :
  Forall (fun q => Js.truthy (id q) = true)
    (papers (snd (saveData from_fallback))) /\
  fst (saveData from_fallback) = true.
Proof.
  destruct (saveData_effects from_fallback counter_ids_not_empty)
    as (_ & _ & _ & Hon & _).
  destruct (Hon eq_refl) as (Hok & Hids & _).
  split; [exact Hids | exact Hok].
Defined.

Lemma handleManualEntry_reports_success_witness :
  papers
    (handleManualEntry rejected_entry
       (manager [paper (Js.Num 1) "One" 2019 5] None true))
  = [paper (Js.Num 1) "One" 2019 5].
Proof.
  apply (handleManualEntry_reports_success rejected_entry
           (manager [paper (Js.Num 1) "One" 2019 5] None true));
    reflexivity.
Defined.

Example rejected_entry_notifications :
  map kind
    (notifications
       (handleManualEntry rejected_entry
          (manager [paper (Js.Num 1) "One" 2019 5] None true)))
  = ["success"; "error"]%string.
Proof. reflexivity. Qed.

Example classify_examples :
  classifyResearchArea "A Wearable Keyboard for Mobile Users"
    = "HCI New Wearable Devices"%string /\
  classifyResearchArea "Typing on glass: a TOUCHSCREEN study"
    = "Accessible Interaction"%string /\
  classifyResearchArea "On the theory of types" = "General"%string.
Proof. repeat split. Qed.

End MoreExamples.

(** ** Properties of start-up and of the static bundle *)

Module StartupFacts.
Import Catalog Startup.

Section Loading.
Context {World : Type} `{Environment World} `{Sources World}.

Local Abbreviation Manager := (@LiteratureManager World).

Lemma truthy_thumbnail_Some (o : option string) (t : string) :
  truthy_thumbnail o = Some t -> o = Some t /\ Js.truthy_str t = true.
Proof.
  destruct o as [s|]; simpl; [|discriminate].
  destruct (Js.truthy_str s) eqn:Hs; [|discriminate].
  intros [= <-]. auto.
Qed.



Lemma load_fallback_frame (st : Manager) :
  filteredPapers (load_fallback st).1 = papers (load_fallback st).1 /\
  localStorage (load_fallback st).1 = localStorage st /\
  storageInitialized (load_fallback st).1 = storageInitialized st /\
  filters (load_fallback st).1 = filters st /\
  currentSort (load_fallback st).1 = currentSort st /\
  currentPage (load_fallback st).1 = currentPage st /\
  world (load_fallback st).1 = world st /\
  ((load_fallback st).2 = true ->
   storageInitialized st = true /\
   localStorage st = Some (papers (load_fallback st).1) /\
   papers (load_fallback st).1 <> []).
Proof.
  unfold load_fallback.
  destruct (localStorage st) as [[|p l]|] eqn:Hls; simpl; rewrite ?Hls;
    do 7 (split; [reflexivity|]); try discriminate.
  intros Hm. split; [exact Hm|]. split; [reflexivity | discriminate].
Qed.

(** X22. Whatever the sources answer, [loadData] leaves the visible list
    equal to the collection, and changes neither the fallback store nor
    the filters, the sort key, the page or the storage flag. The
    migration is scheduled only when the store is open and the
    collection is the non-empty payload of the fallback store. *)
Theorem loadData_frame (st : Manager) :
  filteredPapers (loadData st).1 = papers (loadData st).1 /\
  localStorage (loadData st).1 = localStorage st /\
  storageInitialized (loadData st).1 = storageInitialized st /\
  filters (loadData st).1 = filters st /\
  currentSort (loadData st).1 = currentSort st /\
  currentPage (loadData st).1 = currentPage st /\
  ((loadData st).2 = true ->
   storageInitialized st = true /\
   localStorage st = Some (papers (loadData st).1) /\
   papers (loadData st).1 <> []).
Proof.
  unfold loadData, initializeStaticMode.
  destruct (fetchStatic (world st)) as [[files|] w0]; simpl.
  { do 6 (split; [reflexivity|]). discriminate. }
  destruct (storageInitialized st) eqn:Hsi.
  - destruct (getAllPapers w0) as [[[|p l]|] w1].
    + destruct (load_fallback_frame (set_world w1 (set_world w0 st)))
        as (F1 & F2 & F3 & F4 & F5 & F6 & _ & F7).
      simpl in *. rewrite F3. do 6 (split; [assumption|]).
      intros Hm. destruct (F7 Hm) as (_ & G). split; [reflexivity | exact G].
    + destruct (load_thumbnails (p :: l) w1) as [[l'|] w2]; simpl;
        do 6 (split; [try reflexivity; try assumption|]); discriminate.
    + simpl. do 6 (split; [try reflexivity; try assumption|]). discriminate.
  - destruct (load_fallback_frame (set_world w0 st))
      as (F1 & F2 & F3 & F4 & F5 & F6 & _ & F7).
    simpl in *. rewrite F3. do 6 (split; [assumption|]).
    intros Hm. destruct (F7 Hm) as (G & _). congruence.
Qed.

(** X23. Without static files and with the store open, a rejected read
    of the records, or of a thumbnail of a record that has none, leaves
    the catalog empty with an error notification: the fallback store is
    not consulted, whatever it holds, and no migration is scheduled. *)
Theorem rejected_read_empties_catalog (st : Manager) (w0 w1 : World)
    (r : option (list Paper)) :
  fetchStatic (world st) = (None, w0) ->
  storageInitialized st = true ->
  getAllPapers w0 = (r, w1) ->
  (r = None \/
   exists l, r = Some l /\ l <> [] /\ (load_thumbnails l w1).1 = None) ->
  papers (loadData st).1 = [] /\
  filteredPapers (loadData st).1 = [] /\
  (loadData st).2 = false /\
  notifications (loadData st).1 =
    notifications st ++ [mkNotification "Error loading data: " "error"].
Proof.
  intros Hf Hsi Hg Hr. unfold loadData, initializeStaticMode.
  rewrite Hf. simpl. rewrite Hsi, Hg.
  destruct Hr as [-> | (l & -> & Hne & Hl)].
  - simpl. auto.
  - destruct l as [|p l]; [congruence|].
    destruct (load_thumbnails (p :: l) w1) as [[l'|] w2]; simpl in *;
      [discriminate | auto].
Qed.


(** X25. A collection exported to [papers.json] and loaded again in
    static mode comes back record by record with its id, authors,
    keywords, abstract and DOI, and with defaults for an empty title or
    research area and a missing year or citation count; the journal,
    methodology, study type, downloads, h-index and links of the record
    are not exported and come back as the defaults of the loader. *)
Theorem static_round_trip (st : Manager) (thisYear : Z)
    (thumbnails : gmap string string) :
  Forall2 (survives_export thisYear) (papers st)
    (staticPapers thisYear
       (mkStaticFiles (exportPapersMetadata st) thumbnails)).
Proof.
  unfold staticPapers, exportPapersMetadata. simpl.
  induction (papers st) as [|p l IH]; simpl; constructor; [|exact IH].
  unfold survives_export. simpl. repeat (split; [reflexivity|]). reflexivity.
Qed.

Lemma exportThumbnails_loop_other (db : bool) (l : list Paper)
    (m : gmap string string) (w : World) (k : string) :
  k ∉ map (fun p => value_to_string (id p)) l ->
  (exportThumbnails_loop db l m w).1 !! k = m !! k.
Proof.
  revert m w. induction l as [|p l IH]; intros m w Hk; [reflexivity|].
  simpl in Hk. apply not_elem_of_cons in Hk as [Hne Hk]. simpl.
  destruct (truthy_thumbnail (thumbnail p)) as [t|].
  - rewrite IH by exact Hk. apply lookup_insert_ne. congruence.
  - destruct db; [|apply IH; exact Hk].
    destruct (getThumbnail (id p) w) as [[stored|] w1];
      [|apply IH; exact Hk].
    destruct (truthy_thumbnail stored) as [t|]; [|apply IH; exact Hk].
    rewrite IH by exact Hk. apply lookup_insert_ne. congruence.
Qed.

Lemma exportThumbnails_loop_kept (db : bool) (l : list Paper)
    (m : gmap string string) (w : World) (p : Paper) (t : string) :
  NoDup (map (fun p => value_to_string (id p)) l) ->
  p ∈ l -> truthy_thumbnail (thumbnail p) = Some t ->
  (exportThumbnails_loop db l m w).1 !! value_to_string (id p) = Some t.
Proof.
  revert m w. induction l as [|q l IH]; intros m w Hnd Hin Ht.
  - apply elem_of_nil in Hin. contradiction.
  - simpl in Hnd. apply NoDup_cons in Hnd as [Hq Hnd].
    apply elem_of_cons in Hin as [<- | Hin].
    + simpl. rewrite Ht. rewrite exportThumbnails_loop_other by exact Hq.
      apply lookup_insert_eq.
    + simpl. destruct (truthy_thumbnail (thumbnail q)) as [tq|];
        [apply IH; assumption|].
      destruct db; [|apply IH; assumption].
      destruct (getThumbnail (id q) w) as [[stored|] w1];
        [|apply IH; assumption].
      destruct (truthy_thumbnail stored); apply IH; assumption.
Qed.

Lemma exportThumbnails_loop_origin (db : bool) (l : list Paper)
    (m : gmap string string) (w : World) (k t : string) :
  (exportThumbnails_loop db l m w).1 !! k = Some t ->
  m !! k = Some t \/
  (Js.truthy_str t = true /\ exists p, p ∈ l /\ value_to_string (id p) = k).
Proof.
  revert m w. induction l as [|q l IH]; intros m w; simpl; [auto|].
  assert (Hins : forall t' w',
    Js.truthy_str t' = true ->
    (exportThumbnails_loop db l (<[value_to_string (id q) := t']> m) w').1
      !! k = Some t ->
    m !! k = Some t \/
    (Js.truthy_str t = true /\
     exists p, p ∈ q :: l /\ value_to_string (id p) = k)).
  { intros t' w' Ht' Hl. apply IH in Hl as [Hl | (Ht & p & Hp & Hk)].
    - destruct (decide (value_to_string (id q) = k)) as [Heq | Hne].
      + subst k. rewrite lookup_insert_eq in Hl. injection Hl as ->.
        right. split; [exact Ht'|]. exists q. split; [left | reflexivity].
      + rewrite lookup_insert_ne in Hl by exact Hne. left. exact Hl.
    - right. split; [exact Ht|]. exists p. split; [right; exact Hp | exact Hk]. }
  assert (Hskip : forall w',
    (exportThumbnails_loop db l m w').1 !! k = Some t ->
    m !! k = Some t \/
    (Js.truthy_str t = true /\
     exists p, p ∈ q :: l /\ value_to_string (id p) = k)).
  { intros w' Hl. apply IH in Hl as [Hl | (Ht & p & Hp & Hk)]; [auto|].
    right. split; [exact Ht|]. exists p. split; [right; exact Hp | exact Hk]. }
  destruct (truthy_thumbnail (thumbnail q)) as [tq|] eqn:Hq.
  - apply Hins. apply truthy_thumbnail_Some in Hq. tauto.
  - destruct db; [|apply Hskip].
    destruct (getThumbnail (id q) w) as [[stored|] w1]; [|apply Hskip].
    destruct (truthy_thumbnail stored) as [ts|] eqn:Hs; [|apply Hskip].
    apply Hins. apply truthy_thumbnail_Some in Hs. tauto.
Qed.

(** X26. When the ids of the collection are plain keys, distinct as
    property keys, every thumbnail held in memory is written to
    [thumbnails.json] under the id of its record, and is the thumbnail
    the static loader returns for that id; and every entry of the file is
    a non-empty thumbnail filed under the id of some record. *)
Theorem exported_thumbnails (st : Manager) (metadata : list Metadata) :
  forallb (fun p => plain_key (value_to_string (id p))) (papers st) = true ->
  NoDup (map (fun p => value_to_string (id p)) (papers st)) ->
  (forall p t, p ∈ papers st ->
     truthy_thumbnail (thumbnail p) = Some t ->
     staticThumbnail (mkStaticFiles metadata (exportThumbnails st).1) (id p)
       = Some t) /\
  (forall k t, (exportThumbnails st).1 !! k = Some t ->
     Js.truthy_str t = true /\
     exists p, p ∈ papers st /\ value_to_string (id p) = k).
Proof.
  intros _ Hnd. split.
  - intros p t Hp Ht. unfold staticThumbnail, exportThumbnails. simpl.
    rewrite (exportThumbnails_loop_kept _ _ _ _ p t Hnd Hp Ht).
    apply truthy_thumbnail_Some in Ht as [_ Ht]. simpl. rewrite Ht.
    reflexivity.
  - intros k t Hk. unfold exportThumbnails in Hk.
    apply exportThumbnails_loop_origin in Hk as [Hk | Hk]; [|exact Hk].
    rewrite lookup_empty in Hk. discriminate.
Qed.

End Loading.

End StartupFacts.

Module StartupExamples.
Import Catalog Startup Scenario StartupSamples.

(** The read of the records is rejected while the fallback store holds a
    record: the catalog starts empty. *)
Lemma rejected_read_empties_catalog_witness :
  papers (loadData (starting [published] true 0%nat)).1 = [] /\
  localStorage (loadData (starting [published] true 0%nat)).1
    = Some [published].
Proof.
  split; [|reflexivity].
  apply (StartupFacts.rejected_read_empties_catalog
           (starting [published] true 0%nat) 0%nat 0%nat None);
    [reflexivity | reflexivity | reflexivity | left; reflexivity].
Defined.


(** The thumbnail of the published record is served again under its id. *)
Lemma exported_thumbnails_witness :
  staticThumbnail
    (mkStaticFiles []
       (exportThumbnails
          (manager [published; paper (Js.Num 5) "Stored" 2020 2] None false)).1)
    (Js.Num 41) = Some stored_thumbnail.
Proof.
  apply (proj1 (StartupFacts.exported_thumbnails
                  (manager [published; paper (Js.Num 5) "Stored" 2020 2]
                     None false) [] eq_refl
                  ltac:(vm_compute; repeat constructor;
                        intros Hin; apply list_elem_of_In in Hin;
                        vm_compute in Hin; intuition discriminate))
          published stored_thumbnail);
    [left | reflexivity].
Defined.

End StartupExamples.
